(** * MD&A extraction engine: table regions, line classification, metadata

    A shallow embedding of the Python sources

      - [src/parsers/table_parser.py]            ([Module TableParser])
      - [src/parsers/enhanced_table_parser.py]   ([Module EnhancedTableParser])
      - [src/parsers/enhanced_text_normalizer.py]([Module EnhancedTextNormalizer])
      - [src/parsers/improved_table_patterns.py] ([Module Patterns])
      - [src/core/extractor.py]                  ([Module MDNAExtractor])

    Python [int] is [Z]; a [float] confidence score is a rational [Q]
    (the scores that occur are the literals 0.8, 0.9 and 0.95, on which the
    float order and the rational order agree); [str] is [string]; lists are
    lists; [Optional] is [option]. *)

From Stdlib Require Import ZArith QArith Bool List Ascii String Lia Sorted.
From Stdlib Require Import DecimalString.
Import ListNotations.

Local Open Scope string_scope.
Local Open Scope list_scope.
Local Open Scope Z_scope.

Set Implicit Arguments.

(* ================================================================== *)
(** * Python builtins used by the sources *)
(* ================================================================== *)

Module Py.

(** [a < b] on floats. *)
Definition Qlt_bool (a b : Q) : bool := negb (Qle_bool b a).

Fixpoint list_eqb {A} (eqb : A -> A -> bool) (l1 l2 : list A) : bool :=
  match l1, l2 with
  | [], [] => true
  | x :: r1, y :: r2 => eqb x y && list_eqb eqb r1 r2
  | _, _ => false
  end.

Definition option_eqb {A} (eqb : A -> A -> bool) (o1 o2 : option A) : bool :=
  match o1, o2 with
  | None, None => true
  | Some x, Some y => eqb x y
  | _, _ => false
  end.

(** [list.sort(key=...)] is stable: an insertion sort that puts an element
    in front of the first element whose key is not smaller. [le a b] is
    [key a <= key b]. *)
Section Sort.
Variable A : Type.
Variable le : A -> A -> bool.

Fixpoint insert (x : A) (l : list A) : list A :=
  match l with
  | [] => [x]
  | y :: r => if le x y then x :: l else y :: insert x r
  end.

Fixpoint sort (l : list A) : list A :=
  match l with
  | [] => []
  | x :: r => insert x (sort r)
  end.
End Sort.

(** ** Characters

    Text is ASCII: the classes below are Python's [str.isspace],
    [str.isdigit], ... restricted to code points below 128. *)

Definition ord (c : ascii) : nat := nat_of_ascii c.

Definition between (lo hi : nat) (c : ascii) : bool :=
  (Nat.leb lo (ord c)) && (Nat.leb (ord c) hi).

(** [\t \n \v \f \r], the separators 0x1c-0x1f and the space. *)
Definition isspace (c : ascii) : bool := between 9 13 c || between 28 32 c.
Definition isdigit (c : ascii) : bool := between 48 57 c.
Definition isupper (c : ascii) : bool := between 65 90 c.
Definition islower (c : ascii) : bool := between 97 122 c.
Definition isalpha (c : ascii) : bool := isupper c || islower c.
Definition isalnum (c : ascii) : bool := isalpha c || isdigit c.

Definition lower_char (c : ascii) : ascii :=
  if isupper c then ascii_of_nat (ord c + 32) else c.
Definition upper_char (c : ascii) : ascii :=
  if islower c then ascii_of_nat (ord c - 32) else c.

Definition newline : ascii := ascii_of_nat 10.
Definition tab : ascii := ascii_of_nat 9.

(** ** Strings *)

Definition chars : Type := list ascii.
Definition s2l : string -> chars := list_ascii_of_string.
Definition l2s : chars -> string := string_of_list_ascii.

Definition len (s : string) : Z := Z.of_nat (String.length s).

Definition lower (s : string) : string := l2s (map lower_char (s2l s)).
Definition upper (s : string) : string := l2s (map upper_char (s2l s)).

Fixpoint lstrip_l (l : chars) : chars :=
  match l with
  | c :: r => if isspace c then lstrip_l r else l
  | [] => []
  end.
Definition rstrip_l (l : chars) : chars := rev (lstrip_l (rev l)).
Definition strip_l (l : chars) : chars := rstrip_l (lstrip_l l).

Definition lstrip (s : string) : string := l2s (lstrip_l (s2l s)).
Definition rstrip (s : string) : string := l2s (rstrip_l (s2l s)).
Definition strip (s : string) : string := l2s (strip_l (s2l s)).

(** Truth value of a string: non-empty. *)
Definition truthy (s : string) : bool :=
  match s with EmptyString => false | _ => true end.

(** [s.split()] : maximal runs of non-whitespace. [cur] is the current
    run, reversed. *)
Fixpoint split_ws_l (l : chars) (cur : chars) : list chars :=
  match l with
  | [] => match cur with [] => [] | _ => [rev cur] end
  | c :: r =>
      if isspace c
      then match cur with
           | [] => split_ws_l r []
           | _ => rev cur :: split_ws_l r []
           end
      else split_ws_l r (c :: cur)
  end.
Definition split_ws (s : string) : list string :=
  map l2s (split_ws_l (s2l s) []).

(** [s.split(sep)] for a one-character separator: never empty. *)
Fixpoint split_char (sep : ascii) (s : string) : list string :=
  match s with
  | EmptyString => [EmptyString]
  | String c r =>
      if Ascii.eqb c sep then EmptyString :: split_char sep r
      else match split_char sep r with
           | [] => [String c EmptyString]
           | p :: ps => String c p :: ps
           end
  end.

(** [sep.join(parts)]. *)
Fixpoint join (sep : string) (parts : list string) : string :=
  match parts with
  | [] => EmptyString
  | [p] => p
  | p :: ps => p ++ sep ++ join sep ps
  end.

Fixpoint prefix_l (p l : chars) : bool :=
  match p, l with
  | [], _ => true
  | a :: p', b :: l' => Ascii.eqb a b && prefix_l p' l'
  | _ :: _, [] => false
  end.

(** [sub in s]. *)
Fixpoint contains_l (sub l : chars) : bool :=
  prefix_l sub l
  || match l with
     | [] => false
     | _ :: r => contains_l sub r
     end.
Definition contains (sub s : string) : bool := contains_l (s2l sub) (s2l s).

(** [any(k in s for k in keywords)]. *)
Definition any_in (keywords : list string) (s : string) : bool :=
  existsb (fun k => contains k s) keywords.

(** [s.count(c)] for a one-character [c]. *)
Definition count_char (c : ascii) (s : string) : Z :=
  Z.of_nat (List.length (filter (Ascii.eqb c) (s2l s))).

(** [s.find(sub)] : lowest index, or -1. *)
Fixpoint find_l (sub l : chars) (i : Z) : Z :=
  if prefix_l sub l then i
  else match l with
       | [] => -1
       | _ :: r => find_l sub r (i + 1)
       end.
Definition find (s sub : string) : Z := find_l (s2l sub) (s2l s) 0.

(** [s.rfind(sub)] : highest index, or -1. *)
Fixpoint rfind_l (sub l : chars) (i : Z) (best : Z) : Z :=
  let best' := if prefix_l sub l then i else best in
  match l with
  | [] => best'
  | _ :: r => rfind_l sub r (i + 1) best'
  end.
Definition rfind (s sub : string) : Z := rfind_l (s2l sub) (s2l s) 0 (-1).

Definition endswith (s suffix : string) : bool :=
  prefix_l (rev (s2l suffix)) (rev (s2l s)).

(** [s[:n]]. *)
Definition take (n : nat) (s : string) : string := l2s (firstn n (s2l s)).

(** [s.replace(c, by_)] for a one-character [c]. *)
Definition replace_char (c : ascii) (by_ : string) (s : string) : string :=
  l2s (flat_map (fun x => if Ascii.eqb x c then s2l by_ else [x]) (s2l s)).

(** [s.zfill(width)] for a string of digits. *)
Definition zfill (width : nat) (s : string) : string :=
  l2s (repeat "0"%char (width - String.length s)) ++ s.

(** [lines[a:b]] for [0 <= a]. *)
Definition slice {A} (l : list A) (a b : Z) : list A :=
  firstn (Z.to_nat (b - a)) (skipn (Z.to_nat a) l).

(** [lines[i]] for an index within range. *)
Definition get (l : list string) (i : Z) : string :=
  nth (Z.to_nat i) l EmptyString.

End Py.

(* ================================================================== *)
(** * Python's [re] : a backtracking matcher *)
(* ================================================================== *)

(** The subset of regular-expression syntax the sources use, matched the
    way [re] matches: alternatives in order, greedy quantifiers longest
    first, lazy ones shortest first, continuing with the rest of the pattern
    and backtracking on failure. *)
Module Re.
Import Py.

Inductive regex : Type :=
| Eps                                   (* empty pattern *)
| Chr (c : ascii)                       (* a literal character *)
| Cls (p : ascii -> bool)               (* [...], \d, \s, \w *)
| Dot                                   (* . : anything but a newline *)
| Seq (r1 r2 : regex)
| Alt (r1 r2 : regex)                   (* r1|r2 *)
| Rep (r : regex) (lo : nat) (hi : option nat) (greedy : bool)
                                        (* r{lo,hi}, r{lo,hi}? *)
| Grp (n : nat) (r : regex)             (* capturing group number n *)
| Bol                                   (* ^ *)
| Eol                                   (* $ *)
| WordB                                 (* \b *)
| NotBehind (p : ascii -> bool)         (* (?<![...]) *)
| NotAhead (p : ascii -> bool).         (* (?![...]) *)

(** Flags: [re.IGNORECASE], [re.MULTILINE]. *)
Record flags : Type := mkFlags { ignorecase : bool; multiline : bool }.
Definition NOFLAGS := mkFlags false false.
Definition IGNORECASE := mkFlags true false.
Definition IGNORECASE_MULTILINE := mkFlags true true.
Definition MULTILINE := mkFlags false true.

(** A position in the subject: the character before it, its index, the
    characters from it on, and the groups captured so far
    (number, start, end). *)
Record mstate : Type := mkState {
  ms_prev : option ascii;
  ms_pos : nat;
  ms_rest : chars;
  ms_caps : list (nat * (nat * nat))
}.

Definition advance (st : mstate) (x : ascii) (xs : chars) : mstate :=
  mkState (Some x) (S (ms_pos st)) xs (ms_caps st).

Definition set_cap (n start : nat) (st : mstate) : mstate :=
  mkState (ms_prev st) (ms_pos st) (ms_rest st)
          ((n, (start, ms_pos st)) :: ms_caps st).

Definition isword (c : ascii) : bool := isalnum c || Ascii.eqb c "_"%char.

Definition chr_match (f : flags) (c x : ascii) : bool :=
  if ignorecase f then Ascii.eqb (lower_char c) (lower_char x)
  else Ascii.eqb c x.

Definition cls_match (f : flags) (p : ascii -> bool) (x : ascii) : bool :=
  if ignorecase f then p x || p (lower_char x) || p (upper_char x)
  else p x.

Definition opt_test (p : ascii -> bool) (o : option ascii) : bool :=
  match o with Some c => p c | None => false end.

Definition at_bol (f : flags) (st : mstate) : bool :=
  match ms_prev st with
  | None => true
  | Some c => multiline f && Ascii.eqb c newline
  end.

Definition at_eol (f : flags) (st : mstate) : bool :=
  match ms_rest st with
  | [] => true
  | c :: r =>
      Ascii.eqb c newline
      && (multiline f || match r with [] => true | _ => false end)
  end.

Definition at_wordb (st : mstate) : bool :=
  xorb (opt_test isword (ms_prev st)) (opt_test isword (hd_error (ms_rest st))).

Section Matcher.
Variable f : flags.
Variable R : Type.

(** The rounds of a repetition [r{lo,hi}] whose body is matched by
    [body], followed by the continuation [k]. Another round is taken
    only below the upper bound and, past the lower bound, only if the
    round consumed a character. [cnt] counts the rounds done. *)
Section Rounds.
Variable body : mstate -> (mstate -> option R) -> option R.
Variable lo : nat.
Variable hi : option nat.
Variable greedy : bool.
Variable k : mstate -> option R.

Fixpoint rep_loop (fuel : nat) (cnt : nat) (st : mstate) {struct fuel}
  : option R :=
  match fuel with
  | O => None
  | S fuel' =>
      let below_hi :=
        match hi with Some h => Nat.ltb cnt h | None => true end in
      let more (_ : unit) :=
        if below_hi
        then body st (fun st' =>
               if Nat.ltb cnt lo || Nat.ltb (ms_pos st) (ms_pos st')
               then rep_loop fuel' (S cnt) st'
               else None)
        else None in
      let stop (_ : unit) :=
        if Nat.leb lo cnt then k st else None in
      if greedy
      then match more tt with
           | Some v => Some v
           | None => stop tt
           end
      else match stop tt with
           | Some v => Some v
           | None => more tt
           end
  end.
End Rounds.

(** [m r st k] : match [r] at [st], then continue with [k]; the first
    success in priority order. *)
Fixpoint m (r : regex) (st : mstate) (k : mstate -> option R) {struct r}
  : option R :=
  match r with
  | Eps => k st
  | Chr c =>
      match ms_rest st with
      | x :: xs => if chr_match f c x then k (advance st x xs) else None
      | [] => None
      end
  | Cls p =>
      match ms_rest st with
      | x :: xs => if cls_match f p x then k (advance st x xs) else None
      | [] => None
      end
  | Dot =>
      match ms_rest st with
      | x :: xs => if Ascii.eqb x newline then None else k (advance st x xs)
      | [] => None
      end
  | Seq r1 r2 => m r1 st (fun st' => m r2 st' k)
  | Alt r1 r2 =>
      match m r1 st k with
      | Some v => Some v
      | None => m r2 st k
      end
  | Rep r1 lo hi greedy =>
      rep_loop (m r1) lo hi greedy k
               (S (List.length (ms_rest st) + lo)) O st
  | Grp n r1 =>
      m r1 st (fun st' => k (set_cap n (ms_pos st) st'))
  | Bol => if at_bol f st then k st else None
  | Eol => if at_eol f st then k st else None
  | WordB => if at_wordb st then k st else None
  | NotBehind p => if opt_test p (ms_prev st) then None else k st
  | NotAhead p =>
      if opt_test p (hd_error (ms_rest st)) then None else k st
  end.
End Matcher.

(** A match object: [start()], [end()], the subject after the match and
    the captured groups. *)
Record match_obj : Type := mkMatch {
  m_subject : chars;
  m_start : nat;
  m_end_state : mstate
}.

Definition m_end (mo : match_obj) : nat := ms_pos (m_end_state mo).

Definition substr (l : chars) (a b : nat) : string :=
  l2s (firstn (b - a) (skipn a l)).

(** [match.group(0)]. *)
Definition group0 (mo : match_obj) : string :=
  substr (m_subject mo) (m_start mo) (m_end mo).

Fixpoint lookup_cap (n : nat) (caps : list (nat * (nat * nat)))
  : option (nat * nat) :=
  match caps with
  | [] => None
  | (n', se) :: r => if Nat.eqb n n' then Some se else lookup_cap n r
  end.

(** [match.group(n)] for a group that took part in the match. *)
Definition group (n : nat) (mo : match_obj) : string :=
  match lookup_cap n (ms_caps (m_end_state mo)) with
  | Some (a, b) => substr (m_subject mo) a b
  | None => EmptyString
  end.

(** Scan for the leftmost position at which the pattern matches. *)
Fixpoint scan (f : flags) (r : regex) (subject : chars)
         (prev : option ascii) (pos : nat) (rest : chars)
  : option match_obj :=
  match m f r (mkState prev pos rest []) (fun st => Some st) with
  | Some st => Some (mkMatch subject pos st)
  | None =>
      match rest with
      | [] => None
      | x :: xs => scan f r subject (Some x) (S pos) xs
      end
  end.

(** [re.search(r, s, flags)]. *)
Definition search (f : flags) (r : regex) (s : string) : option match_obj :=
  scan f r (s2l s) None O (s2l s).

(** [re.match(r, s, flags)] : at the beginning of the string only. *)
Definition match_ (f : flags) (r : regex) (s : string) : option match_obj :=
  match m f r (mkState None O (s2l s) []) (fun st => Some st) with
  | Some st => Some (mkMatch (s2l s) O st)
  | None => None
  end.

Definition is_some {A} (o : option A) : bool :=
  match o with Some _ => true | None => false end.

(** [bool(re.search(...))], [bool(re.match(...))]. *)
Definition searchb (f : flags) (r : regex) (s : string) : bool :=
  is_some (search f r s).
Definition matchb (f : flags) (r : regex) (s : string) : bool :=
  is_some (match_ f r s).

(** All non-overlapping matches, left to right, as (start, end) pairs.
    After an empty match the scan resumes one character further. *)
Fixpoint spans (fuel : nat) (f : flags) (r : regex) (subject : chars)
         (prev : option ascii) (pos : nat) (rest : chars)
  : list (nat * nat) :=
  match fuel with
  | O => []
  | S fuel' =>
      match scan f r subject prev pos rest with
      | None => []
      | Some mo =>
          let st := m_end_state mo in
          if Nat.ltb (m_start mo) (ms_pos st)
          then (m_start mo, ms_pos st)
               :: spans fuel' f r subject (ms_prev st) (ms_pos st) (ms_rest st)
          else match ms_rest st with
               | [] => [(m_start mo, ms_pos st)]
               | x :: xs =>
                   (m_start mo, ms_pos st)
                   :: spans fuel' f r subject (Some x) (S (ms_pos st)) xs
               end
      end
  end.

Definition all_spans (f : flags) (r : regex) (s : string) : list (nat * nat) :=
  spans (S (String.length s)) f r (s2l s) None O (s2l s).

(** [re.findall(r, s)] for a pattern without groups. *)
Definition findall (f : flags) (r : regex) (s : string) : list string :=
  map (fun ab => substr (s2l s) (fst ab) (snd ab)) (all_spans f r s).

(** The pieces of the subject between the matches. *)
Fixpoint pieces (subject : chars) (from : nat) (sp : list (nat * nat))
  : list string :=
  match sp with
  | [] => [substr subject from (List.length subject)]
  | (a, b) :: r => substr subject from a :: pieces subject b r
  end.

(** [re.split(r, s)] for a pattern without groups that matches no empty
    string. *)
Definition split (f : flags) (r : regex) (s : string) : list string :=
  pieces (s2l s) O (all_spans f r s).

(** [re.sub(r, repl, s)] for a constant replacement. *)
Definition sub (f : flags) (r : regex) (repl : string) (s : string) : string :=
  join repl (split f r s).

(** ** Pattern syntax *)

Definition star (r : regex) : regex := Rep r 0 None true.        (* r*  *)
Definition plus (r : regex) : regex := Rep r 1 None true.        (* r+  *)
Definition opt (r : regex) : regex := Rep r 0 (Some 1%nat) true. (* r?  *)
Definition lazy_plus (r : regex) : regex := Rep r 1 None false.  (* r+? *)
Definition lazy_star (r : regex) : regex := Rep r 0 None false.  (* r*? *)
Definition at_least (n : nat) (r : regex) : regex := Rep r n None true.
Definition times (lo hi : nat) (r : regex) : regex := Rep r lo (Some hi) true.

(** A literal string. *)
Fixpoint lit_l (l : chars) : regex :=
  match l with
  | [] => Eps
  | [c] => Chr c
  | c :: r => Seq (Chr c) (lit_l r)
  end.
Definition lit (s : string) : regex := lit_l (s2l s).

Fixpoint seq (rs : list regex) : regex :=
  match rs with
  | [] => Eps
  | [r] => r
  | r :: rest => Seq r (seq rest)
  end.

Fixpoint alt (rs : list regex) : regex :=
  match rs with
  | [] => Cls (fun _ => false)
  | [r] => r
  | r :: rest => Alt r (alt rest)
  end.

(** [(?:a|b|c)] over literal words. *)
Definition words (ws : list string) : regex := alt (map lit ws).

Definition d : regex := Cls isdigit.                 (* \d *)
Definition s : regex := Cls isspace.                 (* \s *)
Definition w : regex := Cls isword.                  (* \w *)
Definition one_of (cs : string) : ascii -> bool :=
  fun c => existsb (Ascii.eqb c) (s2l cs).
Definition set (cs : string) : regex := Cls (one_of cs).
Definition digit_or (cs : string) : ascii -> bool :=
  fun c => isdigit c || one_of cs c.

End Re.

(* ================================================================== *)
(** * Line ranges of tables *)
(* ================================================================== *)

(** The closed-interval intersection test on [(start_line, end_line)]:
    [a.start <= b.end and a.end >= b.start]. *)
Definition ranges_overlap (a b : Z * Z) : Prop :=
  fst a <= snd b /\ snd a >= fst b.

Definition ranges_overlapb (a b : Z * Z) : bool :=
  (fst a <=? snd b) && (snd a >=? fst b).

(* ================================================================== *)
(** * table_parser.py : deduplication *)
(* ================================================================== *)

Module TableParser.

(** [@dataclass class Table]. *)
Record Table : Type := mkTable {
  content : list (list string);
  start_pos : Z;
  end_pos : Z;
  start_line : Z;
  end_line : Z;
  title : option string;
  confidence : Q;
  table_type : string;
  original_text : string;
  raw_lines : list string
}.

Definition range (t : Table) : Z * Z := (start_line t, end_line t).

(** The dataclass-generated [__eq__]: field-wise comparison. *)
Definition table_eqb (a b : Table) : bool :=
  Py.list_eqb (Py.list_eqb String.eqb) (content a) (content b)
  && (start_pos a =? start_pos b) && (end_pos a =? end_pos b)
  && (start_line a =? start_line b) && (end_line a =? end_line b)
  && Py.option_eqb String.eqb (title a) (title b)
  && Qeq_bool (confidence a) (confidence b)
  && String.eqb (table_type a) (table_type b)
  && String.eqb (original_text a) (original_text b)
  && Py.list_eqb String.eqb (raw_lines a) (raw_lines b).

(** [deduped.remove(existing)]: drops the first element equal to
    [existing]. *)
Fixpoint list_remove (x : Table) (l : list Table) : list Table :=
  match l with
  | [] => []
  | y :: r => if table_eqb y x then r else y :: list_remove x r
  end.

(** [tables.sort(key=lambda t: t.start_line)]. *)
Definition sort_tables : list Table -> list Table :=
  Py.sort (fun a b => start_line a <=? start_line b).

(** The inner [for existing in deduped] loop up to its [break]: the first
    accepted table whose range contains [table.start_line]. *)
Fixpoint first_overlap (table : Table) (deduped : list Table) : option Table :=
  match deduped with
  | [] => None
  | existing :: rest =>
      if (start_line table >=? start_line existing)
         && (start_line table <=? end_line existing)
      then Some existing
      else first_overlap table rest
  end.

(** One iteration of [for table in tables]. *)
Definition dedup_step (deduped : list Table) (table : Table) : list Table :=
  match first_overlap table deduped with
  | Some existing =>
      if Py.Qlt_bool (confidence existing) (confidence table)
      then list_remove existing deduped ++ [table]
      else deduped
  | None => deduped ++ [table]
  end.

Definition _deduplicate_tables (tables : list Table) : list Table :=
  match tables with
  | [] => tables
  | _ => fold_left dedup_step (sort_tables tables) []
  end.


(** ** Line predicates *)

Import Py Re.

Definition dc : regex := Cls (digit_or ",").

(** [(?:\.\d+)?] *)
Definition frac : regex := opt (Seq (Chr ".") (plus d)).

Definition _is_financial_data_line (line : string) : bool :=
  (* \$\s*[\d,]+(?:\.\d+)?(?:\s*(?:million|billion|thousand))? *)
  if searchb IGNORECASE
       (seq [Chr "$"; star s; plus dc; frac;
             opt (Seq (star s) (words ["million"; "billion"; "thousand"]))])
       line
  then true
  (* \d+(?:\.\d+)?\s*% *)
  else if searchb NOFLAGS (seq [plus d; frac; star s; Chr "%"]) line then true
  (* \(\s*[\d,]+(?:\.\d+)?\s*\) *)
  else if searchb NOFLAGS
            (seq [Chr "("; star s; plus dc; frac; star s; Chr ")"]) line
  then true
  else
    (* (?<!\w)[\d,]+(?:\.\d+)?(?!\w) *)
    let numbers :=
      findall NOFLAGS (seq [NotBehind isword; plus dc; frac; NotAhead isword])
              line in
    if Z.of_nat (List.length numbers) >=? 2
    then
      let first_num_pos := find line (hd "" numbers) in
      let last_num_pos := rfind line (last numbers "") in
      last_num_pos - first_num_pos >? len (hd "" numbers) + 10
    else false.

Definition _is_table_note_or_total (line : string) : bool :=
  existsb (fun pattern => searchb IGNORECASE pattern line)
    [ (* ^\s*\([a-z0-9]\) *)
      seq [Bol; star s; Chr "("; Cls (fun c => islower c || isdigit c); Chr ")"];
      (* ^\s*\* *)
      seq [Bol; star s; Chr "*"];
      (* (?:total|subtotal|net|gross)\s*:?\s*\$?[\d,] *)
      seq [words ["total"; "subtotal"; "net"; "gross"]; star s; opt (Chr ":");
           star s; opt (Chr "$"); dc];
      (* (?:see|refer\s+to)\s+(?:note|accompanying) *)
      seq [Alt (lit "see") (seq [lit "refer"; plus s; lit "to"]); plus s;
           words ["note"; "accompanying"]] ].

Definition _is_horizontal_delimiter (line : string) : bool :=
  let stripped := strip line in
  if len stripped <? 3 then false
  else
    (* set(stripped.replace(' ', '')) has one element, a delimiter *)
    match s2l (replace_char " " "" stripped) with
    | [] => false
    | c :: r => forallb (Ascii.eqb c) r && one_of "-=_" c
    end.

Definition _is_table_line (line : string) : bool :=
  if searchb NOFLAGS (at_least 3 s) line
     && (let segments := split NOFLAGS (at_least 3 s) (strip line) in
         (Z.of_nat (List.length segments) >=? 2)
         && (let non_empty := filter (fun sg => truthy (strip sg)) segments in
             Z.of_nat (List.length non_empty) >=? 2))
  then true
  else if contains (String tab "") line
          && (count_char tab line >=? 1)
          && (let segments := split_char tab line in
              let non_empty := filter (fun sg => truthy (strip sg)) segments in
              Z.of_nat (List.length non_empty) >=? 2)
  then true
  else if contains "|" line && (count_char "|" line >=? 2) then true
  else if _is_horizontal_delimiter line then true
  else _is_financial_data_line line.

Definition _looks_like_table_data (line : string) : bool :=
  if searchb NOFLAGS d line
     && (let numbers := findall NOFLAGS (seq [plus dc; frac]) line in
         (Z.of_nat (List.length numbers) >=? 2)
         || _is_financial_data_line line)
  then true
  else
    (* \s{3,}|\t *)
    searchb NOFLAGS (Alt (at_least 3 s) (Chr tab)) line
    && (let segments :=
          split NOFLAGS (Alt (at_least 3 s) (Chr tab)) (strip line) in
        let non_empty := filter (fun sg => truthy (strip sg)) segments in
        Z.of_nat (List.length non_empty) >=? 2).

Definition _is_table_continuation (line : string) : bool :=
  let continuation_keywords :=
    ["total"; "subtotal"; "net"; "gross"; "sum";
     "see note"; "see accompanying"; "continued";
     "includes"; "excludes"; "consists of";
     "represents"; "related to"; "primarily"] in
  let line_lower := lower line in
  if any_in continuation_keywords line_lower then true
  (* ^\s*\([a-z0-9]\) , IGNORECASE *)
  else if matchb IGNORECASE
            (seq [Bol; star s; Chr "("; Cls (fun c => islower c || isdigit c);
                  Chr ")"]) line
  then true
  (* ^\s*\*+\s* *)
  else matchb NOFLAGS (seq [Bol; star s; plus (Chr "*"); star s]) line.

(** [_extract_table_title]: the loop over [i in range(1, min(4,
    table_start + 1))], nearest line first. *)
Fixpoint title_loop (n : nat) (i : Z) (lines : list string) (table_start : Z)
  : option string :=
  match n with
  | O => None
  | S n' =>
      let line_idx := table_start - i in
      if line_idx <? 0 then None
      else
        let line := strip (get lines line_idx) in
        if negb (truthy line) then title_loop n' (i + 1) lines table_start
        else if (len line <? 200)
                && negb (_is_table_line line)
                && negb (_is_financial_data_line line)
                && negb (endswith line ".")
                && negb (matchb NOFLAGS (seq [Bol; plus d; Eol]) line)
             then
               if any_in ["table"; "schedule"; "summary"; "consolidated";
                          "condensed"; "statement"; "analysis"] (lower line)
               then Some line
               else if len line >? 10 then Some line
               else title_loop n' (i + 1) lines table_start
             else title_loop n' (i + 1) lines table_start
  end.

Definition _extract_table_title (lines : list string) (table_start : Z)
  : option string :=
  title_loop (Z.to_nat (Z.min 4 (table_start + 1) - 1)) 1 lines table_start.

(** ** The extraction strategies *)

Definition has_digit (line : string) : bool := searchb NOFLAGS d line.

Section Config.
(** [config.settings.TABLE_MIN_ROWS]. *)
Variable TABLE_MIN_ROWS : Z.

(** The collection loop of [_extract_financial_table], over the lines
    from [current] on: the lines collected and the numeric flag. *)
Fixpoint financial_loop (rest : list string) (table_raw_lines : list string)
         (consecutive_empty : Z) (has_numeric_data : bool)
  : list string * bool :=
  match rest with
  | [] => (table_raw_lines, has_numeric_data)
  | line :: rest' =>
      if negb (truthy (strip line))
      then
        let consecutive_empty := consecutive_empty + 1 in
        if consecutive_empty >? 2
        then (table_raw_lines, has_numeric_data)
        else financial_loop rest' (table_raw_lines ++ [line])
                            consecutive_empty has_numeric_data
      else
        let has_numeric_data :=
          if has_digit line then true else has_numeric_data in
        if _is_table_line line || _is_financial_data_line line
           || _is_table_continuation line
        then financial_loop rest' (table_raw_lines ++ [line]) 0
                            has_numeric_data
        else if _is_table_note_or_total line
             then financial_loop rest' (table_raw_lines ++ [line]) 0
                                 has_numeric_data
             else (table_raw_lines, has_numeric_data)
  end.

Definition _extract_financial_table (lines : list string) (start_idx : Z)
  : option Table :=
  let '(title, table_start) :=
    if (start_idx >? 0) && negb (_is_table_line (get lines (start_idx - 1)))
    then
      let potential_title := strip (get lines (start_idx - 1)) in
      if truthy potential_title && (len potential_title <? 200)
      then (Some potential_title, start_idx - 1)
      else (None, start_idx)
    else (None, start_idx) in
  let '(table_raw_lines, has_numeric_data) :=
    financial_loop (skipn (Z.to_nat start_idx) lines) [] 0 false in
  if (Z.of_nat (List.length table_raw_lines) <? TABLE_MIN_ROWS)
     || negb has_numeric_data
  then None
  else
    let table_end := start_idx + Z.of_nat (List.length table_raw_lines) - 1 in
    Some (mkTable [] 0 0 table_start table_end title (95 # 100) "financial"
                  (join (String newline "")
                        (slice lines table_start (table_end + 1)))
                  (slice lines table_start (table_end + 1))).

(** The loop of [_extract_delimited_table]. *)
Fixpoint delimited_loop (rest : list string) (table_raw_lines : list string)
         (consecutive_empty : Z) : list string :=
  match rest with
  | [] => table_raw_lines
  | line :: rest' =>
      if consecutive_empty <? 2
      then
        if negb (truthy (strip line))
        then
          let consecutive_empty := consecutive_empty + 1 in
          delimited_loop rest'
            (if consecutive_empty =? 1 then table_raw_lines ++ [line]
             else table_raw_lines)
            consecutive_empty
        else
          if _looks_like_table_data line || _is_table_continuation line
          then delimited_loop rest' (table_raw_lines ++ [line]) 0
          else table_raw_lines
      else table_raw_lines
  end.

Definition _extract_delimited_table (lines : list string) (delimiter_line : Z)
  : option Table :=
  if (delimiter_line >? 0)
     && negb (truthy (strip (get lines (delimiter_line - 1))))
  then None
  else
    let table_start :=
      if delimiter_line >? 0 then delimiter_line - 1 else delimiter_line in
    let table_raw_lines :=
      (if delimiter_line >? 0 then [get lines (delimiter_line - 1)] else [])
        ++ [get lines delimiter_line] in
    let table_raw_lines :=
      delimited_loop (skipn (Z.to_nat (delimiter_line + 1)) lines)
                     table_raw_lines 0 in
    if Z.of_nat (List.length table_raw_lines) <? TABLE_MIN_ROWS then None
    else
      let title := _extract_table_title lines table_start in
      let end_line :=
        table_start + Z.of_nat (List.length table_raw_lines) - 1 in
      Some (mkTable [] 0 0 table_start end_line title (90 # 100) "delimited"
                    (join (String newline "") table_raw_lines)
                    (slice lines table_start (end_line + 1))).

(** The loop of [_extract_pipe_table]. *)
Fixpoint pipe_loop (rest : list string) (table_raw_lines : list string)
  : list string :=
  match rest with
  | [] => table_raw_lines
  | line :: rest' =>
      if contains "|" line
      then pipe_loop rest' (table_raw_lines ++ [line])
      else if truthy (strip line) && _is_table_continuation line
           then pipe_loop rest' (table_raw_lines ++ [line])
           else table_raw_lines
  end.

Definition _extract_pipe_table (lines : list string) (start_line : Z)
  : option Table :=
  let table_raw_lines :=
    pipe_loop (skipn (Z.to_nat start_line) lines) [] in
  if Z.of_nat (List.length table_raw_lines) <? TABLE_MIN_ROWS then None
  else
    let title := _extract_table_title lines start_line in
    let end_line := start_line + Z.of_nat (List.length table_raw_lines) - 1 in
    Some (mkTable [] 0 0 start_line end_line title (95 # 100) "delimited"
                  (join (String newline "") table_raw_lines)
                  (slice lines start_line (end_line + 1))).

(** The loop of [_extract_aligned_table]. *)
Fixpoint aligned_loop (rest : list string) (table_raw_lines : list string)
         (consecutive_empty : Z) (has_numeric_data : bool)
  : list string * bool :=
  match rest with
  | [] => (table_raw_lines, has_numeric_data)
  | line :: rest' =>
      if consecutive_empty <? 2
      then
        if negb (truthy (strip line))
        then
          let consecutive_empty := consecutive_empty + 1 in
          aligned_loop rest'
            (if consecutive_empty =? 1 then table_raw_lines ++ [line]
             else table_raw_lines)
            consecutive_empty has_numeric_data
        else
          let has_numeric_data :=
            if has_digit line then true else has_numeric_data in
          if _is_table_line line || _is_financial_data_line line
             || _is_table_continuation line
          then aligned_loop rest' (table_raw_lines ++ [line]) 0
                            has_numeric_data
          else (table_raw_lines, has_numeric_data)
      else (table_raw_lines, has_numeric_data)
  end.

Definition _extract_aligned_table (lines : list string) (start_line : Z)
  : option Table :=
  let '(table_raw_lines, has_numeric_data) :=
    aligned_loop (skipn (Z.to_nat (start_line + 1)) lines)
                 [get lines start_line] 0 false in
  if (Z.of_nat (List.length table_raw_lines) <? TABLE_MIN_ROWS)
     || negb has_numeric_data
  then None
  else
    let title := _extract_table_title lines start_line in
    let end_line := start_line + Z.of_nat (List.length table_raw_lines) - 1 in
    Some (mkTable [] 0 0 start_line end_line title (80 # 100) "aligned"
                  (join (String newline "") table_raw_lines)
                  (slice lines start_line (end_line + 1))).
End Config.

End TableParser.

(* ================================================================== *)
(** * improved_table_patterns.py *)
(* ================================================================== *)

Module Patterns.
Import Py Re.

(** [\s*:?\s*$] *)
Definition colon_end : regex := seq [star s; opt (Chr ":"); star s; Eol].

(** [FINANCIAL_STATEMENT_PATTERNS]; each is compiled with
    [re.IGNORECASE | re.MULTILINE]. *)
Definition FINANCIAL_STATEMENT_PATTERNS : list regex :=
  [ (* ^\s*(?:current\s+)?assets?\s*:?\s*$ *)
    seq [Bol; star s; opt (seq [lit "current"; plus s]); lit "asset";
         opt (Chr "s"); colon_end];
    (* ^\s*(?:current\s+)?liabilities\s*:?\s*$ *)
    seq [Bol; star s; opt (seq [lit "current"; plus s]); lit "liabilities";
         colon_end];
    (* ^\s*(?:stockholder|shareholder)s?\s+equity\s*:?\s*$ *)
    seq [Bol; star s; words ["stockholder"; "shareholder"]; opt (Chr "s");
         plus s; lit "equity"; colon_end];
    (* ^\s*total\s+(?:assets?|liabilities|equity)\s*$ *)
    seq [Bol; star s; lit "total"; plus s;
         alt [seq [lit "asset"; opt (Chr "s")]; lit "liabilities"; lit "equity"];
         star s; Eol];
    (* ^\s*(?:total\s+)?(?:revenue|sales)\s*:?\s*$ *)
    seq [Bol; star s; opt (seq [lit "total"; plus s]);
         words ["revenue"; "sales"]; colon_end];
    (* ^\s*(?:cost\s+of\s+)?(?:sales|revenue|goods\s+sold)\s*:?\s*$ *)
    seq [Bol; star s; opt (seq [lit "cost"; plus s; lit "of"; plus s]);
         alt [lit "sales"; lit "revenue"; seq [lit "goods"; plus s; lit "sold"]];
         colon_end];
    (* ^\s*gross\s+(?:profit|margin)\s*:?\s*$ *)
    seq [Bol; star s; lit "gross"; plus s; words ["profit"; "margin"];
         colon_end];
    (* ^\s*operating\s+(?:income|expenses?)\s*:?\s*$ *)
    seq [Bol; star s; lit "operating"; plus s;
         alt [lit "income"; seq [lit "expense"; opt (Chr "s")]]; colon_end];
    (* ^\s*net\s+(?:income|loss)\s*:?\s*$ *)
    seq [Bol; star s; lit "net"; plus s; words ["income"; "loss"]; colon_end];
    (* ^\s*(?:net\s+)?cash\s+(?:provided|used)\s+by\s*:?\s*$ *)
    seq [Bol; star s; opt (seq [lit "net"; plus s]); lit "cash"; plus s;
         words ["provided"; "used"]; plus s; lit "by"; colon_end];
    (* ^\s*operating\s+activities\s*:?\s*$ *)
    seq [Bol; star s; lit "operating"; plus s; lit "activities"; colon_end];
    (* ^\s*investing\s+activities\s*:?\s*$ *)
    seq [Bol; star s; lit "investing"; plus s; lit "activities"; colon_end];
    (* ^\s*financing\s+activities\s*:?\s*$ *)
    seq [Bol; star s; lit "financing"; plus s; lit "activities"; colon_end] ].

End Patterns.

(* ================================================================== *)
(** * enhanced_table_parser.py : deduplication *)
(* ================================================================== *)

Module EnhancedTableParser.

Record Table : Type := mkTable {
  content : list (list string);
  start_pos : Z;
  end_pos : Z;
  start_line : Z;
  end_line : Z;
  title : option string;
  confidence : Q;
  table_type : string;
  original_text : string;
  column_count : Z;
  row_count : Z;
  has_monetary_data : bool;
  has_percentage_data : bool
}.

Definition range (t : Table) : Z * Z := (start_line t, end_line t).

(** [key=lambda t: (t.start_line, -t.confidence)], tuples compared
    lexicographically. *)
Definition key_le (a b : Table) : bool :=
  (start_line a <? start_line b)
  || ((start_line a =? start_line b)
      && Qle_bool (- confidence a) (- confidence b)).

Definition sort_tables : list Table -> list Table := Py.sort key_le.

(** The inner loop: [overlap] ends up [True] exactly when some accepted
    table intersects [table] and has at least its confidence. *)
Fixpoint overlap_flag (table : Table) (deduped : list Table) : bool :=
  match deduped with
  | [] => false
  | existing :: rest =>
      if (start_line table <=? end_line existing)
         && (end_line table >=? start_line existing)
      then
        if Qle_bool (confidence table) (confidence existing)
        then true
        else overlap_flag table rest
      else overlap_flag table rest
  end.

Definition dedup_step (deduped : list Table) (table : Table) : list Table :=
  if overlap_flag table deduped then deduped else deduped ++ [table].

Definition _deduplicate_tables (tables : list Table) : list Table :=
  match tables with
  | [] => tables
  | _ => fold_left dedup_step (sort_tables tables) []
  end.


(** ** Line predicates *)

Import Py Re.

(** A call either returns or raises. *)
Inductive outcome (A : Type) : Type :=
| Ok (a : A)
| Raise (exc : string).
Arguments Ok {A} a.
Arguments Raise {A} exc.

Definition bind {A B} (o : outcome A) (k : A -> outcome B) : outcome B :=
  match o with
  | Ok a => k a
  | Raise e => Raise e
  end.

(** [self.financial_keywords]. *)
Definition financial_keywords : list string :=
  ["revenue"; "income"; "profit"; "loss"; "assets"; "liabilities"; "equity";
   "cash"; "flow"; "expenses"; "costs"; "sales"; "operating"; "net"; "gross";
   "total"; "current"; "non-current"; "stockholder"; "shareholder"].

Definition dc : regex := Cls (digit_or ",").
Definition frac : regex := opt (Seq (Chr ".") (plus d)).

(** [\d{1,3}(?:,\d{3})*(?:\.\d+)?] *)
Definition grouped_number : regex :=
  seq [times 1 3 d; star (Seq (Chr ",") (times 3 3 d)); frac].

Definition _is_financial_statement_header (line : string) : bool :=
  existsb (fun pattern => searchb IGNORECASE_MULTILINE pattern line)
          Patterns.FINANCIAL_STATEMENT_PATTERNS.

Definition _has_multiple_monetary_values (line : string) : bool :=
  (* \$?\s*\(?\d{1,3}(?:,\d{3})*(?:\.\d+)?\)? *)
  let money_pattern :=
    seq [opt (Chr "$"); star s; opt (Chr "("); grouped_number; opt (Chr ")")] in
  let matches := findall NOFLAGS money_pattern line in
  (* \d+\.?\d*% *)
  let percent_pattern := seq [plus d; opt (Chr "."); star d; Chr "%"] in
  let percent_matches := findall NOFLAGS percent_pattern line in
  (Z.of_nat (List.length matches) >=? 2)
  || (Z.of_nat (List.length percent_matches) >=? 2).

Definition _has_columnar_structure (line : string) : bool :=
  if searchb NOFLAGS (at_least 4 s) line
     && (let segments := split NOFLAGS (at_least 4 s) (strip line) in
         Z.of_nat (List.length segments) >=? 2)
  then true
  else if contains (String tab "") line
          && (let segments := split_char tab line in
              Z.of_nat (List.length segments) >=? 2)
  then true
  else
    (* [\d$%] *)
    let number_pattern := Cls (digit_or "$%") in
    let segments := split NOFLAGS (at_least 2 s) (strip line) in
    let numeric_segments :=
      List.length (filter (searchb NOFLAGS number_pattern) segments) in
    (Z.of_nat (List.length segments) >=? 2)
    && (Z.of_nat numeric_segments >=? 1).

Definition _is_financial_data_line (line : string) : bool :=
  let line_lower := lower line in
  let financial_indicators := any_in financial_keywords line_lower in
  (* \$\s*\(?[\d,]+(?:\.\d+)?\)? *)
  let has_money :=
    searchb NOFLAGS
      (seq [Chr "$"; star s; opt (Chr "("); plus dc; frac; opt (Chr ")")])
      line in
  (* \(?[\d,]+(?:\.\d+)?\)? *)
  let has_numbers :=
    searchb NOFLAGS (seq [opt (Chr "("); plus dc; frac; opt (Chr ")")]) line in
  financial_indicators || has_money
  || (has_numbers && _has_columnar_structure line).

Definition _parse_financial_line (line : string) : list string :=
  (* Strategy 1: \s{4,} *)
  if searchb NOFLAGS (at_least 4 s) line
  then
    let columns := split NOFLAGS (at_least 4 s) (strip line) in
    map strip (filter (fun col => truthy (strip col)) columns)
  (* Strategy 2: tabs *)
  else if contains (String tab "") line
  then
    let columns := split_char tab line in
    map strip (filter (fun col => truthy (strip col)) columns)
  else
    (* Strategy 3: ^(.+?)\s+(VALUE REST), where VALUE is
       \$?\s*\(?[\d,]+(?:\.\d+)?\)? and REST is .* *)
    let value :=
      seq [opt (Chr "$"); star s; opt (Chr "("); plus dc; frac; opt (Chr ")")] in
    match match_ NOFLAGS
            (seq [Bol; Grp 1 (lazy_plus Dot); plus s;
                  Grp 2 (Seq value (star Dot))])
            (strip line)
    with
    | Some mo =>
        let label := strip (group 1 mo) in
        let values_part := group 2 mo in
        let values := findall NOFLAGS value values_part in
        label :: values
    | None =>
        (* Strategy 4 *)
        map strip (filter (fun col => truthy (strip col)) (split_ws line))
    end.

Definition _is_section_break (line : string) : bool :=
  let line_lower := strip (lower line) in
  any_in ["notes to"; "see note"; "refer to note"; "accompanying notes";
          "see accompanying"; "end of table"; "continued on"; "see page"]
         line_lower.

(** [_is_table_content_line(line, table)]; [table] is [None] or a table.
    Reading [table.table_type] of [None] raises [AttributeError]. *)
Definition _is_table_content_line (line : string) (table : option Table)
  : outcome bool :=
  if _has_columnar_structure line then Ok true
  else if _has_multiple_monetary_values line then Ok true
  else
    match table with
    | None => Raise "AttributeError"
    | Some t =>
        Ok (String.eqb (table_type t) "financial"
            && _is_financial_data_line line)
    end.

(** The loop of [_extract_enhanced_table_title] over
    [i in range(1, min(6, table_start + 1))]. *)
Fixpoint title_loop (n : nat) (i : Z) (lines : list string) (table_start : Z)
  : outcome (option string) :=
  match n with
  | O => Ok None
  | S n' =>
      let line_idx := table_start - i in
      if line_idx <? 0 then Ok None
      else
        let line := strip (get lines line_idx) in
        if negb (truthy line) then title_loop n' (i + 1) lines table_start
        else if len line <? 200
        then
          bind (_is_table_content_line line None) (fun is_content =>
            if negb is_content
               && negb (matchb NOFLAGS (seq [Bol; plus d; Eol]) line)
               && negb (_is_section_break line)
            then
              (* ^[A-Z][A-Za-z\s]+$ *)
              if any_in ["table"; "statement"; "schedule"; "summary"] (lower line)
                 || searchb NOFLAGS
                      (seq [Bol; Cls isupper;
                            plus (Cls (fun c => isalpha c || isspace c)); Eol])
                      line
              then Ok (Some line)
              else title_loop n' (i + 1) lines table_start
            else title_loop n' (i + 1) lines table_start)
        else title_loop n' (i + 1) lines table_start
  end.

Definition _extract_enhanced_table_title (lines : list string) (table_start : Z)
  : outcome (option string) :=
  title_loop (Z.to_nat (Z.min 6 (table_start + 1) - 1)) 1 lines table_start.

(** ** The extraction strategies *)

(** The financial-data test of the growth loop. *)
Definition is_data_line (line : string) : bool :=
  _is_financial_data_line line
  || _has_columnar_structure line
  || _has_multiple_monetary_values line.

Definition is_blank (line : string) : bool := negb (truthy (strip line)).

(** [max(len(row) for row in table_content) if table_content else 0] *)
Definition max_row_len (table_content : list (list string)) : Z :=
  fold_right (fun row acc => Z.max (Z.of_nat (List.length row)) acc) 0
             table_content.

Section Config.
(** [config.settings.TABLE_MIN_ROWS]. *)
Variable TABLE_MIN_ROWS : Z.

(** The state the growth loop of [_extract_financial_table] updates. *)
Record growth : Type := mkGrowth {
  table_content : list (list string);
  has_monetary : bool;
  has_percentage : bool;
  current_line : Z
}.

(** [while current_line < len(lines) and consecutive_empty < 3], over
    the lines from [current_line] on. *)
Fixpoint financial_loop (rest : list string) (start_line : Z)
         (consecutive_empty : Z) (g : growth) : growth :=
  match rest with
  | [] => g
  | line :: rest' =>
      if consecutive_empty <? 3
      then
        if is_blank line
        then financial_loop rest' start_line (consecutive_empty + 1)
               (mkGrowth (table_content g) (has_monetary g)
                         (has_percentage g) (current_line g + 1))
        else
          if is_data_line line
          then
            let parsed_row := _parse_financial_line line in
            financial_loop rest' start_line 0
              (mkGrowth
                 (table_content g ++ [parsed_row])
                 (if contains "$" line
                     || searchb NOFLAGS grouped_number line
                  then true else has_monetary g)
                 (if contains "%" line then true else has_percentage g)
                 (current_line g + 1))
          else
            if _is_section_break line
               || (current_line g - start_line >? 50)
            then g
            else financial_loop rest' start_line 0
                   (mkGrowth (table_content g) (has_monetary g)
                             (has_percentage g) (current_line g + 1))
      else g
  end.

Definition _extract_financial_table (lines : list string) (start_line : Z)
  : outcome (option Table) :=
  if (start_line <? 0) || (start_line >=? Z.of_nat (List.length lines))
  then Raise "IndexError"
  else
    let header_line := strip (get lines start_line) in
    let table_content0 :=
      if truthy header_line then [[header_line]] else [] in
    let g :=
      financial_loop (skipn (Z.to_nat (start_line + 1)) lines) start_line 0
                     (mkGrowth table_content0 false false (start_line + 1)) in
    if Z.of_nat (List.length (table_content g)) <? TABLE_MIN_ROWS
    then Ok None
    else
      bind (_extract_enhanced_table_title lines start_line) (fun title =>
        let column_count := max_row_len (table_content g) in
        let row_count := Z.of_nat (List.length (table_content g)) in
        let end_line := current_line g - 1 in
        let original_text :=
          join (String newline "") (slice lines start_line (end_line + 1)) in
        Ok (Some (mkTable (table_content g) 0 0 start_line end_line title
                          (95 # 100) "financial" original_text
                          column_count row_count
                          (has_monetary g) (has_percentage g)))).

Definition _extract_enhanced_delimited_table := _extract_financial_table.
Definition _extract_enhanced_aligned_table := _extract_financial_table.
Definition _extract_monetary_table := _extract_financial_table.

Definition _is_pipe_delimited_line (line : string) : bool :=
  contains "|" line && (count_char "|" line >=? 2).

(** The cells of one pipe-delimited line, the empty first and last cell
    removed. *)
Definition pipe_cells (line : string) : list string :=
  let cells := map strip (split_char "|" line) in
  let cells :=
    match cells with
    | c :: r => if truthy c then cells else r
    | [] => cells
    end in
  match cells with
  | [] => cells
  | _ => if truthy (last cells "") then cells else removelast cells
  end.

(** The loop of [_extract_pipe_table]. *)
Fixpoint pipe_loop (rest : list string) (table_content : list (list string))
  : list (list string) :=
  match rest with
  | [] => table_content
  | line :: rest' =>
      if _is_pipe_delimited_line line
      then
        let cells := pipe_cells line in
        pipe_loop rest'
          (match cells with
           | [] => table_content
           | _ => table_content ++ [cells]
           end)
      else table_content
  end.

Definition _extract_pipe_table (lines : list string) (start_line : Z)
  : outcome (option Table) :=
  let table_content :=
    pipe_loop (skipn (Z.to_nat start_line) lines) [] in
  if Z.of_nat (List.length table_content) <? TABLE_MIN_ROWS then Ok None
  else
    bind (_extract_enhanced_table_title lines start_line) (fun title =>
      let end_line :=
        start_line + Z.of_nat (List.length table_content) - 1 in
      let original_text :=
        join (String newline "") (slice lines start_line (end_line + 1)) in
      let has_monetary :=
        existsb (existsb (contains "$")) table_content in
      let has_percentage :=
        existsb (existsb (contains "%")) table_content in
      Ok (Some (mkTable table_content 0 0 start_line end_line title
                        (90 # 100) "delimited" original_text
                        (max_row_len table_content)
                        (Z.of_nat (List.length table_content))
                        has_monetary has_percentage))).

(** [range(a, b + 1)] *)
Definition line_range (a b : Z) : list Z :=
  map (fun k => a + Z.of_nat k) (List.seq 0 (Z.to_nat (b + 1 - a))).

(** The [while i < len(lines)] loop of [_identify_financial_tables];
    [table_lines] is the set of line numbers already in a table. Every
    round moves [i] forward, so [len(lines)] rounds are enough. *)
Fixpoint identify_financial_loop (fuel : nat) (lines : list string) (i : Z)
         (table_lines : list Z) (tables : list Table)
  : outcome (list Table * list Z) :=
  match fuel with
  | O => Ok (tables, table_lines)
  | S fuel' =>
      if i <? Z.of_nat (List.length lines)
      then
        if existsb (Z.eqb i) table_lines
        then identify_financial_loop fuel' lines (i + 1) table_lines tables
        else if _is_financial_statement_header (get lines i)
        then
          bind (_extract_financial_table lines i) (fun table =>
            match table with
            | Some t =>
                identify_financial_loop fuel' lines (end_line t + 1)
                  (table_lines ++ line_range (start_line t) (end_line t))
                  (tables ++ [t])
            | None =>
                identify_financial_loop fuel' lines (i + 1) table_lines tables
            end)
        else identify_financial_loop fuel' lines (i + 1) table_lines tables
      else Ok (tables, table_lines)
  end.

Definition _identify_financial_tables (lines : list string)
           (table_lines : list Z) : outcome (list Table * list Z) :=
  identify_financial_loop (List.length lines) lines 0 table_lines [].
End Config.

End EnhancedTableParser.

(* ================================================================== *)
(** * extractor.py : the dual-view reconciler *)
(* ================================================================== *)

Module MDNAExtractor.

(** The body of [for i, line in enumerate(lines)] in
    [_map_positions_to_lines]; the [break] is the early return. *)
Fixpoint map_loop (lines : list string) (i : Z) (current_pos : Z)
         (start_pos end_pos : Z) (start_line end_line : Z) : Z * Z :=
  match lines with
  | [] => (start_line, end_line)
  | line :: rest =>
      let line_start := current_pos in
      let line_end := current_pos + Py.len line in
      let start_line' :=
        if (line_start <=? start_pos) && (start_pos <=? line_end)
        then i else start_line in
      if (line_start <=? end_pos) && (end_pos <=? line_end)
      then (start_line', i)
      else map_loop rest (i + 1) (line_end + 1) start_pos end_pos
                    start_line' end_line
  end.

Definition _map_positions_to_lines (content : string) (start_pos end_pos : Z)
  : Z * Z :=
  let lines := Py.split_char Py.newline content in
  map_loop lines 0 0 start_pos end_pos 0 (Z.of_nat (List.length lines) - 1).

(** The [(line_start, line_end)] pairs the loop walks through. *)
Fixpoint line_ranges (lines : list string) (current_pos : Z) : list (Z * Z) :=
  match lines with
  | [] => []
  | line :: rest =>
      (current_pos, current_pos + Py.len line)
      :: line_ranges rest (current_pos + Py.len line + 1)
  end.


(** ** Line predicates of the assembly pass *)

Import Py Re.

(** [class TableRegion]. *)
Record TableRegion : Type := mkTableRegion {
  start_line : Z;
  end_line : Z;
  lines : list string;
  original_text : string
}.

Definition new_TableRegion (start_line end_line : Z) (lines : list string)
  : TableRegion :=
  mkTableRegion start_line end_line lines (join (String newline "") lines).

(** [[\d,]] *)
Definition dc : regex := Cls (digit_or ",").

(** [\s{3,}|\t] *)
Definition re_columnar : regex := Alt (at_least 3 s) (Chr tab).

Definition _is_table_header (line : string) : bool :=
  (* \b(?:Year|Quarter|Period|Month)s?\s+Ended?\b *)
  if searchb IGNORECASE
       (seq [WordB; words ["Year"; "Quarter"; "Period"; "Month"];
             opt (Chr "s"); plus s; lit "Ende"; opt (Chr "d"); WordB]) line
  then true
  (* (?:December|March|June|September)\s+\d{1,2},?\s+\d{4} *)
  else if searchb IGNORECASE
       (seq [words ["December"; "March"; "June"; "September"];
             plus s; times 1 2 d; opt (Chr ","); plus s; times 4 4 d]) line
  then true
  (* \b20\d{2}\b.*\b20\d{2}\b *)
  else if searchb NOFLAGS
       (seq [WordB; lit "20"; times 2 2 d; WordB; star Dot;
             WordB; lit "20"; times 2 2 d; WordB]) line
  then true
  else if any_in ["Revenue"; "Income"; "Assets"; "Liabilities"; "Equity"; "Cash"]
                 line
  then searchb NOFLAGS re_columnar line
  else false.

Definition _is_separator_line (line : string) : bool :=
  let stripped := strip line in
  if len stripped <? 3 then false
  (* ^[-=_\s]+$ *)
  else matchb NOFLAGS
         (seq [Bol; plus (Cls (fun c => one_of "-=_" c || isspace c)); Eol])
         stripped.

Definition _contains_financial_data (line : string) : bool :=
  (* \$\s*[\d,]+ *)
  if searchb NOFLAGS (seq [Chr "$"; star s; plus dc]) line then true
  (* \d+\.?\d*\s*% *)
  else if searchb NOFLAGS
            (seq [plus d; opt (Chr "."); star d; star s; Chr "%"]) line
  then true
  (* \(\s*[\d,]+\.?\d*\s*\) *)
  else if searchb NOFLAGS
            (seq [Chr "("; star s; plus dc; opt (Chr "."); star d; star s;
                  Chr ")"]) line
  then true
  else
    (* \b[\d,]+\.?\d*\b *)
    let numbers :=
      findall NOFLAGS (seq [WordB; plus dc; opt (Chr "."); star d; WordB]) line in
    if Z.of_nat (List.length numbers) >=? 2
    then
      let first_pos := find line (hd "" numbers) in
      let last_pos := rfind line (last numbers "") in
      last_pos - first_pos >? 20
    else false.

Definition _is_table_line (line : string) : bool :=
  if (contains (String tab "") line || searchb NOFLAGS (at_least 3 s) line)
     && (let segments := split NOFLAGS (Alt (Chr tab) (at_least 3 s)) line in
         let non_empty :=
           map strip (filter (fun sg => truthy (strip sg)) segments) in
         Z.of_nat (List.length non_empty) >=? 2)
  then true
  else if _contains_financial_data line then true
  else count_char "|" line >=? 2.

Definition _is_table_continuation (line : string) : bool :=
  let line_lower := lower line in
  (* \b(?:total|subtotal|net|gross)\b *)
  if searchb NOFLAGS
       (seq [WordB; words ["total"; "subtotal"; "net"; "gross"]; WordB])
       line_lower
  then true
  (* ^\s*\([0-9a-z]\) *)
  else if matchb NOFLAGS
            (seq [Bol; star s; Chr "(";
                  Cls (fun c => isdigit c || islower c); Chr ")"]) line_lower
  then true
  (* ^\s*\*+ *)
  else if matchb NOFLAGS (seq [Bol; star s; plus (Chr "*")]) line then true
  (* ^\s*(?:see|refer to|includes|excludes|represents) *)
  else searchb NOFLAGS
         (seq [Bol; star s;
               words ["see"; "refer to"; "includes"; "excludes"; "represents"]])
         line_lower.

Definition _is_regular_text_line (line : string) : bool :=
  if negb (truthy (strip line)) then false
  else if _is_table_line line || _is_table_continuation line then false
  (* [.!?]\s*$ *)
  else if searchb NOFLAGS (seq [set ".!?"; star s; Eol]) (strip line) then true
  else
    let words := split_ws line in
    (Z.of_nat (List.length words) >? 5)
    && negb (searchb NOFLAGS re_columnar line).

Definition _normalize_text_line (line : string) : string :=
  (* ^(\s{0,4}) *)
  let indent_match := match_ NOFLAGS (seq [Bol; Grp 1 (times 0 4 s)]) line in
  let indent :=
    match indent_match with Some mo => group 1 mo | None => "" end in
  let content := join " " (split_ws (strip line)) in
  if truthy content then indent ++ content else "".

Definition _line_starts_table (lines : list string) (idx : Z) : bool :=
  if idx >=? Z.of_nat (List.length lines) then false
  else
    let line := get lines idx in
    if _is_table_header line
       && (idx + 1 <? Z.of_nat (List.length lines))
       && (let next_line := get lines (idx + 1) in
           _is_separator_line next_line || _is_table_line next_line)
    then true
    else if _is_separator_line line
    then (idx + 1 <? Z.of_nat (List.length lines))
         && _is_table_line (get lines (idx + 1))
    else false.

(** The [while current_idx < len(lines)] loop of [_identify_table_region],
    over the lines from [current_idx] on. [None] is the early
    [return None]; otherwise the collected lines and the numeric flag at
    the end of the loop. *)
Fixpoint region_loop (rest : list string) (table_lines : list string)
         (consecutive_empty : Z) (has_numeric_data : bool)
  : option (list string * bool) :=
  match rest with
  | [] => Some (table_lines, has_numeric_data)
  | line :: rest' =>
      let has_numeric_data :=
        if searchb NOFLAGS d line then true else has_numeric_data in
      if negb (truthy (strip line))
      then
        let consecutive_empty := consecutive_empty + 1 in
        if consecutive_empty >? 2
        then Some (table_lines, has_numeric_data)
        else region_loop rest' (table_lines ++ [line]) consecutive_empty
                         has_numeric_data
      else
        if _is_table_line line || _is_table_continuation line
        then region_loop rest' (table_lines ++ [line]) 0 has_numeric_data
        else if (Z.of_nat (List.length table_lines) >? 2) && has_numeric_data
             then Some (table_lines, has_numeric_data)
             else None
  end.

Definition _identify_table_region (lines : list string) (start_idx : Z)
  : option TableRegion :=
  if start_idx >=? Z.of_nat (List.length lines) then None
  else if negb (_line_starts_table lines start_idx) then None
  else
    match region_loop (skipn (Z.to_nat start_idx) lines) [] 0 false with
    | None => None
    | Some (table_lines, has_numeric_data) =>
        if (Z.of_nat (List.length table_lines) >=? 2) && has_numeric_data
        then Some (new_TableRegion
                     start_idx
                     (start_idx + Z.of_nat (List.length table_lines) - 1)
                     table_lines)
        else None
    end.

(** What the loop of [_process_mdna_content] appends for a line that
    starts no table region. *)
Definition text_line_output (line : string) : string :=
  if _is_regular_text_line line then _normalize_text_line line else line.

(** The [while i < len(lines)] loop of [_process_mdna_content]. Every
    round moves [i] forward, so [len(lines)] rounds are enough. *)
Fixpoint process_loop (fuel : nat) (lines : list string) (i : Z)
         (processed_lines : list string) : list string :=
  match fuel with
  | O => processed_lines
  | S fuel' =>
      if i <? Z.of_nat (List.length lines)
      then
        match _identify_table_region lines i with
        | Some table_region =>
            let processed_lines :=
              match processed_lines with
              | [] => processed_lines
              | _ => if truthy (strip (last processed_lines ""))
                     then processed_lines ++ [""]
                     else processed_lines
              end in
            process_loop fuel' lines (end_line table_region + 1)
              (processed_lines ++ ["--- BEGIN TABLE ---"]
                 ++ MDNAExtractor.lines table_region
                 ++ ["--- END TABLE ---"; ""])
        | None =>
            process_loop fuel' lines (i + 1)
              (processed_lines ++ [text_line_output (get lines i)])
        end
      else processed_lines
  end.

Definition process_lines (lines : list string) : list string :=
  process_loop (List.length lines) lines 0 [].

Definition _process_mdna_content (lines : list string) : string :=
  join (String newline "") (process_lines lines).


(** ** Filing metadata *)

(** [datetime.datetime] values (no time zone). *)
Record datetime : Type := mkDatetime {
  year : Z; month : Z; day : Z;
  hour : Z; minute : Z; second : Z; microsecond : Z
}.

(** Decimal digits of a non-negative number, padded with zeros to [width]. *)
Definition str_of_Z (n : Z) : string :=
  NilZero.string_of_uint (N.to_uint (Z.to_N n)).
Definition pad (width : nat) (n : Z) : string := zfill width (str_of_Z n).

(** [dt.strftime('%Y-%m-%d')] *)
Definition strftime_Y_m_d (dt : datetime) : string :=
  pad 4 (year dt) ++ "-" ++ pad 2 (month dt) ++ "-" ++ pad 2 (day dt).

Definition time_str (dt : datetime) : string :=
  pad 2 (hour dt) ++ ":" ++ pad 2 (minute dt) ++ ":" ++ pad 2 (second dt)
  ++ (if microsecond dt =? 0 then "" else "." ++ pad 6 (microsecond dt)).

(** [dt.isoformat()] *)
Definition isoformat (dt : datetime) : string :=
  strftime_Y_m_d dt ++ "T" ++ time_str dt.

(** [str(dt)] *)
Definition str_datetime (dt : datetime) : string :=
  strftime_Y_m_d dt ++ " " ++ time_str dt.

Definition is_leap (y : Z) : bool :=
  ((y mod 4 =? 0) && negb (y mod 100 =? 0)) || (y mod 400 =? 0).

Definition days_in_month (y m : Z) : Z :=
  if m =? 2 then (if is_leap y then 29 else 28)
  else if (m =? 4) || (m =? 6) || (m =? 9) || (m =? 11) then 30
  else 31.

(** The number a string of digits denotes. *)
Definition int_of_digits (ds : string) : Z :=
  fold_left (fun acc c => 10 * acc + (Z.of_nat (ord c) - 48)) (s2l ds) 0.

Definition make_date (y m d : Z) : option datetime :=
  if (1 <=? y) && (1 <=? m) && (m <=? 12) && (1 <=? d)
     && (d <=? days_in_month y m)
  then Some (mkDatetime y m d 0 0 0 0)
  else None.

(** [datetime.strptime(date_str, '%Y%m%d')] on a string of eight digits;
    [None] is [ValueError]. *)
Definition strptime_Ymd (date_str : string) : option datetime :=
  if matchb NOFLAGS (seq [times 8 8 d; Eol]) date_str
  then make_date (int_of_digits (take 4 date_str))
                 (int_of_digits (l2s (firstn 2 (skipn 4 (s2l date_str)))))
                 (int_of_digits (l2s (firstn 2 (skipn 6 (s2l date_str)))))
  else None.

(** [datetime.strptime(date_str, '%Y-%m-%d')] on [dddd-dd-dd]. *)
Definition strptime_Y_m_d (date_str : string) : option datetime :=
  if matchb NOFLAGS
       (seq [times 4 4 d; Chr "-"; times 2 2 d; Chr "-"; times 2 2 d; Eol])
       date_str
  then make_date (int_of_digits (take 4 date_str))
                 (int_of_digits (l2s (firstn 2 (skipn 5 (s2l date_str)))))
                 (int_of_digits (l2s (firstn 2 (skipn 8 (s2l date_str)))))
  else None.

(** What the extractor reads of a [pathlib.Path]: [file_path.name], and
    [file_path.stat().st_size] when the file exists. *)
Record Path : Type := mkPath {
  name : string;
  st_size : option Z
}.

(** Modelled from the spec: the class [Filing] of [src/models/filing.py],
    which is not among the sources; the fields are those of the
    constructor call in [_create_filing_from_text]. *)
Record Filing : Type := mkFiling {
  file_path : Path;
  cik : string;
  company_name : string;
  form_type : string;
  filing_date : option datetime;
  file_size : Z
}.

(** Modelled from the spec: the class [ExtractionResult] of
    [src/models/filing.py], with the fields [_format_output] reads and the
    offsets; the list-valued fields (subsections, tables, cross
    references) hold values of classes outside these sources. *)
Record ExtractionResult : Type := mkExtractionResult {
  filing : Filing;
  mdna_text : string;
  start_pos : Z;
  end_pos : Z;
  word_count : Z
}.

(** [(\d{8})_(10-[KQ](?:/A)?)_edgar_data_(\d{1,10})_([0-9\-]+)\.txt] *)
Definition filename_pattern : regex :=
  seq [Grp 1 (times 8 8 d); Chr "_";
       Grp 2 (seq [lit "10-"; set "KQ"; opt (lit "/A")]);
       lit "_edgar_data_"; Grp 3 (times 1 10 d); Chr "_";
       Grp 4 (plus (Cls (digit_or "-"))); lit ".txt"].

Definition _parse_filename_metadata (file_path : Path)
  : option string * option datetime * option string :=
  let filename := name file_path in
  match search IGNORECASE filename_pattern filename with
  | Some mo =>
      let date_str := group 1 mo in
      let form_type := upper (group 2 mo) in
      let cik := zfill 10 (group 3 mo) in
      (Some cik, strptime_Ymd date_str, Some form_type)
  | None => (None, None, None)
  end.

(** The first pattern of the list that matches: [Some (match object)]. *)
Fixpoint first_search (f : flags) (patterns : list regex) (text : string)
  : option match_obj :=
  match patterns with
  | [] => None
  | pattern :: rest =>
      match search f pattern text with
      | Some mo => Some mo
      | None => first_search f rest text
      end
  end.

Definition cik_patterns : list regex :=
  [ (* CENTRAL INDEX KEY:\s*(\d+) *)
    seq [lit "CENTRAL INDEX KEY:"; star s; Grp 1 (plus d)];
    (* CIK:\s*(\d+) *)
    seq [lit "CIK:"; star s; Grp 1 (plus d)];
    (* C\.I\.K\.\s*NO\.\s*(\d+) *)
    seq [lit "C.I.K."; star s; lit "NO."; star s; Grp 1 (plus d)] ].

Definition _extract_cik (content : string) : option string :=
  match first_search IGNORECASE cik_patterns (take 5000 content) with
  | Some mo => Some (zfill 10 (strip (group 1 mo)))
  | None => None
  end.

Definition form_type_patterns : list regex :=
  [ (* FORM\s+(10-[KQ])(?:/A)? *)
    seq [lit "FORM"; plus s; Grp 1 (seq [lit "10-"; set "KQ"]); opt (lit "/A")];
    (* FORM\s+TYPE:\s*(10-[KQ])(?:/A)? *)
    seq [lit "FORM"; plus s; lit "TYPE:"; star s;
         Grp 1 (seq [lit "10-"; set "KQ"]); opt (lit "/A")] ].

Definition _extract_form_type (content : string) : option string :=
  let header := take 2000 content in
  match first_search IGNORECASE form_type_patterns header with
  | Some mo =>
      let form_type := upper (group 1 mo) in
      Some (if contains "/A" (upper (group0 mo))
            then (form_type ++ "/A")%string else form_type)
  | None =>
      if contains "FORM 10-Q" (upper header) then Some "10-Q"
      else if contains "FORM 10-K" (upper header) then Some "10-K"
      else Some "10-K"
  end.

Definition filing_date_patterns : list regex :=
  [ (* FILED AS OF DATE:\s*(\d{8}) *)
    seq [lit "FILED AS OF DATE:"; star s; Grp 1 (times 8 8 d)];
    (* DATE OF REPORT[^:]*:\s*(\d{4}-\d{2}-\d{2}) *)
    seq [lit "DATE OF REPORT"; star (Cls (fun c => negb (Ascii.eqb c ":")));
         Chr ":"; star s;
         Grp 1 (seq [times 4 4 d; Chr "-"; times 2 2 d; Chr "-"; times 2 2 d])] ].

Fixpoint filing_date_loop (patterns : list regex) (header : string)
  : option datetime :=
  match patterns with
  | [] => None
  | pattern :: rest =>
      match search IGNORECASE pattern header with
      | Some mo =>
          let date_str := group 1 mo in
          match strptime_Ymd date_str with
          | Some dt => Some dt
          | None =>
              match strptime_Y_m_d date_str with
              | Some dt => Some dt
              | None => filing_date_loop rest header
              end
          end
      | None => filing_date_loop rest header
      end
  end.

Definition _extract_filing_date (content : string) : option datetime :=
  filing_date_loop filing_date_patterns (take 2000 content).

(** [[^\n]+] *)
Definition rest_of_line : regex :=
  plus (Cls (fun c => negb (Ascii.eqb c newline))).

Definition company_name_patterns : list regex :=
  [ (* COMPANY\s*CONFORMED\s*NAME:\s*([^\n]+) *)
    seq [lit "COMPANY"; star s; lit "CONFORMED"; star s; lit "NAME:"; star s;
         Grp 1 rest_of_line];
    (* CONFORMED\s*NAME:\s*([^\n]+) *)
    seq [lit "CONFORMED"; star s; lit "NAME:"; star s; Grp 1 rest_of_line];
    (* REGISTRANT\s*NAME:\s*([^\n]+) *)
    seq [lit "REGISTRANT"; star s; lit "NAME:"; star s; Grp 1 rest_of_line] ].

Fixpoint company_name_loop (patterns : list regex) (header : string)
  : string :=
  match patterns with
  | [] => "Unknown Company"
  | pattern :: rest =>
      match search IGNORECASE pattern header with
      | Some mo =>
          let name := strip (group 1 mo) in
          let name := sub NOFLAGS (plus s) " " name in
          if (3 <? len name) && (len name <? 100) then name
          else company_name_loop rest header
      | None => company_name_loop rest header
      end
  end.

Definition _extract_company_name (content : string) : string :=
  company_name_loop company_name_patterns (take 5000 content).

Definition or_else {A} (o : option A) (alt : option A) : option A :=
  match o with Some _ => o | None => alt end.

Definition _create_filing_from_text (file_path : Path) (content : string)
  : option Filing :=
  let '(cik, filing_date, form_type) := _parse_filename_metadata file_path in
  let cik := or_else cik (_extract_cik content) in
  let filing_date := or_else filing_date (_extract_filing_date content) in
  let form_type := or_else form_type (_extract_form_type content) in
  let company_name := _extract_company_name content in
  match cik, form_type with
  | Some cik, Some form_type =>
      Some (mkFiling file_path cik company_name form_type filing_date
                     (match st_size file_path with
                      | Some size => size
                      | None => 0
                      end))
  | _, _ => None
  end.

(** ** The saved document *)

(** The name of the output file in [_save_extraction_result]. *)
Definition output_filename (filing : Filing) : string :=
  let date_str :=
    match filing_date filing with
    | Some dt => strftime_Y_m_d dt
    | None => "unknown"
    end in
  (* [^\w\s-] *)
  let company_safe :=
    take 50 (sub NOFLAGS
                 (Cls (fun c => negb (isword c || isspace c || Ascii.eqb c "-")))
                 "" (company_name filing)) in
  "(" ++ cik filing ++ ")_(" ++ company_safe ++ ")_(" ++ date_str ++ ")_("
      ++ replace_char "/" "_" (form_type filing) ++ ").txt".

(** The list [output] of [_format_output]; [now] is the value of
    [datetime.now()] when the result is formatted. *)
Definition format_lines (result : ExtractionResult) (now : datetime)
  : list string :=
  [ l2s (repeat "="%char 80);
    ("CIK: " ++ cik (filing result))%string;
    ("Company: " ++ company_name (filing result))%string;
    ("Form Type: " ++ form_type (filing result))%string;
    ("Filing Date: " ++ match filing_date (filing result) with
                        | Some dt => str_datetime dt
                        | None => "None"
                        end)%string;
    ("Extraction Date: " ++ isoformat now)%string;
    ("Word Count: " ++ str_of_Z (word_count result))%string;
    l2s (repeat "="%char 80);
    "";
    mdna_text result ].

Definition _format_output (result : ExtractionResult) (now : datetime)
  : string :=
  join (String newline "") (format_lines result now).

(** [_save_extraction_result]: the file written, as (name, content). *)
Definition _save_extraction_result (result : ExtractionResult)
           (filing : Filing) (now : datetime) : string * string :=
  (output_filename filing, _format_output result now).

End MDNAExtractor.

(* ================================================================== *)
(** * enhanced_text_normalizer.py : the line classifier *)
(* ================================================================== *)

Module EnhancedTextNormalizer.
Import Py Re.

(** The strings [_classify_line_enhanced] returns. *)
Inductive LineClassification : Type :=
| empty
| table_delimiter
| monetary_data
| table_header
| table_content
| table_continuation
| potential_table
| regular_text.

Definition dc : regex := Cls (digit_or ",").

(** [\(?[\d,]+(?:\.\d+)?\)?] *)
Definition re_number : regex :=
  seq [opt (Chr "("); plus dc; opt (Seq (Chr ".") (plus d)); opt (Chr ")")].

Definition month_names : list string :=
  ["december"; "january"; "february"; "march"; "april"; "may"; "june";
   "july"; "august"; "september"; "october"; "november"].

(** ** [self.table_indicators] *)

(** [\$\s*\(?[\d,]+(?:\.\d+)?\)?] *)
Definition monetary : regex := seq [Chr "$"; star s; re_number].
(** [\d+\.?\d*%] *)
Definition percentage : regex :=
  seq [plus d; opt (Chr "."); star d; Chr "%"].
(** [\(?[\d,]+(?:\.\d+)?\)?\s+\(?[\d,]+(?:\.\d+)?\)?] *)
Definition numeric_columns : regex := seq [re_number; plus s; re_number].
(** [(?:december|...|november)\s+\d{1,2},?\s+\d{4}], IGNORECASE *)
Definition dates : regex :=
  seq [words month_names; plus s; times 1 2 d; opt (Chr ","); plus s;
       times 4 4 d].
(** [\b\d{4}\s+\d{4}\s+\d{4}\b] *)
Definition year_headers : regex :=
  seq [WordB; times 4 4 d; plus s; times 4 4 d; plus s; times 4 4 d; WordB].
(** [\b(?:revenue|...|total)\b], IGNORECASE *)
Definition financial_terms : regex :=
  seq [WordB;
       words ["revenue"; "income"; "profit"; "loss"; "assets"; "liabilities";
              "equity"; "cash"; "flow"; "expenses"; "costs"; "sales";
              "operating"; "net"; "gross"; "total"];
       WordB].
(** [\s{4,}] *)
Definition significant_spaces : regex := at_least 4 s.
(** [\t] *)
Definition tabs : regex := Chr tab.
(** [\|.*\|.*\|] *)
Definition pipes : regex :=
  seq [Chr "|"; star Dot; Chr "|"; star Dot; Chr "|"].
(** [^[-=_+]{3,}$] *)
Definition delimiters : regex := seq [Bol; at_least 3 (set "-=_+"); Eol].

Definition _is_enhanced_table_header (line : string) : bool :=
  let line_lower := lower line in
  let financial_headers :=
    ["statement of"; "balance sheet"; "income statement"; "cash flow";
     "year ended"; "quarter ended"; "period ended"; "fiscal year";
     "for the year"; "for the quarter"; "for the period";
     "in thousands"; "in millions"; "in billions";
     "unaudited"; "audited"; "consolidated"] in
  if any_in financial_headers line_lower then true
  (* \b\d{4}\b.*\b\d{4}\b   and   (?:december|march|june|september)\s+\d{1,2} *)
  else if searchb NOFLAGS
            (seq [WordB; times 4 4 d; WordB; star Dot;
                  WordB; times 4 4 d; WordB]) line
          || searchb NOFLAGS
               (seq [words ["december"; "march"; "june"; "september"];
                     plus s; times 1 2 d]) line_lower
  then true
  else
    let financial_terms :=
      ["revenue"; "income"; "assets"; "liabilities"; "equity"; "cash"] in
    any_in financial_terms line_lower
    && searchb NOFLAGS significant_spaces line.

Definition _has_table_context (all_lines : list string) (line_index : Z)
  : bool :=
  let start := Z.max 0 (line_index - 3) in
  let end_ := Z.min (Z.of_nat (List.length all_lines)) (line_index + 4) in
  let context_lines := slice all_lines start end_ in
  let table_indicators :=
    List.length
      (filter (fun context_line =>
                 searchb NOFLAGS monetary context_line
                 || searchb NOFLAGS percentage context_line
                 || searchb NOFLAGS significant_spaces context_line
                 || _is_enhanced_table_header context_line)
              context_lines) in
  Z.of_nat table_indicators >=? 2.

Definition _is_table_continuation (line : string) : bool :=
  let line_lower := strip (lower line) in
  any_in ["total"; "subtotal"; "net"; "gross"; "less:"; "add:"; "deduct:";
          "continued"; "cont."; "see note"; "refer to"; "as of"]
         line_lower.

Definition _classify_line_enhanced
           (line : string) (all_lines : list string) (line_index : Z)
  : LineClassification :=
  let line_stripped := strip line in
  if negb (truthy line_stripped) then empty
  else if searchb NOFLAGS delimiters line_stripped then table_delimiter
  else if searchb NOFLAGS monetary line
          && (searchb NOFLAGS significant_spaces line
              || searchb NOFLAGS tabs line
              || searchb NOFLAGS numeric_columns line)
  then monetary_data
  else if _is_enhanced_table_header line then table_header
  else if searchb NOFLAGS pipes line then table_content
  else
    let monetary_matches := Z.of_nat (List.length (findall NOFLAGS monetary line)) in
    let percentage_matches :=
      Z.of_nat (List.length (findall NOFLAGS percentage line)) in
    if (monetary_matches >=? 2) || (percentage_matches >=? 2)
    then monetary_data
    else if searchb NOFLAGS numeric_columns line
            && _has_table_context all_lines line_index
    then table_content
    else if searchb NOFLAGS significant_spaces line
            && searchb IGNORECASE financial_terms line
    then potential_table
    else if searchb IGNORECASE dates line || searchb NOFLAGS year_headers line
    then table_header
    else if _is_table_continuation line then table_continuation
    else regular_text.

(** [re.sub(r' {2,}', '    ', line.rstrip())] *)
Definition _cautiously_format_line (line : string) : string :=
  sub NOFLAGS (at_least 2 (Chr " ")) "    " (rstrip line).

Fixpoint clean_loop (lines : list string) (empty_count : Z) : list string :=
  match lines with
  | [] => []
  | line :: rest =>
      if negb (truthy (strip line))
      then
        let empty_count := empty_count + 1 in
        if empty_count <=? 3
        then line :: clean_loop rest empty_count
        else clean_loop rest empty_count
      else line :: clean_loop rest 0
  end.

Definition _clean_excessive_empty_lines (lines : list string) : list string :=
  clean_loop lines 0.

Definition classify_all (lines : list string) : list LineClassification :=
  map (fun il => _classify_line_enhanced (snd il) lines (Z.of_nat (fst il)))
      (combine (List.seq 0 (List.length lines)) lines).

(** What the second pass appends for one classified line, given the
    lines appended so far. *)
Definition preserve_step (processed_lines : list string)
           (line : string) (classification : LineClassification)
  : list string :=
  match classification with
  | table_header | table_content | table_delimiter | monetary_data =>
      processed_lines ++ [rstrip line]
  | table_continuation => processed_lines ++ [strip line]
  | potential_table => processed_lines ++ [_cautiously_format_line line]
  | _ =>
      let indent := len line - len (lstrip line) in
      let cleaned := join " " (split_ws line) in
      if truthy cleaned
      then processed_lines
             ++ [String.append
                   (l2s (repeat " "%char (Z.to_nat (Z.min indent 4))))
                   cleaned]
      else match processed_lines with
           | [] => processed_lines
           | _ => if truthy (strip (last processed_lines ""))
                  then processed_lines ++ [""]
                  else processed_lines
           end
  end.

Definition preserved_lines (text : string) : list string :=
  let lines := split_char newline text in
  let line_classifications := classify_all lines in
  let processed_lines :=
    fold_left (fun acc lc => preserve_step acc (fst lc) (snd lc))
              (combine lines line_classifications) [] in
  _clean_excessive_empty_lines processed_lines.

Definition _aggressively_preserve_tables (text : string) : string :=
  join (String newline "") (preserved_lines text).

End EnhancedTextNormalizer.

(* ================================================================== *)
(** * Properties *)
(* ================================================================== *)

(** ** Stable sorting *)

Section SortFacts.
Variable A : Type.
Variable key : A -> Z.

Let le (a b : A) : bool := key a <=? key b.
Let ordered (a b : A) : Prop := key a <= key b.

Lemma insert_In (x y : A) (l : list A) :
  In y (Py.insert le x l) -> y = x \/ In y l.
Proof.
  induction l as [|z r IH]; simpl.
  - intros [H|[]]; auto.
  - destruct (le x z); simpl; intros [H|H]; auto.
    destruct (IH H); auto.
Qed.

Lemma insert_sorted (x : A) (l : list A) :
  StronglySorted ordered l -> StronglySorted ordered (Py.insert le x l).
Proof.
  induction 1 as [|z r Hs IH Hall]; simpl.
  - repeat constructor.
  - destruct (le x z) eqn:E; unfold le in E.
    + constructor; [constructor; assumption|].
      constructor; [unfold ordered; lia|].
      rewrite Forall_forall in *. intros y Hy.
      specialize (Hall y Hy). unfold ordered in *. lia.
    + constructor; [exact IH|].
      rewrite Forall_forall in *. intros y Hy.
      destruct (insert_In _ _ _ Hy) as [->|Hy'].
      * unfold ordered. lia.
      * auto.
Qed.

Lemma sort_sorted (l : list A) : StronglySorted ordered (Py.sort le l).
Proof.
  induction l; simpl; [constructor | apply insert_sorted; assumption].
Qed.
End SortFacts.

(** ** Pairwise disjoint ranges *)

Section Disjoint.
Variable T : Type.
Variable range : T -> Z * Z.

Definition clash (a b : T) : Prop := ranges_overlap (range a) (range b).

(** No two entries of the list, at different positions, intersect. *)
Fixpoint pairwise_disjoint (l : list T) : Prop :=
  match l with
  | [] => True
  | x :: r => Forall (fun y => ~ clash x y) r /\ pairwise_disjoint r
  end.

Lemma clash_sym a b : clash a b -> clash b a.
Proof. unfold clash, ranges_overlap. lia. Qed.

Lemma pairwise_disjoint_snoc (l : list T) (t : T) :
  pairwise_disjoint l -> Forall (fun e => ~ clash e t) l ->
  pairwise_disjoint (l ++ [t]).
Proof.
  induction l as [|x r IH]; simpl; intros Hd Hf.
  - split; [constructor|exact I].
  - destruct Hd as [Hx Hr]. inversion Hf; subst. split.
    + apply Forall_app. split; [assumption|]. constructor; [assumption|constructor].
    + apply IH; assumption.
Qed.

Lemma pairwise_disjoint_nth (l : list T) :
  pairwise_disjoint l ->
  forall i j a b, i <> j -> nth_error l i = Some a -> nth_error l j = Some b ->
                  ~ clash a b.
Proof.
  induction l as [|x r IH]; intros Hd i j a b Hij Ha Hb.
  - destruct i; discriminate.
  - destruct Hd as [Hx Hr]. rewrite Forall_forall in Hx.
    destruct i as [|i], j as [|j]; simpl in *.
    + congruence.
    + injection Ha as <-. apply Hx. eapply nth_error_In; eassumption.
    + injection Hb as <-. intro Hc. apply clash_sym in Hc. revert Hc.
      apply Hx. eapply nth_error_In; eassumption.
    + apply (IH Hr i j a b); [congruence | assumption | assumption].
Qed.
End Disjoint.

(** ** table_parser.py : accepted tables never intersect *)

Module TableParserFacts.
Import TableParser.

Lemma list_eqb_refl {A} (eqb : A -> A -> bool) :
  (forall x, eqb x x = true) -> forall l, Py.list_eqb eqb l l = true.
Proof.
  intros H l. induction l; simpl; [reflexivity|]. rewrite H, IHl. reflexivity.
Qed.

Lemma table_eqb_refl (t : Table) : table_eqb t t = true.
Proof.
  unfold table_eqb.
  rewrite !Z.eqb_refl, !String.eqb_refl.
  rewrite (list_eqb_refl (Py.list_eqb String.eqb)).
  2:{ apply list_eqb_refl. apply String.eqb_refl. }
  rewrite (list_eqb_refl String.eqb) by apply String.eqb_refl.
  assert (Hq : Qeq_bool (confidence t) (confidence t) = true)
    by (apply Qeq_bool_iff; reflexivity).
  rewrite Hq.
  destruct (title t); simpl; [rewrite String.eqb_refl|]; reflexivity.
Qed.

Lemma table_eqb_range (a b : Table) :
  table_eqb a b = true -> range a = range b.
Proof.
  unfold table_eqb, range. intro H.
  repeat (apply andb_prop in H; destruct H as [H ?]).
  f_equal; apply Z.eqb_eq; assumption.
Qed.

Lemma first_overlap_spec (t : Table) (l : list Table) :
  match first_overlap t l with
  | Some e => In e l /\ start_line e <= start_line t <= end_line e
  | None => Forall (fun e => ~ (start_line e <= start_line t <= end_line e)) l
  end.
Proof.
  induction l as [|x r IH]; simpl; [constructor|].
  destruct ((start_line t >=? start_line x) && (start_line t <=? end_line x)) eqn:E.
  - split; [left; reflexivity|]. apply andb_prop in E. lia.
  - destruct (first_overlap t r).
    + destruct IH. split; [right|]; assumption.
    + constructor; [|assumption]. apply andb_false_iff in E. lia.
Qed.

Lemma list_remove_incl (x : Table) (l : list Table) :
  incl (list_remove x l) l.
Proof.
  induction l as [|y r IH]; simpl; [apply incl_refl|].
  destruct (table_eqb y x).
  - apply incl_tl, incl_refl.
  - apply incl_cons; [left; reflexivity|]. apply incl_tl. exact IH.
Qed.

Lemma list_remove_disjoint (x : Table) (l : list Table) :
  pairwise_disjoint range l -> pairwise_disjoint range (list_remove x l).
Proof.
  induction l as [|y r IH]; simpl; [trivial|]. intros [Hy Hr].
  destruct (table_eqb y x); [assumption|]. simpl. split; [|auto].
  rewrite Forall_forall in *. intros z Hz. apply Hy.
  eapply list_remove_incl; eassumption.
Qed.

(** Once the accepted table the newcomer starts in is removed, nothing
    that is left intersects the newcomer. *)
Lemma list_remove_clears (t ex : Table) (l : list Table) :
  pairwise_disjoint range l ->
  Forall (fun e => start_line e <= start_line t) l ->
  In ex l -> start_line ex <= start_line t <= end_line ex ->
  Forall (fun e => ~ clash range e t) (list_remove ex l).
Proof.
  induction l as [|y r IH]; simpl; intros Hd Hb Hin Hex; [constructor|].
  destruct Hd as [Hy Hr]. inversion Hb as [|? ? Hby Hbr]; subst.
  rewrite Forall_forall in Hy.
  destruct (table_eqb y ex) eqn:E.
  - apply table_eqb_range in E. unfold range in E. injection E as E1 E2.
    rewrite Forall_forall in *. intros e He Hc.
    apply (Hy e He). specialize (Hbr e He).
    unfold clash, ranges_overlap, range in *. simpl in *. lia.
  - destruct Hin as [->|Hin]; [rewrite table_eqb_refl in E; discriminate|].
    constructor; [|apply IH; assumption].
    intro Hc. apply (Hy ex Hin).
    unfold clash, ranges_overlap, range in *. simpl in *. lia.
Qed.

Lemma dedup_step_inv (acc : list Table) (t : Table) :
  pairwise_disjoint range acc ->
  Forall (fun e => start_line e <= start_line t) acc ->
  pairwise_disjoint range (dedup_step acc t)
  /\ Forall (fun e => start_line e <= start_line t) (dedup_step acc t).
Proof.
  intros Hd Hb. unfold dedup_step.
  pose proof (first_overlap_spec t acc) as Hf.
  destruct (first_overlap t acc) as [ex|].
  - destruct Hf as [Hin Hex].
    destruct (Py.Qlt_bool (confidence ex) (confidence t)); [|auto].
    split.
    + apply pairwise_disjoint_snoc.
      * apply list_remove_disjoint; assumption.
      * apply list_remove_clears; assumption.
    + apply Forall_app. split.
      * rewrite Forall_forall in *. intros e He. apply Hb.
        eapply list_remove_incl; eassumption.
      * constructor; [lia|constructor].
  - split.
    + apply pairwise_disjoint_snoc; [assumption|].
      rewrite Forall_forall in *. intros e He Hc.
      specialize (Hf e He). specialize (Hb e He).
      unfold clash, ranges_overlap, range in Hc. simpl in Hc. lia.
    + apply Forall_app. split; [assumption|]. constructor; [lia|constructor].
Qed.

Lemma fold_dedup_inv (l acc : list Table) :
  StronglySorted (fun a b => start_line a <= start_line b) l ->
  pairwise_disjoint range acc ->
  Forall (fun e => Forall (fun t => start_line e <= start_line t) l) acc ->
  pairwise_disjoint range (fold_left dedup_step l acc).
Proof.
  revert acc. induction l as [|t r IH]; simpl; intros acc Hs Hd Hb; [assumption|].
  inversion Hs as [|? ? Hsr Ht]; subst.
  assert (Hbt : Forall (fun e => start_line e <= start_line t) acc).
  { rewrite Forall_forall in *. intros e He.
    specialize (Hb e He). inversion Hb; assumption. }
  destruct (@dedup_step_inv acc t Hd Hbt) as [Hd' Hb'].
  apply IH; [assumption|assumption|].
  rewrite Forall_forall in *. intros e He.
  rewrite Forall_forall. intros u Hu.
  specialize (Hb' e He). specialize (Ht u Hu). lia.
Qed.

(** X1: after [TableParser._deduplicate_tables], no two tables of the result
    (at different positions) have intersecting line ranges. *)
Theorem base_dedup_disjoint (tables : list Table) :
  forall i j a b,
    i <> j ->
    nth_error (_deduplicate_tables tables) i = Some a ->
    nth_error (_deduplicate_tables tables) j = Some b ->
    ~ ranges_overlap (range a) (range b).
Proof.
  apply pairwise_disjoint_nth.
  unfold _deduplicate_tables. destruct tables as [|t0 r]; [exact I|].
  apply fold_dedup_inv.
  - apply (sort_sorted start_line).
  - exact I.
  - constructor.
Qed.
End TableParserFacts.

Definition early_low : TableParser.Table :=
  TableParser.mkTable [] 0 0 0 5 None (80 # 100) "aligned" "" [].
Definition early_high : TableParser.Table :=
  TableParser.mkTable [] 0 0 3 9 None (95 # 100) "financial" "" [].
Definition late_table : TableParser.Table :=
  TableParser.mkTable [] 0 0 10 12 None (90 # 100) "delimited" "" [].

Lemma base_dedup_disjoint_witness :
  TableParser._deduplicate_tables [late_table; early_low; early_high]
  = [early_high; late_table]
  /\ ~ ranges_overlap (TableParser.range early_high)
                      (TableParser.range late_table).
Proof.
  split; [reflexivity|].
  apply (@TableParserFacts.base_dedup_disjoint
           [late_table; early_low; early_high] 0%nat 1%nat);
    [discriminate|reflexivity|reflexivity].
Defined.

(** ** Deduplication on the two-candidate scenario *)

(** C6: two overlapping candidates, confidence 0.95 on lines 10-20 and
    confidence 0.90 on lines 15-25: both parsers' deduplication returns the
    first one only, whatever the order the candidates arrive in. *)
Theorem dedup_precedence
  (a b : TableParser.Table) (a' b' : EnhancedTableParser.Table)
  (Ha : TableParser.range a = (10, 20))
  (Hca : TableParser.confidence a = 95 # 100)
  (Hb : TableParser.range b = (15, 25))
  (Hcb : TableParser.confidence b = 90 # 100)
  (Ha' : EnhancedTableParser.range a' = (10, 20))
  (Hca' : EnhancedTableParser.confidence a' = 95 # 100)
  (Hb' : EnhancedTableParser.range b' = (15, 25))
  (Hcb' : EnhancedTableParser.confidence b' = 90 # 100) :
  TableParser._deduplicate_tables [a; b] = [a]
  /\ TableParser._deduplicate_tables [b; a] = [a]
  /\ EnhancedTableParser._deduplicate_tables [a'; b'] = [a']
  /\ EnhancedTableParser._deduplicate_tables [b'; a'] = [a'].
Proof.
  unfold TableParser.range in Ha, Hb.
  unfold EnhancedTableParser.range in Ha', Hb'.
  injection Ha as Ha1 Ha2. injection Hb as Hb1 Hb2.
  injection Ha' as Ha1' Ha2'. injection Hb' as Hb1' Hb2'.
  repeat split.
  - unfold TableParser._deduplicate_tables, TableParser.sort_tables.
    simpl. rewrite Ha1, Hb1. simpl.
    unfold TableParser.dedup_step at 2. simpl.
    unfold TableParser.dedup_step. simpl.
    rewrite ?Ha1, ?Ha2, ?Hb1, ?Hb2. simpl. rewrite ?Hca, ?Hcb. reflexivity.
  - unfold TableParser._deduplicate_tables, TableParser.sort_tables.
    simpl. rewrite Ha1, Hb1. simpl.
    unfold TableParser.dedup_step at 2. simpl.
    unfold TableParser.dedup_step. simpl.
    rewrite ?Ha1, ?Ha2, ?Hb1, ?Hb2. simpl. rewrite ?Hca, ?Hcb. reflexivity.
  - unfold EnhancedTableParser._deduplicate_tables,
      EnhancedTableParser.sort_tables.
    simpl. unfold EnhancedTableParser.key_le. rewrite ?Ha1', ?Hb1', ?Hca', ?Hcb'. simpl.
    unfold EnhancedTableParser.dedup_step at 2. simpl.
    unfold EnhancedTableParser.dedup_step. simpl.
    rewrite ?Ha1', ?Ha2', ?Hb1', ?Hb2'. simpl. rewrite ?Hca', ?Hcb'. reflexivity.
  - unfold EnhancedTableParser._deduplicate_tables,
      EnhancedTableParser.sort_tables.
    simpl. unfold EnhancedTableParser.key_le. rewrite ?Ha1', ?Hb1', ?Hca', ?Hcb'. simpl.
    unfold EnhancedTableParser.dedup_step at 2. simpl.
    unfold EnhancedTableParser.dedup_step. simpl.
    rewrite ?Ha1', ?Ha2', ?Hb1', ?Hb2'. simpl. rewrite ?Hca', ?Hcb'. reflexivity.
Qed.

Definition cand_first : TableParser.Table :=
  TableParser.mkTable [] 0 0 10 20 None (95 # 100) "financial" "" [].
Definition cand_second : TableParser.Table :=
  TableParser.mkTable [] 0 0 15 25 None (90 # 100) "delimited" "" [].
Definition cand_first_enh : EnhancedTableParser.Table :=
  EnhancedTableParser.mkTable [] 0 0 10 20 None (95 # 100) "financial" ""
                              0 0 false false.
Definition cand_second_enh : EnhancedTableParser.Table :=
  EnhancedTableParser.mkTable [] 0 0 15 25 None (90 # 100) "delimited" ""
                              0 0 false false.

Lemma dedup_precedence_witness :
  TableParser._deduplicate_tables [cand_first; cand_second]
  = [cand_first]
  /\ TableParser._deduplicate_tables [cand_second; cand_first]
     = [cand_first]
  /\ EnhancedTableParser._deduplicate_tables
       [cand_first_enh; cand_second_enh] = [cand_first_enh]
  /\ EnhancedTableParser._deduplicate_tables
       [cand_second_enh; cand_first_enh] = [cand_first_enh].
Proof.
  apply (@dedup_precedence cand_first cand_second
                           cand_first_enh cand_second_enh);
    reflexivity.
Defined.

(** ** enhanced_table_parser.py : a lower-confidence table is not removed *)

Definition overlap_low : EnhancedTableParser.Table :=
  EnhancedTableParser.mkTable [] 0 0 10 20 None (90 # 100) "delimited" ""
                              0 0 false false.
Definition overlap_high : EnhancedTableParser.Table :=
  EnhancedTableParser.mkTable [] 0 0 15 25 None (95 # 100) "financial" ""
                              0 0 false false.


(** ** Sorting by a total preorder *)

Section SortOrder.
Variable A : Type.
Variable le : A -> A -> bool.
Hypothesis le_total : forall a b, le a b = true \/ le b a = true.
Hypothesis le_trans :
  forall a b c, le a b = true -> le b c = true -> le a c = true.

Let R (a b : A) : Prop := le a b = true.

Lemma insert_le_In (x y : A) (l : list A) :
  In y (Py.insert le x l) <-> y = x \/ In y l.
Proof.
  induction l as [|z r IH]; simpl.
  - intuition congruence.
  - destruct (le x z); simpl; rewrite ?IH; intuition congruence.
Qed.

Lemma sort_le_In (l : list A) (y : A) : In y (Py.sort le l) <-> In y l.
Proof.
  induction l as [|x r IH]; simpl; [tauto|].
  rewrite insert_le_In, IH. intuition congruence.
Qed.

Lemma insert_le_length (x : A) (l : list A) :
  List.length (Py.insert le x l) = S (List.length l).
Proof.
  induction l as [|z r IH]; simpl; [reflexivity|].
  destruct (le x z); simpl; [reflexivity|]. rewrite IH. reflexivity.
Qed.

Lemma sort_le_length (l : list A) :
  List.length (Py.sort le l) = List.length l.
Proof.
  induction l as [|x r IH]; simpl; [reflexivity|].
  rewrite insert_le_length, IH. reflexivity.
Qed.

Lemma insert_le_sorted (x : A) (l : list A) :
  StronglySorted R l -> StronglySorted R (Py.insert le x l).
Proof.
  induction 1 as [|z r Hs IH Hall]; simpl.
  - repeat constructor.
  - destruct (le x z) eqn:E.
    + constructor; [constructor; assumption|].
      constructor; [exact E|].
      rewrite Forall_forall in *. intros y Hy.
      apply le_trans with z; [exact E|apply Hall; exact Hy].
    + constructor; [exact IH|].
      rewrite Forall_forall in *. intros y Hy.
      apply insert_le_In in Hy. destruct Hy as [->|Hy].
      * destruct (le_total z x) as [H|H]; [exact H|congruence].
      * apply Hall. exact Hy.
Qed.

Lemma sort_le_sorted (l : list A) : StronglySorted R (Py.sort le l).
Proof.
  induction l; simpl; [constructor | apply insert_le_sorted; assumption].
Qed.

(** Sorting a sorted list changes nothing. *)
Lemma sort_le_fixed (l : list A) : StronglySorted R l -> Py.sort le l = l.
Proof.
  induction 1 as [|x r Hs IH Hall]; simpl; [reflexivity|].
  rewrite IH. destruct r as [|y r']; [reflexivity|].
  simpl. inversion Hall as [|? ? Hxy _]; subst.
  unfold R in Hxy. rewrite Hxy. reflexivity.
Qed.
End SortOrder.

Section SortedLists.
Variable A : Type.
Variable R : A -> A -> Prop.

Lemma sorted_snoc (l : list A) (t : A) :
  StronglySorted R l -> Forall (fun e => R e t) l ->
  StronglySorted R (l ++ [t]).
Proof.
  induction 1 as [|x r Hs IH Hall]; simpl; intro Hf.
  - repeat constructor.
  - inversion Hf as [|? ? Hxt Hrt]; subst.
    constructor; [apply IH; exact Hrt|].
    apply Forall_app. split; [exact Hall|]. constructor; [exact Hxt|constructor].
Qed.

Lemma sorted_drop_middle (a b : list A) (x : A) :
  StronglySorted R (a ++ x :: b) -> StronglySorted R (a ++ b).
Proof.
  induction a as [|y a IH]; simpl; intro H.
  - inversion H; assumption.
  - inversion H as [|? ? Hs Hall]; subst.
    constructor; [apply IH; exact Hs|].
    apply Forall_app in Hall. destruct Hall as [Ha Hb].
    apply Forall_app. split; [exact Ha|]. inversion Hb; assumption.
Qed.

(** Pairs in list order. *)
Lemma ordpairs_snoc (l : list A) (t : A) :
  ForallOrdPairs R l -> Forall (fun e => R e t) l ->
  ForallOrdPairs R (l ++ [t]).
Proof.
  induction 1 as [|x r Hx Hr IH]; simpl; intro Hf.
  - repeat constructor.
  - inversion Hf as [|? ? Hxt Hrt]; subst.
    constructor; [|apply IH; exact Hrt].
    apply Forall_app. split; [exact Hx|]. constructor; [exact Hxt|constructor].
Qed.

Lemma ordpairs_nth (l : list A) :
  ForallOrdPairs R l ->
  forall i j a b, (i < j)%nat ->
    nth_error l i = Some a -> nth_error l j = Some b -> R a b.
Proof.
  induction 1 as [|x r Hx Hr IH]; intros i j a b Hij Ha Hb.
  - destruct i; discriminate.
  - destruct j as [|j]; [lia|]. simpl in Hb.
    destruct i as [|i]; simpl in Ha.
    + injection Ha as <-. rewrite Forall_forall in Hx. apply Hx.
      eapply nth_error_In; eassumption.
    + apply (IH i j); [lia|assumption|assumption].
Qed.
End SortedLists.

Lemma sorted_weaken {A} (R R' : A -> A -> Prop) (l : list A) :
  (forall a b, R a b -> R' a b) ->
  StronglySorted R l -> StronglySorted R' l.
Proof.
  intro H. induction 1 as [|x r Hs IH Hall]; constructor; [exact IH|].
  rewrite Forall_forall in *. auto.
Qed.

(** Disjointness does not depend on the order of the list. *)
Section DisjointOrder.
Variable T : Type.
Variable range : T -> Z * Z.
Variable le : T -> T -> bool.

Lemma pairwise_disjoint_In (l : list T) (x : T) :
  pairwise_disjoint range (x :: l) ->
  forall y, In y l -> ~ clash range x y /\ ~ clash range y x.
Proof.
  intros [Hx _] y Hy. rewrite Forall_forall in Hx. split.
  - apply Hx. exact Hy.
  - intro Hc. apply (Hx y Hy). apply clash_sym. exact Hc.
Qed.

Lemma pairwise_disjoint_insert (x : T) (l : list T) :
  pairwise_disjoint range (x :: l) ->
  pairwise_disjoint range (Py.insert le x l).
Proof.
  induction l as [|y r IH]; simpl; intro H; [exact H|].
  destruct (le x y); [exact H|].
  destruct H as [Hx [Hy Hr]]. inversion Hx as [|? ? Hxy Hxr]; subst.
  simpl. split.
  - rewrite Forall_forall in *. intros z Hz.
    apply insert_le_In in Hz. destruct Hz as [->|Hz].
    + intro Hc. apply Hxy. apply clash_sym. exact Hc.
    + apply Hy. exact Hz.
  - apply IH. simpl. split; assumption.
Qed.

Lemma pairwise_disjoint_sort (l : list T) :
  pairwise_disjoint range l -> pairwise_disjoint range (Py.sort le l).
Proof.
  induction l as [|x r IH]; simpl; intro H; [exact I|].
  destruct H as [Hx Hr]. apply pairwise_disjoint_insert. simpl. split.
  - rewrite Forall_forall in *. intros z Hz. apply Hx.
    apply sort_le_In in Hz. exact Hz.
  - apply IH. exact Hr.
Qed.

Lemma pairwise_disjoint_app_l (a b : list T) :
  pairwise_disjoint range (a ++ b) -> pairwise_disjoint range b.
Proof.
  induction a as [|x a IH]; simpl; [trivial|]. intros [_ H]. apply IH. exact H.
Qed.

Lemma pairwise_disjoint_mid (a b : list T) (t : T) :
  pairwise_disjoint range (a ++ t :: b) ->
  Forall (fun e => ~ clash range e t) a.
Proof.
  induction a as [|x a IH]; simpl; intro H; [constructor|].
  destruct H as [Hx Hr]. constructor; [|apply IH; exact Hr].
  rewrite Forall_forall in Hx. apply Hx. apply in_or_app. right. left.
  reflexivity.
Qed.
End DisjointOrder.

(** ** table_parser.py : what deduplication keeps *)

Module BaseDedupFacts.
Import TableParser TableParserFacts.

Definition by_start (a b : Table) : Prop := start_line a <= start_line b.

Definition le_start (a b : Table) : bool := start_line a <=? start_line b.

Lemma le_start_total a b : le_start a b = true \/ le_start b a = true.
Proof. unfold le_start. destruct (Z.leb_spec (start_line a) (start_line b)); [auto|right; apply Z.leb_le; lia]. Qed.

Lemma le_start_trans a b c :
  le_start a b = true -> le_start b c = true -> le_start a c = true.
Proof. unfold le_start. rewrite !Z.leb_le. lia. Qed.

Lemma list_remove_sorted (x : Table) (l : list Table) :
  StronglySorted by_start l -> StronglySorted by_start (list_remove x l).
Proof.
  induction 1 as [|y r Hs IH Hall]; simpl; [constructor|].
  destruct (table_eqb y x); [exact Hs|].
  constructor; [exact IH|].
  rewrite Forall_forall in *. intros z Hz. apply Hall.
  eapply list_remove_incl; eassumption.
Qed.

Lemma list_remove_length (x : Table) (l : list Table) :
  (List.length (list_remove x l) <= List.length l)%nat.
Proof.
  induction l as [|y r IH]; simpl; [lia|].
  destruct (table_eqb y x); simpl; lia.
Qed.

Lemma dedup_step_sorted (acc : list Table) (t : Table) :
  StronglySorted by_start acc ->
  Forall (fun e => start_line e <= start_line t) acc ->
  StronglySorted by_start (dedup_step acc t)
  /\ Forall (fun e => start_line e <= start_line t) (dedup_step acc t).
Proof.
  intros Hs Hb. unfold dedup_step.
  destruct (first_overlap t acc) as [ex|].
  - destruct (Py.Qlt_bool (confidence ex) (confidence t)); [|auto].
    assert (Hb' : Forall (fun e => start_line e <= start_line t)
                         (list_remove ex acc)).
    { rewrite Forall_forall in *. intros e He. apply Hb.
      eapply list_remove_incl; eassumption. }
    split.
    + apply sorted_snoc; [apply list_remove_sorted; exact Hs|exact Hb'].
    + apply Forall_app. split; [exact Hb'|]. constructor; [lia|constructor].
  - split.
    + apply sorted_snoc; assumption.
    + apply Forall_app. split; [exact Hb|]. constructor; [lia|constructor].
Qed.

Lemma fold_dedup_sorted (l acc : list Table) :
  StronglySorted by_start l ->
  StronglySorted by_start acc ->
  Forall (fun e => Forall (fun t => start_line e <= start_line t) l) acc ->
  StronglySorted by_start (fold_left dedup_step l acc).
Proof.
  revert acc. induction l as [|t r IH]; simpl; intros acc Hl Hs Hb;
    [assumption|].
  inversion Hl as [|? ? Hlr Ht]; subst.
  assert (Hbt : Forall (fun e => start_line e <= start_line t) acc).
  { rewrite Forall_forall in *. intros e He.
    specialize (Hb e He). inversion Hb; assumption. }
  destruct (@dedup_step_sorted acc t Hs Hbt) as [Hs' Hb'].
  apply IH; [assumption|assumption|].
  rewrite Forall_forall in *. intros e He.
  rewrite Forall_forall. intros u Hu.
  specialize (Hb' e He). specialize (Ht u Hu). unfold by_start in Ht. lia.
Qed.

Lemma dedup_step_incl (acc : list Table) (t : Table) :
  incl (dedup_step acc t) (acc ++ [t]).
Proof.
  unfold dedup_step. destruct (first_overlap t acc) as [ex|].
  - destruct (Py.Qlt_bool _ _).
    + apply incl_app; [|apply incl_appr, incl_refl].
      apply incl_appl. apply list_remove_incl.
    + apply incl_appl, incl_refl.
  - apply incl_refl.
Qed.

Lemma fold_dedup_incl (l acc : list Table) :
  incl (fold_left dedup_step l acc) (acc ++ l).
Proof.
  revert acc. induction l as [|t r IH]; simpl; intro acc.
  - rewrite app_nil_r. apply incl_refl.
  - eapply incl_tran; [apply IH|].
    apply incl_app.
    + eapply incl_tran; [apply dedup_step_incl|].
      intros x Hx. rewrite in_app_iff in *. simpl in *. tauto.
    + apply incl_appr. apply incl_tl, incl_refl.
Qed.

Lemma dedup_step_length (acc : list Table) (t : Table) :
  (1 <= List.length (dedup_step acc t) <= S (List.length acc))%nat.
Proof.
  unfold dedup_step.
  pose proof (first_overlap_spec t acc) as Hf.
  destruct (first_overlap t acc) as [ex|].
  - destruct Hf as [Hin _].
    destruct (Py.Qlt_bool _ _).
    + rewrite length_app. simpl.
      pose proof (list_remove_length ex acc). lia.
    + destruct acc; [contradiction|]. simpl. lia.
  - rewrite length_app. simpl. lia.
Qed.

Lemma fold_dedup_length (l acc : list Table) :
  (List.length (fold_left dedup_step l acc)
   <= List.length acc + List.length l)%nat
  /\ (l <> [] -> 1 <= List.length (fold_left dedup_step l acc))%nat.
Proof.
  revert acc. induction l as [|t r IH]; simpl; intro acc.
  - split; [lia|congruence].
  - destruct (IH (dedup_step acc t)) as [H1 H2].
    pose proof (dedup_step_length acc t) as Hs.
    split; [lia|]. intros _.
    destruct r as [|u r']; [simpl; lia|]. apply H2. discriminate.
Qed.
End BaseDedupFacts.

(** X2: [TableParser._deduplicate_tables] invents nothing and loses not
    everything: the tables it returns are among the candidates, there are at
    most as many, and one at least when there was a candidate. They come out
    ordered by [start_line], so that the [tables.sort(key=lambda t:
    t.start_line)] that follows in [identify_tables] changes nothing. *)
Theorem base_dedup_ordered_selection (tables : list TableParser.Table) :
  incl (TableParser._deduplicate_tables tables) tables
  /\ (List.length (TableParser._deduplicate_tables tables)
      <= List.length tables)%nat
  /\ (tables = [] <-> TableParser._deduplicate_tables tables = [])
  /\ StronglySorted BaseDedupFacts.by_start
                    (TableParser._deduplicate_tables tables)
  /\ TableParser.sort_tables (TableParser._deduplicate_tables tables)
     = TableParser._deduplicate_tables tables.
Proof.
  destruct tables as [|t0 r].
  - repeat split; try reflexivity; auto using incl_refl. constructor.
  - assert (Hd : TableParser._deduplicate_tables (t0 :: r)
                 = fold_left TableParser.dedup_step
                             (TableParser.sort_tables (t0 :: r)) [])
      by reflexivity.
    rewrite Hd. clear Hd. set (ts := t0 :: r).
    assert (Hsorted : StronglySorted BaseDedupFacts.by_start
                        (fold_left TableParser.dedup_step
                                   (TableParser.sort_tables ts) [])).
    { apply BaseDedupFacts.fold_dedup_sorted; [|constructor|constructor].
      apply (sort_sorted TableParser.start_line). }
    pose proof (BaseDedupFacts.fold_dedup_incl
                  (TableParser.sort_tables ts) []) as Hi.
    pose proof (BaseDedupFacts.fold_dedup_length
                  (TableParser.sort_tables ts) []) as [Hl1 Hl2].
    unfold TableParser.sort_tables in Hl1. rewrite sort_le_length in Hl1.
    assert (Hne : TableParser.sort_tables ts <> []).
    { intro Hc. apply (f_equal (@List.length _)) in Hc.
      unfold TableParser.sort_tables in Hc.
      rewrite sort_le_length in Hc. discriminate. }
    specialize (Hl2 Hne).
    split; [|split; [|split; [|split]]].
    + intros x Hx. apply Hi in Hx. cbn [app] in Hx.
      unfold TableParser.sort_tables in Hx. apply sort_le_In in Hx. exact Hx.
    + simpl in Hl1. exact Hl1.
    + split; intro Hc; [discriminate|].
      rewrite Hc in Hl2. simpl in Hl2. lia.
    + exact Hsorted.
    + unfold TableParser.sort_tables at 1.
      apply sort_le_fixed.
      apply sorted_weaken with (R := BaseDedupFacts.by_start); [|exact Hsorted].
      intros a b Hab. apply Z.leb_le. exact Hab.
Qed.

(** ** enhanced_table_parser.py : what deduplication guarantees *)

Module EnhancedDedupFacts.
Import EnhancedTableParser.

Definition by_key (a b : Table) : Prop := key_le a b = true.

Lemma key_le_total a b : key_le a b = true \/ key_le b a = true.
Proof.
  unfold key_le.
  destruct (Z.lt_trichotomy (start_line a) (start_line b)) as [H|[H|H]].
  - left. apply orb_true_iff. left. apply Z.ltb_lt. exact H.
  - rewrite H, Z.eqb_refl, Z.ltb_irrefl. simpl.
    destruct (Qlt_le_dec (- confidence b) (- confidence a)) as [Hq|Hq].
    + right. apply Qle_bool_iff. apply Qlt_le_weak. exact Hq.
    + left. apply Qle_bool_iff. exact Hq.
  - right. apply orb_true_iff. left. apply Z.ltb_lt. exact H.
Qed.

Lemma key_le_trans a b c :
  key_le a b = true -> key_le b c = true -> key_le a c = true.
Proof.
  unfold key_le. rewrite !orb_true_iff, !andb_true_iff, !Z.ltb_lt, !Z.eqb_eq,
    !Qle_bool_iff.
  intros [H1|[H1 Q1]] [H2|[H2 Q2]]; try (left; lia).
  right. split; [lia|]. eapply Qle_trans; eassumption.
Qed.

(** [overlap] stays [False] only if every accepted table that intersects
    the newcomer has a strictly lower confidence. *)
Lemma overlap_flag_false (t : Table) (acc : list Table) :
  overlap_flag t acc = false ->
  Forall (fun e => ranges_overlap (range e) (range t) ->
                   (confidence e < confidence t)%Q) acc.
Proof.
  induction acc as [|e r IH]; simpl; intro H; [constructor|].
  destruct ((start_line t <=? end_line e) && (end_line t >=? start_line e))
    eqn:E.
  - destruct (Qle_bool (confidence t) (confidence e)) eqn:Eq; [discriminate|].
    constructor; [|apply IH; exact H].
    intros _. apply Qnot_le_lt. intro Hc. apply Qle_bool_iff in Hc. congruence.
  - constructor; [|apply IH; exact H].
    intro Hc. exfalso. unfold ranges_overlap, range in Hc. simpl in Hc.
    apply andb_false_iff in E. destruct E as [E|E].
    + apply Z.leb_gt in E. lia.
    + rewrite Z.geb_leb in E. apply Z.leb_gt in E. lia.
Qed.

(** [overlap] becomes [True] only on an accepted table that intersects
    the newcomer and has at least its confidence. *)
Lemma overlap_flag_true (t : Table) (acc : list Table) :
  overlap_flag t acc = true ->
  exists e, In e acc /\ ranges_overlap (range t) (range e)
            /\ (confidence t <= confidence e)%Q.
Proof.
  induction acc as [|e r IH]; simpl; intro H; [discriminate|].
  destruct ((start_line t <=? end_line e) && (end_line t >=? start_line e))
    eqn:E.
  - destruct (Qle_bool (confidence t) (confidence e)) eqn:Eq.
    + exists e. split; [left; reflexivity|]. split.
      * apply andb_prop in E. destruct E as [E1 E2].
        apply Z.leb_le in E1. rewrite Z.geb_leb in E2. apply Z.leb_le in E2.
        unfold ranges_overlap, range. simpl. lia.
      * apply Qle_bool_iff. exact Eq.
    + destruct (IH H) as (x & Hx & Hr). exists x. split; [right; exact Hx|exact Hr].
  - destruct (IH H) as (x & Hx & Hr). exists x. split; [right; exact Hx|exact Hr].
Qed.

Definition rising (a b : Table) : Prop :=
  ranges_overlap (range a) (range b) -> (confidence a < confidence b)%Q.

Lemma fold_dedup_spec (l : list Table) :
  forall acc,
    StronglySorted by_key (acc ++ l) ->
    ForallOrdPairs rising acc ->
    exists kept,
      fold_left dedup_step l acc = acc ++ kept
      /\ incl kept l
      /\ StronglySorted by_key (acc ++ kept)
      /\ ForallOrdPairs rising (acc ++ kept)
      /\ (forall t, In t l ->
            In t kept
            \/ exists e, In e (acc ++ kept)
                         /\ ranges_overlap (range t) (range e)
                         /\ (confidence t <= confidence e)%Q).
Proof.
  induction l as [|t r IH]; intros acc Hs Hp.
  - exists []. simpl. rewrite app_nil_r in *.
    repeat split; auto using incl_refl; try (intros t []).
  - simpl. unfold dedup_step at 2.
    destruct (overlap_flag t acc) eqn:E.
    + destruct (IH acc) as (kept & Hk & Hi & Hs' & Hp' & Hc).
      * eapply sorted_drop_middle. exact Hs.
      * exact Hp.
      * exists kept. repeat split; auto.
        -- apply incl_tl. exact Hi.
        -- intros u [<-|Hu].
           ++ right. apply overlap_flag_true in E.
              destruct E as (e & He & Hr). exists e. split; [|exact Hr].
              apply in_or_app. left. exact He.
           ++ apply Hc. exact Hu.
    + destruct (IH (acc ++ [t])) as (kept & Hk & Hi & Hs' & Hp' & Hc).
      * rewrite <- app_assoc. exact Hs.
      * apply ordpairs_snoc; [exact Hp|].
        apply overlap_flag_false. exact E.
      * exists (t :: kept). rewrite <- app_assoc in *. simpl in *.
        repeat split; auto.
        -- apply incl_cons; [left; reflexivity|apply incl_tl; exact Hi].
        -- intros u [<-|Hu]; [left; left; reflexivity|].
           destruct (Hc u Hu) as [H|H]; [left; right; exact H|right; exact H].
Qed.
End EnhancedDedupFacts.

(** X3: what [EnhancedTableParser._deduplicate_tables] guarantees. The
    tables it returns are among the candidates and come out ordered by
    [(start_line, -confidence)], so the sort that follows in
    [identify_tables] changes nothing. Two returned tables may intersect,
    but then the later one has the strictly higher confidence. And every
    candidate is returned, or intersects a returned table that has at
    least its confidence. *)
Theorem enhanced_dedup_guarantee (tables : list EnhancedTableParser.Table) :
  incl (EnhancedTableParser._deduplicate_tables tables) tables
  /\ EnhancedTableParser.sort_tables
       (EnhancedTableParser._deduplicate_tables tables)
     = EnhancedTableParser._deduplicate_tables tables
  /\ (forall i j a b,
        (i < j)%nat ->
        nth_error (EnhancedTableParser._deduplicate_tables tables) i = Some a ->
        nth_error (EnhancedTableParser._deduplicate_tables tables) j = Some b ->
        ranges_overlap (EnhancedTableParser.range a)
                       (EnhancedTableParser.range b) ->
        (EnhancedTableParser.confidence a
         < EnhancedTableParser.confidence b)%Q)
  /\ (forall t, In t tables ->
        In t (EnhancedTableParser._deduplicate_tables tables)
        \/ exists e,
             In e (EnhancedTableParser._deduplicate_tables tables)
             /\ ranges_overlap (EnhancedTableParser.range t)
                               (EnhancedTableParser.range e)
             /\ (EnhancedTableParser.confidence t
                 <= EnhancedTableParser.confidence e)%Q).
Proof.
  destruct tables as [|t0 r].
  - simpl. split; [apply incl_refl|]. split; [reflexivity|]. split.
    + intros i j a b _ Ha. destruct i; discriminate.
    + intros t [].
  - assert (Hd : EnhancedTableParser._deduplicate_tables (t0 :: r)
                 = fold_left EnhancedTableParser.dedup_step
                             (EnhancedTableParser.sort_tables (t0 :: r)) [])
      by reflexivity.
    rewrite Hd. clear Hd. set (ts := t0 :: r).
    destruct (@EnhancedDedupFacts.fold_dedup_spec
                (EnhancedTableParser.sort_tables ts) [])
      as (kept & Hk & Hi & Hs & Hp & Hc).
    + apply sort_le_sorted.
      * exact EnhancedDedupFacts.key_le_total.
      * exact EnhancedDedupFacts.key_le_trans.
    + constructor.
    + rewrite Hk. cbn [app] in *. repeat split.
      * intros x Hx. apply Hi in Hx.
        unfold EnhancedTableParser.sort_tables in Hx.
        apply sort_le_In in Hx. exact Hx.
      * apply sort_le_fixed. exact Hs.
      * intros i j a b Hij Ha Hb.
        exact (@ordpairs_nth _ _ kept Hp i j a b Hij Ha Hb).
      * intros t Ht. apply Hc.
        unfold EnhancedTableParser.sort_tables. apply sort_le_In. exact Ht.
Qed.

(** ** Candidates that do not intersect are all kept *)

Module LosslessFacts.

Lemma base_fold_disjoint (l : list TableParser.Table) :
  forall acc,
    pairwise_disjoint TableParser.range (acc ++ l) ->
    Forall (fun t => TableParser.start_line t <= TableParser.end_line t) l ->
    fold_left TableParser.dedup_step l acc = acc ++ l.
Proof.
  induction l as [|t r IH]; intros acc Hd Hw; simpl.
  - rewrite app_nil_r. reflexivity.
  - inversion Hw as [|? ? Ht Hr]; subst.
    assert (Hstep : TableParser.dedup_step acc t = acc ++ [t]).
    { unfold TableParser.dedup_step.
      pose proof (TableParserFacts.first_overlap_spec t acc) as Hf.
      destruct (TableParser.first_overlap t acc) as [ex|]; [|reflexivity].
      exfalso. destruct Hf as [Hin Hex].
      apply pairwise_disjoint_mid in Hd. rewrite Forall_forall in Hd.
      apply (Hd ex Hin).
      unfold clash, ranges_overlap, TableParser.range. simpl. lia. }
    rewrite Hstep, IH; [rewrite <- app_assoc; reflexivity| |exact Hr].
    rewrite <- app_assoc. exact Hd.
Qed.

Lemma enhanced_fold_disjoint (l : list EnhancedTableParser.Table) :
  forall acc,
    pairwise_disjoint EnhancedTableParser.range (acc ++ l) ->
    fold_left EnhancedTableParser.dedup_step l acc = acc ++ l.
Proof.
  induction l as [|t r IH]; intros acc Hd; simpl.
  - rewrite app_nil_r. reflexivity.
  - assert (Hstep : EnhancedTableParser.dedup_step acc t = acc ++ [t]).
    { unfold EnhancedTableParser.dedup_step.
      destruct (EnhancedTableParser.overlap_flag t acc) eqn:E; [|reflexivity].
      exfalso. apply EnhancedDedupFacts.overlap_flag_true in E.
      destruct E as (e & He & Hr & _).
      apply pairwise_disjoint_mid in Hd. rewrite Forall_forall in Hd.
      apply (Hd e He). apply clash_sym. exact Hr. }
    rewrite Hstep, IH; [rewrite <- app_assoc; reflexivity|].
    rewrite <- app_assoc. exact Hd.
Qed.
End LosslessFacts.

(** X4: deduplication loses nothing without need. When no two candidates
    intersect (and, for [TableParser], no candidate ends before it starts),
    [_deduplicate_tables] returns all of them, sorted: by [start_line] in
    [TableParser], by [(start_line, -confidence)] in
    [EnhancedTableParser]. *)
Theorem dedup_keeps_disjoint_candidates
  (tables : list TableParser.Table)
  (tables' : list EnhancedTableParser.Table)
  (Hd : pairwise_disjoint TableParser.range tables)
  (Hw : Forall (fun t => TableParser.start_line t <= TableParser.end_line t)
               tables)
  (Hd' : pairwise_disjoint EnhancedTableParser.range tables') :
  TableParser._deduplicate_tables tables = TableParser.sort_tables tables
  /\ EnhancedTableParser._deduplicate_tables tables'
     = EnhancedTableParser.sort_tables tables'.
Proof.
  split.
  - destruct tables as [|t0 r]; [reflexivity|].
    change (TableParser._deduplicate_tables (t0 :: r))
      with (fold_left TableParser.dedup_step
                      (TableParser.sort_tables (t0 :: r)) []).
    rewrite LosslessFacts.base_fold_disjoint; [reflexivity| |].
    + cbn [app]. apply pairwise_disjoint_sort. exact Hd.
    + rewrite Forall_forall in *. intros t Ht. apply Hw.
      unfold TableParser.sort_tables in Ht. apply sort_le_In in Ht. exact Ht.
  - destruct tables' as [|t0 r]; [reflexivity|].
    change (EnhancedTableParser._deduplicate_tables (t0 :: r))
      with (fold_left EnhancedTableParser.dedup_step
                      (EnhancedTableParser.sort_tables (t0 :: r)) []).
    rewrite LosslessFacts.enhanced_fold_disjoint; [reflexivity|].
    cbn [app]. apply pairwise_disjoint_sort. exact Hd'.
Qed.

Definition apart_early : TableParser.Table :=
  TableParser.mkTable [] 0 0 0 5 None (80 # 100) "aligned" "" [].
Definition apart_late : TableParser.Table :=
  TableParser.mkTable [] 0 0 10 12 None (90 # 100) "delimited" "" [].
Definition apart_early_enh : EnhancedTableParser.Table :=
  EnhancedTableParser.mkTable [] 0 0 10 20 None (95 # 100) "financial" ""
                              0 0 false false.
Definition apart_late_enh : EnhancedTableParser.Table :=
  EnhancedTableParser.mkTable [] 0 0 30 34 None (90 # 100) "delimited" ""
                              0 0 false false.

Lemma dedup_keeps_disjoint_candidates_witness :
  TableParser._deduplicate_tables [apart_late; apart_early]
  = [apart_early; apart_late]
  /\ EnhancedTableParser._deduplicate_tables [apart_late_enh; apart_early_enh]
     = [apart_early_enh; apart_late_enh].
Proof.
  apply (@dedup_keeps_disjoint_candidates
           [apart_late; apart_early] [apart_late_enh; apart_early_enh]).
  - simpl. repeat split; repeat constructor.
    unfold clash, ranges_overlap. simpl. lia.
  - repeat constructor; simpl; lia.
  - simpl. repeat split; repeat constructor.
    unfold clash, ranges_overlap. simpl. lia.
Defined.

(** ** Deduplication and intersecting line ranges *)

Module RangeFacts.

Lemma enhanced_fold_sorted_rising (tables : list EnhancedTableParser.Table) :
  tables <> [] ->
  incl (EnhancedTableParser._deduplicate_tables tables) tables
  /\ StronglySorted EnhancedDedupFacts.by_key
                    (EnhancedTableParser._deduplicate_tables tables)
  /\ ForallOrdPairs EnhancedDedupFacts.rising
                    (EnhancedTableParser._deduplicate_tables tables).
Proof.
  intro Hne. destruct tables as [|t0 r]; [congruence|].
  change (EnhancedTableParser._deduplicate_tables (t0 :: r))
    with (fold_left EnhancedTableParser.dedup_step
                    (EnhancedTableParser.sort_tables (t0 :: r)) []).
  destruct (@EnhancedDedupFacts.fold_dedup_spec
              (EnhancedTableParser.sort_tables (t0 :: r)) [])
    as (kept & Hk & Hi & Hs & Hp & _).
  - apply sort_le_sorted.
    + exact EnhancedDedupFacts.key_le_total.
    + exact EnhancedDedupFacts.key_le_trans.
  - constructor.
  - rewrite Hk. cbn [app] in *. split; [|split; assumption].
    intros x Hx. apply Hi in Hx.
    unfold EnhancedTableParser.sort_tables in Hx.
    apply sort_le_In in Hx. exact Hx.
Qed.

Lemma sorted_nth {A} (R : A -> A -> Prop) (l : list A) :
  StronglySorted R l ->
  forall i j a b, (i < j)%nat ->
    nth_error l i = Some a -> nth_error l j = Some b -> R a b.
Proof.
  induction 1 as [|x r Hs IH Hall]; intros i j a b Hij Ha Hb.
  - destruct i; discriminate.
  - destruct j as [|j]; [lia|]. simpl in Hb.
    destruct i as [|i]; simpl in Ha.
    + injection Ha as <-. rewrite Forall_forall in Hall. apply Hall.
      eapply nth_error_In; eassumption.
    + apply (IH i j); [lia|assumption|assumption].
Qed.

(** Two tables of the enhanced result, the first in front of the second:
    if they intersect, the second starts on a later line and has the
    strictly higher confidence. *)
Lemma enhanced_pair (tables : list EnhancedTableParser.Table) :
  forall i j a b,
    (i < j)%nat ->
    nth_error (EnhancedTableParser._deduplicate_tables tables) i = Some a ->
    nth_error (EnhancedTableParser._deduplicate_tables tables) j = Some b ->
    ranges_overlap (EnhancedTableParser.range a) (EnhancedTableParser.range b) ->
    EnhancedTableParser.start_line a < EnhancedTableParser.start_line b
    /\ (EnhancedTableParser.confidence a < EnhancedTableParser.confidence b)%Q.
Proof.
  intros i j a b Hij Ha Hb Ho.
  destruct tables as [|t0 r]; [destruct i; discriminate|].
  destruct (@enhanced_fold_sorted_rising (t0 :: r)) as (_ & Hs & Hp);
    [discriminate|].
  pose proof (@ordpairs_nth _ _ _ Hp i j a b Hij Ha Hb Ho) as Hc.
  pose proof (@sorted_nth _ _ _ Hs i j a b Hij Ha Hb) as Hk.
  split; [|exact Hc].
  unfold EnhancedDedupFacts.by_key, EnhancedTableParser.key_le in Hk.
  apply orb_prop in Hk. destruct Hk as [Hk|Hk]; [apply Z.ltb_lt; exact Hk|].
  apply andb_prop in Hk. destruct Hk as [_ Hq]. apply Qle_bool_iff in Hq.
  exfalso. apply Qopp_le_compat in Hq. rewrite !Qopp_involutive in Hq.
  apply (Qlt_not_le _ _ Hc). exact Hq.
Qed.
End RangeFacts.


(** ** extractor.py : offsets to line numbers *)

Module ReconcilerFacts.
Import MDNAExtractor.

(** Index of the line whose range holds offset [p], for [p] not before
    the first of the lines; one before the first index if there is none. *)
Fixpoint locate (lines : list string) (i : Z) (current_pos : Z) (p : Z) : Z :=
  match lines with
  | [] => i - 1
  | line :: rest =>
      if p <=? current_pos + Py.len line then i
      else match rest with
           | [] => i - 1
           | _ => locate rest (i + 1) (current_pos + Py.len line + 1) p
           end
  end.

(** Offset of the end of the last line. *)
Fixpoint text_end (lines : list string) (current_pos : Z) : Z :=
  match lines with
  | [] => current_pos - 1
  | line :: rest => text_end rest (current_pos + Py.len line + 1)
  end.

Lemma len_nonneg (s : string) : 0 <= Py.len s.
Proof. unfold Py.len. lia. Qed.

Lemma text_end_lower (lines : list string) (cur : Z) :
  cur - 1 <= text_end lines cur.
Proof.
  revert cur. induction lines as [|l r IH]; simpl; intro cur; [lia|].
  specialize (IH (cur + Py.len l + 1)). pose proof (len_nonneg l). lia.
Qed.

Lemma locate_bounds (lines : list string) (i cur p : Z) :
  lines <> [] -> cur <= p <= text_end lines cur ->
  i <= locate lines i cur p < i + Z.of_nat (List.length lines).
Proof.
  revert i cur. induction lines as [|l r IH]; intros i cur Hne Hp; [congruence|].
  cbn [locate text_end List.length] in *.
  destruct (p <=? cur + Py.len l) eqn:E; [lia|].
  apply Z.leb_gt in E.
  destruct r as [|l' r'].
  - simpl in Hp. lia.
  - assert (Hr : l' :: r' <> []) by discriminate.
    specialize (IH (i + 1) (cur + Py.len l + 1) Hr).
    cbn [List.length] in *. lia.
Qed.

Lemma locate_mono (lines : list string) (i cur p q : Z) :
  lines <> [] -> cur <= p -> p <= q -> q <= text_end lines cur ->
  locate lines i cur p <= locate lines i cur q.
Proof.
  revert i cur. induction lines as [|l r IH]; intros i cur Hne Hp Hpq Hq; [congruence|].
  cbn [locate text_end] in *.
  destruct (p <=? cur + Py.len l) eqn:Ep, (q <=? cur + Py.len l) eqn:Eq;
    try apply Z.leb_le in Ep; try apply Z.leb_le in Eq;
    try apply Z.leb_gt in Ep; try apply Z.leb_gt in Eq; try lia.
  - destruct r as [|l' r']; [simpl in Hq; lia|].
    assert (Hr : l' :: r' <> []) by discriminate.
    pose proof (@locate_bounds (l' :: r') (i + 1) (cur + Py.len l + 1) q Hr).
    lia.
  - destruct r as [|l' r']; [lia|].
    apply IH; [discriminate|lia|lia|lia].
Qed.

(** What the loop returns for offsets within the text. *)
Lemma map_loop_locate (lines : list string) (i cur s e sl0 el0 : Z) :
  lines <> [] -> cur <= e <= text_end lines cur -> s <= e ->
  map_loop lines i cur s e sl0 el0
  = ((if s <? cur then sl0 else locate lines i cur s),
     locate lines i cur e).
Proof.
  revert i cur sl0. induction lines as [|l r IH]; intros i cur sl0 Hne He Hse;
    [congruence|].
  cbn [map_loop locate text_end] in *.
  pose proof (len_nonneg l) as Hl.
  destruct (e <=? cur + Py.len l) eqn:Ee.
  - apply Z.leb_le in Ee.
    replace ((cur <=? e) && true) with true
      by (symmetry; rewrite andb_true_r; apply Z.leb_le; lia).
    f_equal.
    destruct (s <? cur) eqn:Es.
    + apply Z.ltb_lt in Es.
      replace (cur <=? s) with false by (symmetry; apply Z.leb_gt; lia).
      reflexivity.
    + apply Z.ltb_ge in Es.
      replace (cur <=? s) with true by (symmetry; apply Z.leb_le; lia).
      replace (s <=? cur + Py.len l) with true
        by (symmetry; apply Z.leb_le; lia).
      reflexivity.
  - apply Z.leb_gt in Ee. rewrite andb_false_r.
    destruct r as [|l' r']; [simpl in He; lia|].
    rewrite IH; [|discriminate|lia|lia].
    f_equal.
    destruct (s <? cur) eqn:Es.
    + apply Z.ltb_lt in Es.
      replace (s <? cur + Py.len l + 1) with true
        by (symmetry; apply Z.ltb_lt; lia).
      replace (cur <=? s) with false by (symmetry; apply Z.leb_gt; lia).
      reflexivity.
    + apply Z.ltb_ge in Es.
      replace (cur <=? s) with true by (symmetry; apply Z.leb_le; lia).
      destruct (s <=? cur + Py.len l) eqn:Es2.
      * apply Z.leb_le in Es2.
        replace (s <? cur + Py.len l + 1) with true
          by (symmetry; apply Z.ltb_lt; lia).
        reflexivity.
      * apply Z.leb_gt in Es2.
        replace (s <? cur + Py.len l + 1) with false
          by (symmetry; apply Z.ltb_ge; lia).
        reflexivity.
Qed.

(** An offset no line range holds leaves [end_line] as it was. *)
Lemma map_loop_uncontained (lines : list string) (i cur s e sl0 el0 : Z) :
  Forall (fun r => ~ (fst r <= e <= snd r)) (line_ranges lines cur) ->
  snd (map_loop lines i cur s e sl0 el0) = el0.
Proof.
  revert i cur sl0. induction lines as [|l r IH]; intros i cur sl0 Hf;
    [reflexivity|].
  cbn [map_loop line_ranges] in *. inversion Hf as [|? ? Hh Ht]; subst.
  simpl in Hh.
  destruct ((cur <=? e) && (e <=? cur + Py.len l)) eqn:E.
  - apply andb_prop in E. destruct E as [E1 E2].
    apply Z.leb_le in E1. apply Z.leb_le in E2. lia.
  - apply IH. assumption.
Qed.

Lemma split_char_nonempty (c : ascii) (s : string) : Py.split_char c s <> [].
Proof.
  destruct s as [|a r]; simpl; [discriminate|].
  destruct (Ascii.eqb a c); [discriminate|].
  destruct (Py.split_char c r); discriminate.
Qed.

(** The last line of [content.split('\n')] ends at [len(content)]. *)
Lemma text_end_split (s : string) (cur : Z) :
  text_end (Py.split_char Py.newline s) cur = cur + Py.len s.
Proof.
  revert cur. induction s as [|a r IH]; intro cur.
  - simpl. unfold Py.len. simpl. lia.
  - cbn [Py.split_char].
    destruct (Ascii.eqb a Py.newline).
    + cbn [text_end]. rewrite IH. unfold Py.len. simpl String.length. lia.
    + specialize (IH cur).
      destruct (Py.split_char Py.newline r) as [|p ps] eqn:E.
      * exfalso. revert E. apply split_char_nonempty.
      * cbn [text_end] in *.
        replace (cur + Py.len (String a p) + 1) with ((cur + Py.len p + 1) + 1)
          by (unfold Py.len; simpl String.length; lia).
        assert (H1 : forall l c, text_end l (c + 1) = text_end l c + 1).
        { clear. induction l as [|x xs IHl]; intro c; simpl; [lia|].
          replace (c + 1 + Py.len x + 1) with ((c + Py.len x + 1) + 1) by lia.
          apply IHl. }
        rewrite H1, IH. unfold Py.len. simpl String.length. lia.
Qed.
End ReconcilerFacts.

(** C5: for offsets [0 <= start_offset <= end_offset <= len(text)] the
    reconciler returns line indices with
    [0 <= start_line <= end_line < number of lines]; each index is monotone
    in its offset; and an end offset that no line range contains yields the
    index of the last line. *)
Theorem map_positions_to_lines_spec (content : string) :
  let lines := Py.split_char Py.newline content in
  let n := Z.of_nat (List.length lines) in
  (forall s e, 0 <= s -> s <= e -> e <= Py.len content ->
     0 <= fst (MDNAExtractor._map_positions_to_lines content s e)
     /\ fst (MDNAExtractor._map_positions_to_lines content s e)
        <= snd (MDNAExtractor._map_positions_to_lines content s e)
     /\ snd (MDNAExtractor._map_positions_to_lines content s e) < n)
  /\ (forall s1 e1 s2 e2,
        0 <= s1 -> s1 <= e1 -> e1 <= Py.len content ->
        0 <= s2 -> s2 <= e2 -> e2 <= Py.len content ->
        (s1 <= s2 ->
         fst (MDNAExtractor._map_positions_to_lines content s1 e1)
         <= fst (MDNAExtractor._map_positions_to_lines content s2 e2))
        /\ (e1 <= e2 ->
            snd (MDNAExtractor._map_positions_to_lines content s1 e1)
            <= snd (MDNAExtractor._map_positions_to_lines content s2 e2)))
  /\ (forall s e,
        Forall (fun r => ~ (fst r <= e <= snd r))
               (MDNAExtractor.line_ranges lines 0) ->
        snd (MDNAExtractor._map_positions_to_lines content s e) = n - 1).
Proof.
  intros lines n.
  assert (Hne : lines <> []) by apply ReconcilerFacts.split_char_nonempty.
  assert (Hend : ReconcilerFacts.text_end lines 0 = Py.len content).
  { unfold lines. rewrite ReconcilerFacts.text_end_split. lia. }
  assert (Hloc : forall s e, 0 <= s -> s <= e -> e <= Py.len content ->
            MDNAExtractor._map_positions_to_lines content s e
            = (ReconcilerFacts.locate lines 0 0 s,
               ReconcilerFacts.locate lines 0 0 e)).
  { intros s e H0 Hse He. unfold MDNAExtractor._map_positions_to_lines.
    fold lines. rewrite ReconcilerFacts.map_loop_locate; [|assumption|lia|lia].
    replace (s <? 0) with false by (symmetry; apply Z.ltb_ge; lia).
    reflexivity. }
  split; [|split].
  - intros s e H0 Hse He. rewrite (Hloc s e H0 Hse He). simpl.
    pose proof (@ReconcilerFacts.locate_bounds lines 0 0 s Hne).
    pose proof (@ReconcilerFacts.locate_bounds lines 0 0 e Hne).
    pose proof (@ReconcilerFacts.locate_mono lines 0 0 s e Hne).
    fold n in H, H0. lia.
  - intros s1 e1 s2 e2 A1 A2 A3 B1 B2 B3.
    rewrite (Hloc s1 e1 A1 A2 A3), (Hloc s2 e2 B1 B2 B3). simpl.
    split; intro Hle; apply ReconcilerFacts.locate_mono; try assumption; lia.
  - intros s e Hf. unfold MDNAExtractor._map_positions_to_lines. fold lines.
    apply ReconcilerFacts.map_loop_uncontained. assumption.
Qed.

Definition three_lines : string := "ab
cd
ef".

Lemma map_positions_to_lines_witness :
  (0 <= fst (MDNAExtractor._map_positions_to_lines three_lines 1 4)
   /\ fst (MDNAExtractor._map_positions_to_lines three_lines 1 4)
      <= snd (MDNAExtractor._map_positions_to_lines three_lines 1 4)
   /\ snd (MDNAExtractor._map_positions_to_lines three_lines 1 4) < 3)
  /\ snd (MDNAExtractor._map_positions_to_lines three_lines 1 9) = 2.
Proof.
  pose proof (map_positions_to_lines_spec three_lines) as [H1 [_ H3]].
  split.
  - apply (H1 1 4); unfold Py.len; simpl; lia.
  - apply (H3 1 9). simpl. unfold Py.len. simpl.
    repeat constructor; simpl; lia.
Defined.

(** ** The matcher: finding an occurrence *)

Module ReFacts.
Import Py Re.

Section Found.
Variable f : flags.
Variable r : regex.
Variable subject : chars.

Lemma scan_here prev pos rest :
  is_some (m f r (mkState prev pos rest []) (fun st => Some st)) = true ->
  is_some (scan f r subject prev pos rest) = true.
Proof.
  intro H. destruct rest; simpl;
    destruct (m f r _ _); simpl in *; congruence.
Qed.

Lemma scan_later prev pos x xs :
  is_some (scan f r subject (Some x) (S pos) xs) = true ->
  is_some (scan f r subject prev pos (x :: xs)) = true.
Proof.
  intro H. simpl. destruct (m f r _ _); [reflexivity|exact H].
Qed.

(** A match that starts after some prefix of the subject, whatever the
    character before it, is found. *)
Lemma scan_after_prefix (a rest : chars) prev pos :
  (forall prev',
      is_some (m f r (mkState prev' (pos + List.length a)%nat rest [])
                 (fun st => Some st)) = true) ->
  is_some (scan f r subject prev pos (a ++ rest)) = true.
Proof.
  revert prev pos. induction a as [|x a IH]; intros prev pos H.
  - apply scan_here. specialize (H prev). simpl in H.
    rewrite Nat.add_0_r in H. exact H.
  - simpl app. apply scan_later. apply IH. intro prev'.
    replace (S pos + List.length a)%nat
      with (pos + List.length (x :: a))%nat by (simpl; lia).
    apply H.
Qed.
End Found.

Definition no_newline (p : chars) : bool :=
  forallb (fun c => negb (Ascii.eqb c newline)) p.

(** [.*] followed by [k]: if [k] succeeds after some newline-free
    prefix, whatever the character before, the whole succeeds. *)
Lemma star_dot_found (f : flags) (R : Type) (k : mstate -> option R)
      (p : chars) :
  no_newline p = true ->
  forall fuel cnt prev pos rest caps,
    (List.length p < fuel)%nat ->
    (forall prev', is_some (k (mkState prev' (pos + List.length p)%nat
                                       rest caps)) = true) ->
    is_some (rep_loop (m f (R:=R) Dot) 0 None true k fuel cnt
                      (mkState prev pos (p ++ rest) caps)) = true.
Proof.
  induction p as [|c p IH]; intros Hp fuel cnt prev pos rest caps Hf Hk.
  - destruct fuel as [|fuel]; [simpl in Hf; lia|].
    specialize (Hk prev). simpl in Hk. rewrite Nat.add_0_r in Hk.
    simpl. destruct rest as [|x xs]; simpl.
    + exact Hk.
    + destruct (Ascii.eqb x newline); [exact Hk|].
      match goal with |- is_some (match ?e with _ => _ end) = true =>
        destruct e end; [reflexivity|exact Hk].
  - destruct fuel as [|fuel]; [simpl in Hf; lia|].
    simpl in Hp. apply andb_prop in Hp. destruct Hp as [Hc Hp].
    simpl. apply negb_true_iff in Hc. rewrite Hc.
    replace (Nat.ltb pos (S pos)) with true
      by (symmetry; apply Nat.ltb_lt; lia).
    simpl.
    assert (Hrec : is_some (rep_loop (m f (R:=R) Dot) 0 None true k fuel (S cnt)
               (advance (mkState prev pos (c :: p ++ rest) caps) c (p ++ rest)))
             = true).
    { unfold advance. simpl. apply IH; [exact Hp|simpl in Hf; lia|].
      intro prev'.
      replace (S pos + List.length p)%nat
        with (pos + List.length (c :: p))%nat by (simpl; lia).
      apply Hk. }
    destruct (rep_loop _ _ _ _ _ _ _ _); [reflexivity|discriminate].
Qed.

(** At least [n + 1] elements pass the filter: the list splits at the
    first of them. *)
Lemma filter_split {A} (p : A -> bool) (l : list A) (n : nat) :
  (n < List.length (filter p l))%nat ->
  exists a x b, l = a ++ x :: b /\ p x = true
                /\ (n <= List.length (filter p b))%nat.
Proof.
  induction l as [|y l IH]; simpl; intro H; [lia|].
  destruct (p y) eqn:E.
  - exists [], y, l. simpl in H. repeat split; [exact E|lia].
  - destruct (IH H) as (a & x & b & -> & Hx & Hn).
    exists (y :: a), x, b. repeat split; assumption.
Qed.

Lemma s2l_l2s (l : chars) : s2l (l2s l) = l.
Proof. apply list_ascii_of_string_of_list_ascii. Qed.

(** Properties of characters are settled by running through all 256. *)
Definition all_ascii : list ascii := map ascii_of_nat (List.seq 0 256).

Lemma forall_ascii (P : ascii -> bool) :
  forallb P all_ascii = true -> forall x, P x = true.
Proof.
  intros H x. rewrite forallb_forall in H. apply H.
  rewrite <- (ascii_nat_embedding x). apply in_map. apply in_seq.
  pose proof (nat_ascii_bounded x). lia.
Qed.

Lemma forall_ascii2 (P : ascii -> ascii -> bool) :
  forallb (fun c => forallb (P c) all_ascii) all_ascii = true ->
  forall c x, P c x = true.
Proof.
  intros H c x. apply (forall_ascii (P c)).
  apply (forall_ascii (fun c => forallb (P c) all_ascii) H c).
Qed.

Lemma no_newline_app (a b : chars) :
  no_newline (a ++ b) = no_newline a && no_newline b.
Proof. apply forallb_app. Qed.
End ReFacts.

(** ** enhanced_text_normalizer.py : the pipe rule *)

Module ClassifierFacts.
Import Py Re ReFacts EnhancedTextNormalizer.

(** [\|.*\|.*\|] finds a match in every newline-free line with three
    pipe characters. *)
Lemma pipes_found (line : string) :
  no_newline (s2l line) = true ->
  3 <= count_char "|" line ->
  searchb NOFLAGS pipes line = true.
Proof.
  unfold count_char, searchb, search. intros Hnl Hc.
  destruct (@filter_split _ (Ascii.eqb "|") (s2l line) 2)
    as (l0 & x1 & t1 & E1 & Hx1 & H1); [lia|].
  destruct (@filter_split _ (Ascii.eqb "|") t1 1)
    as (l1 & x2 & t2 & E2 & Hx2 & H2); [lia|].
  destruct (@filter_split _ (Ascii.eqb "|") t2 0)
    as (l2 & x3 & t3 & E3 & Hx3 & _); [lia|].
  apply Ascii.eqb_eq in Hx1, Hx2, Hx3. subst x1 x2 x3 t2 t1.
  rewrite E1 in Hnl. rewrite E1.
  rewrite no_newline_app in Hnl. apply andb_prop in Hnl.
  destruct Hnl as [_ Hnl]. simpl in Hnl.
  rewrite no_newline_app in Hnl. apply andb_prop in Hnl.
  destruct Hnl as [Hl1 Hnl]. simpl in Hnl.
  rewrite no_newline_app in Hnl. apply andb_prop in Hnl.
  destruct Hnl as [Hl2 _].
  apply scan_after_prefix. intro prev'.
  unfold pipes. cbn [seq m ms_rest chr_match ignorecase NOFLAGS].
  rewrite Ascii.eqb_refl.
  unfold star. cbn [m]. unfold advance. cbn [ms_rest ms_pos ms_caps].
  apply (@star_dot_found NOFLAGS _ _ l1); [exact Hl1|rewrite length_app; simpl; lia|].
  intro p1. cbn [m ms_rest chr_match ignorecase NOFLAGS].
  rewrite Ascii.eqb_refl. unfold advance. cbn [ms_rest ms_pos ms_caps].
  apply (@star_dot_found NOFLAGS _ _ l2); [exact Hl2|rewrite length_app; simpl; lia|].
  intro p2. cbn [m ms_rest chr_match ignorecase NOFLAGS].
  rewrite Ascii.eqb_refl. reflexivity.
Qed.

Lemma lstrip_keeps (c : ascii) (l : chars) :
  In c l -> isspace c = false -> In c (lstrip_l l).
Proof.
  induction l as [|x l IH]; simpl; intros Hin Hc; [contradiction|].
  destruct (isspace x) eqn:E; [|exact Hin].
  destruct Hin as [->|Hin]; [congruence|auto].
Qed.

(** A line that holds a non-whitespace character is not blank. *)
Lemma strip_truthy (c : ascii) (line : string) :
  In c (s2l line) -> isspace c = false -> truthy (strip line) = true.
Proof.
  intros Hin Hc. unfold strip, strip_l, rstrip_l.
  assert (H : In c (rev (lstrip_l (rev (lstrip_l (s2l line)))))).
  { apply in_rev. rewrite rev_involutive.
    apply lstrip_keeps; [|exact Hc]. apply -> in_rev.
    apply lstrip_keeps; assumption. }
  destruct (rev (lstrip_l (rev (lstrip_l (s2l line))))); [contradiction|].
  reflexivity.
Qed.

Lemma count_char_In (c : ascii) (line : string) :
  0 < count_char c line -> In c (s2l line).
Proof.
  unfold count_char. intro H.
  destruct (filter (Ascii.eqb c) (s2l line)) as [|x r] eqn:E;
    [simpl in H; lia|].
  assert (Hx : In x (filter (Ascii.eqb c) (s2l line)))
    by (rewrite E; left; reflexivity).
  apply filter_In in Hx. destruct Hx as [Hx Hc].
  apply Ascii.eqb_eq in Hc. subst x. exact Hx.
Qed.

Lemma no_newline_iff (l : chars) :
  no_newline l = true <-> ~ In newline l.
Proof.
  unfold no_newline. rewrite forallb_forall. split.
  - intros H Hin. specialize (H _ Hin). rewrite Ascii.eqb_refl in H.
    discriminate.
  - intros H x Hx. apply negb_true_iff. apply Ascii.eqb_neq.
    intros ->. contradiction.
Qed.

(** The lines of [text.split('\n')] hold no newline. *)
Lemma split_lines_single (text : string) :
  Forall (fun line => ~ In newline (s2l line)) (split_char newline text).
Proof.
  induction text as [|a r IH]; cbn [split_char].
  - constructor; [simpl; tauto|constructor].
  - destruct (Ascii.eqb a newline) eqn:E.
    + constructor; [simpl; tauto|exact IH].
    + destruct (split_char newline r) as [|p ps]; [repeat constructor|].
      * simpl. intros [H|[]]. subst a. rewrite Ascii.eqb_refl in E.
        discriminate.
      * inversion IH; subst. constructor; [|assumption].
        simpl. intros [H|H]; [|contradiction].
        subst a. rewrite Ascii.eqb_refl in E. discriminate.
Qed.
End ClassifierFacts.

(** ** The pipe pattern matches only with three pipes *)

Module PipeSound.
Import Py Re ReFacts EnhancedTextNormalizer.

(** What [.*] followed by [k] returns, [k] returned at a position
    further on. *)
Lemma star_dot_suffix (f : flags) (R : Type) (k : mstate -> option R)
      (v : R) (fuel : nat) :
  forall cnt st,
    rep_loop (m f (R:=R) Dot) 0 None true k fuel cnt st = Some v ->
    exists st' p, k st' = Some v /\ ms_rest st = p ++ ms_rest st'.
Proof.
  induction fuel as [|fuel IH]; intros cnt st H; [discriminate|].
  cbn [rep_loop Nat.leb] in H.
  destruct (m f Dot st _) as [v'|] eqn:Em.
  - injection H as ->. cbn [m] in Em.
    destruct (ms_rest st) as [|x xs] eqn:Er; [discriminate|].
    destruct (Ascii.eqb x newline); [discriminate|].
    destruct (Nat.ltb cnt 0 || Nat.ltb (ms_pos st) (ms_pos (advance st x xs)));
      [|discriminate].
    apply IH in Em. destruct Em as (st' & p & Hk & Hp).
    exists st', (x :: p). split; [exact Hk|].
    unfold advance in Hp. cbn [ms_rest] in Hp. rewrite Hp. reflexivity.
  - exists st, []. split; [exact H|reflexivity].
Qed.

Lemma scan_suffix (f : flags) (r : regex) (subject : chars) (rest : chars) :
  forall prev pos mo,
    scan f r subject prev pos rest = Some mo ->
    exists a rest' prev' pos',
      rest = a ++ rest'
      /\ m f r (mkState prev' pos' rest' []) (fun st => Some st)
         = Some (m_end_state mo).
Proof.
  induction rest as [|x xs IH]; intros prev pos mo H.
  - simpl in H. destruct (m f r _ _) as [st|] eqn:Em; [|discriminate].
    injection H as <-. exists [], [], prev, pos. auto.
  - simpl in H. destruct (m f r _ _) as [st|] eqn:Em.
    + injection H as <-. exists [], (x :: xs), prev, pos. auto.
    + apply IH in H. destruct H as (a & rest' & prev' & pos' & -> & Hm).
      exists (x :: a), rest', prev', pos'. auto.
Qed.

Lemma count_app (c : ascii) (a b : chars) :
  List.length (filter (Ascii.eqb c) (a ++ b))
  = (List.length (filter (Ascii.eqb c) a)
     + List.length (filter (Ascii.eqb c) b))%nat.
Proof. rewrite filter_app, length_app. reflexivity. Qed.

(** [\|.*\|.*\|] only matches in a line with three pipe characters. *)
Lemma pipes_need_three (line : string) :
  searchb NOFLAGS pipes line = true -> 3 <= count_char "|" line.
Proof.
  unfold searchb, search, count_char. intro H.
  destruct (scan NOFLAGS pipes (s2l line) None 0 (s2l line)) as [mo|] eqn:Es;
    [|discriminate].
  apply scan_suffix in Es. destruct Es as (a & r0 & prev' & pos' & Hl & Hm).
  rewrite Hl. clear Hl H.
  unfold pipes in Hm. cbn [seq m ms_rest chr_match ignorecase NOFLAGS] in Hm.
  destruct r0 as [|x1 r1]; [discriminate|].
  destruct (Ascii.eqb "|" x1) eqn:E1; [|discriminate].
  unfold star in Hm. cbn [m] in Hm.
  apply (@star_dot_suffix NOFLAGS) in Hm. destruct Hm as (st1 & p1 & Hm & H1).
  unfold advance in H1. cbn [ms_rest] in H1.
  cbn [m chr_match ignorecase NOFLAGS] in Hm.
  destruct (ms_rest st1) as [|x2 r2] eqn:Er1; [discriminate|].
  destruct (Ascii.eqb "|" x2) eqn:E2; [|discriminate].
  apply (@star_dot_suffix NOFLAGS) in Hm. destruct Hm as (st2 & p2 & Hm & H2).
  unfold advance in H2. cbn [ms_rest] in H2.
  cbn [m chr_match ignorecase NOFLAGS] in Hm.
  destruct (ms_rest st2) as [|x3 r3] eqn:Er2; [discriminate|].
  destruct (Ascii.eqb "|" x3) eqn:E3; [|discriminate].
  subst r1 r2. rewrite count_app. cbn [filter]. rewrite E1.
  cbn [List.length]. rewrite count_app. cbn [filter]. rewrite E2.
  cbn [List.length]. rewrite count_app. cbn [filter]. rewrite E3.
  cbn [List.length]. lia.
Qed.
End PipeSound.

(** C8, as stated, fails: ["a|b|c"] holds two pipe characters, is not
    blank and is matched by none of the earlier rules, yet it is classified
    [regular_text]. *)
Lemma two_pipes_are_regular_text :
  let line := "a|b|c" in
  Py.count_char "|" line = 2
  /\ Py.truthy (Py.strip line) = true
  /\ Re.searchb Re.NOFLAGS EnhancedTextNormalizer.delimiters (Py.strip line)
     = false
  /\ Re.searchb Re.NOFLAGS EnhancedTextNormalizer.monetary line = false
  /\ EnhancedTextNormalizer._is_enhanced_table_header line = false
  /\ EnhancedTextNormalizer._classify_line_enhanced line [line] 0
     = EnhancedTextNormalizer.regular_text.
Proof. vm_compute. repeat split; reflexivity. Qed.

(** C8, amended: the pipe pattern is [\|.*\|.*\|], which finds a match in
    a line exactly when the line holds three pipe characters. Every line
    (without a newline) that holds at least 3 pipe characters and is matched
    by none of the earlier rules - not a delimiter run, not monetary data
    with columnar evidence, not a table header - is classified
    [table_content]. *)
Theorem three_pipes_are_table_content :
  (forall line,
      ~ In Py.newline (Py.s2l line) ->
      (Re.searchb Re.NOFLAGS EnhancedTextNormalizer.pipes line = true
       <-> 3 <= Py.count_char "|" line))
  /\ (forall line all_lines line_index,
         ~ In Py.newline (Py.s2l line) ->
         3 <= Py.count_char "|" line ->
         Re.searchb Re.NOFLAGS EnhancedTextNormalizer.delimiters
                    (Py.strip line) = false ->
         Re.searchb Re.NOFLAGS EnhancedTextNormalizer.monetary line
         && (Re.searchb Re.NOFLAGS EnhancedTextNormalizer.significant_spaces
                        line
             || Re.searchb Re.NOFLAGS EnhancedTextNormalizer.tabs line
             || Re.searchb Re.NOFLAGS EnhancedTextNormalizer.numeric_columns
                           line) = false ->
         EnhancedTextNormalizer._is_enhanced_table_header line = false ->
         EnhancedTextNormalizer._classify_line_enhanced line all_lines
                                                        line_index
         = EnhancedTextNormalizer.table_content).
Proof.
  split.
  - intros line Hline. split.
    + apply PipeSound.pipes_need_three.
    + apply ClassifierFacts.pipes_found.
      apply ClassifierFacts.no_newline_iff. exact Hline.
  - intros line all_lines line_index Hline Hpipes Hdelim Hmoney Hheader.
    unfold EnhancedTextNormalizer._classify_line_enhanced.
    rewrite (@ClassifierFacts.strip_truthy "|"%char line);
      [|apply ClassifierFacts.count_char_In; lia|reflexivity].
    cbn [negb]. rewrite Hdelim, Hmoney, Hheader.
    rewrite ClassifierFacts.pipes_found;
      [reflexivity|apply ClassifierFacts.no_newline_iff; exact Hline
      |exact Hpipes].
Qed.

Lemma three_pipes_are_table_content_witness :
  EnhancedTextNormalizer._classify_line_enhanced
    "a|b|c|d" ["a|b|c|d"] 0 = EnhancedTextNormalizer.table_content.
Proof.
  apply (proj2 three_pipes_are_table_content).
  - simpl. intros [H|[H|[H|[H|[H|[H|[H|[]]]]]]]]; discriminate H.
  - vm_compute. discriminate.
  - reflexivity.
  - reflexivity.
  - reflexivity.
Defined.

(** ** extractor.py : mandatory metadata *)

Module MetadataFacts.
Import Py Re ReFacts MDNAExtractor.

Lemma contains_split (sub l : chars) :
  contains_l sub l = true ->
  exists a b, l = a ++ b /\ prefix_l sub b = true.
Proof.
  induction l as [|x l IH]; simpl; intro H.
  - exists [], []. rewrite orb_false_r in H. auto.
  - apply orb_prop in H. destruct H as [H|H].
    + exists [], (x :: l). auto.
    + destruct (IH H) as (a & b & -> & Hb). exists (x :: a), b. auto.
Qed.

Lemma map_app_split {A B} (g : A -> B) (l : list A) (a' b' : list B) :
  map g l = a' ++ b' ->
  exists a b, l = a ++ b /\ map g a = a' /\ map g b = b'.
Proof.
  revert l. induction a' as [|y a' IH]; intros l H.
  - exists [], l. auto.
  - destruct l as [|x l]; [discriminate|]. simpl in H. injection H as Hx H.
    destruct (IH l H) as (a & b & -> & Ha & Hb).
    exists (x :: a), b. simpl. rewrite Hx, Ha. auto.
Qed.

(** A character whose upper-case form is the capital letter [c] matches
    [c] when case is ignored. *)
Lemma upper_letter (c x : ascii) :
  isupper c = true -> upper_char x = c ->
  chr_match IGNORECASE c x = true.
Proof.
  intros Hc Hx.
  pose proof (@forall_ascii2
    (fun c x => implb (isupper c && Ascii.eqb (upper_char x) c)
                      (chr_match IGNORECASE c x))) as H.
  specialize (H ltac:(vm_compute; reflexivity) c x). cbv beta in H.
  rewrite Hc, Hx, Ascii.eqb_refl in H. exact H.
Qed.

(** A character whose upper-case form is not a letter is that sign. *)
Lemma upper_other (c x : ascii) :
  isalpha c = false -> upper_char x = c -> x = c.
Proof.
  intros Hc Hx.
  pose proof (@forall_ascii2
    (fun c x => implb (negb (isalpha c) && Ascii.eqb (upper_char x) c)
                      (Ascii.eqb x c))) as H.
  specialize (H ltac:(vm_compute; reflexivity) c x). cbv beta in H.
  rewrite Hc, Hx, Ascii.eqb_refl in H. apply Ascii.eqb_eq. exact H.
Qed.

Lemma prefix_split (p l : chars) :
  prefix_l p l = true -> exists tl, l = p ++ tl.
Proof.
  revert l. induction p as [|c p IH]; intros l H.
  - exists l. reflexivity.
  - destruct l as [|x l]; [discriminate|]. simpl in H.
    apply andb_prop in H. destruct H as [Hc H]. apply Ascii.eqb_eq in Hc.
    destruct (IH l H) as (tl & ->). exists tl. subst. reflexivity.
Qed.

(** [FORM\s+(10-[KQ])(?:/A)?] finds a match, ignoring case, wherever the
    upper-cased text holds "FORM 10-" followed by K or Q. *)
Lemma form_pattern_found (q : ascii) (header : string) :
  one_of "KQ" q = true ->
  contains (String "F" (String "O" (String "R" (String "M" (String " "
           (String "1" (String "0" (String "-" (String q "")))))))))
           (upper header) = true ->
  is_some (search IGNORECASE (hd Eps form_type_patterns) header) = true.
Proof.
  intros Hq H. unfold contains, upper in H. rewrite s2l_l2s in H.
  apply contains_split in H. destruct H as (a' & b' & Hab & Hp).
  apply prefix_split in Hp. destruct Hp as (tl' & ->).
  apply map_app_split in Hab. destruct Hab as (a & b & Hl & _ & Hb).
  apply map_app_split in Hb. destruct Hb as (w & tl & -> & Hw & _).
  unfold search. rewrite Hl. apply scan_after_prefix. intro prev'.
  cbn [s2l list_ascii_of_string] in Hw.
  destruct w as [|x1 [|x2 [|x3 [|x4 [|x5 [|x6 [|x7 [|x8 [|x9 [|x10 w]]]]]]]]]];
    try discriminate Hw.
  cbn [map] in Hw.
  injection Hw as H1 H2 H3 H4 H5 H6 H7 H8 H9.
  assert (E1 : chr_match IGNORECASE "F" x1 = true)
    by (apply upper_letter; [reflexivity|assumption]).
  assert (E2 : chr_match IGNORECASE "O" x2 = true)
    by (apply upper_letter; [reflexivity|assumption]).
  assert (E3 : chr_match IGNORECASE "R" x3 = true)
    by (apply upper_letter; [reflexivity|assumption]).
  assert (E4 : chr_match IGNORECASE "M" x4 = true)
    by (apply upper_letter; [reflexivity|assumption]).
  assert (E5 : x5 = " "%char) by (apply upper_other; [reflexivity|assumption]).
  assert (E6 : x6 = "1"%char) by (apply upper_other; [reflexivity|assumption]).
  assert (E7 : x7 = "0"%char) by (apply upper_other; [reflexivity|assumption]).
  assert (E8 : x8 = "-"%char) by (apply upper_other; [reflexivity|assumption]).
  assert (E9 : cls_match IGNORECASE (one_of "KQ") x9 = true).
  { unfold cls_match. cbn [ignorecase IGNORECASE].
    rewrite H9, Hq. apply orb_true_r. }
  subst x5 x6 x7 x8. clear H1 H2 H3 H4 H5 H6 H7 H8 H9.
  assert (C1 : chr_match IGNORECASE "1" "1" = true) by reflexivity.
  assert (C2 : chr_match IGNORECASE "0" "0" = true) by reflexivity.
  assert (C3 : chr_match IGNORECASE "-" "-" = true) by reflexivity.
  assert (S1 : cls_match IGNORECASE isspace " " = true) by reflexivity.
  assert (S2 : cls_match IGNORECASE isspace "1" = false) by reflexivity.
  Opaque chr_match cls_match.
  simpl. rewrite E1. simpl. rewrite E2. simpl. rewrite E3. simpl. rewrite E4.
  simpl. rewrite S1. simpl.
  replace (Nat.ltb (List.length a + 4) (S (List.length a + 4))) with true
    by (symmetry; apply Nat.ltb_lt; lia).
  simpl. rewrite S2. simpl. rewrite C1. simpl. rewrite C2. simpl.
  rewrite C3. simpl. rewrite E9. simpl.
  destruct tl as [|y1 [|y2 tl2]]; simpl; try reflexivity;
    destruct (chr_match IGNORECASE "/" y1); simpl; try reflexivity.
  destruct (chr_match IGNORECASE "A" y2); simpl; try reflexivity.
  match goal with
  | |- context [Nat.ltb ?u ?v] =>
      replace (Nat.ltb u v) with true by (symmetry; apply Nat.ltb_lt; lia)
  end.
  reflexivity.
Qed.
Transparent chr_match cls_match.
End MetadataFacts.

Definition plain_path : MDNAExtractor.Path :=
  MDNAExtractor.mkPath "report.txt" None.

Definition plain_content : string :=
  "CIK: 1234
Annual report for the fiscal year".

(** C9, as stated, fails: the file name [report.txt] does not match the
    metadata pattern and the text matches no form-type pattern, yet a
    [Filing] is created, with form type "10-K". *)
Lemma filing_created_without_form_type :
  Re.search Re.IGNORECASE MDNAExtractor.filename_pattern
            (MDNAExtractor.name plain_path) = None
  /\ MDNAExtractor.first_search Re.IGNORECASE MDNAExtractor.form_type_patterns
       (Py.take 2000 plain_content) = None
  /\ MDNAExtractor._create_filing_from_text plain_path plain_content
     = Some (MDNAExtractor.mkFiling plain_path "0000001234" "Unknown Company"
                                    "10-K" None 0).
Proof. vm_compute. repeat split; reflexivity. Qed.

(** C9, amended: when neither the file name nor a form-type pattern yields
    a form type, [_extract_form_type] falls back to "10-K"; the mandatory
    check then fails only for a missing identifier: with a CIK in the text a
    [Filing] of form type "10-K" is created, without one none is. *)
Theorem form_type_defaults_to_10K
  (file_path : MDNAExtractor.Path) (content : string)
  (Hname : Re.search Re.IGNORECASE MDNAExtractor.filename_pattern
                     (MDNAExtractor.name file_path) = None)
  (Hform : MDNAExtractor.first_search Re.IGNORECASE
             MDNAExtractor.form_type_patterns (Py.take 2000 content) = None) :
  MDNAExtractor._extract_form_type content = Some "10-K"
  /\ (forall cik, MDNAExtractor._extract_cik content = Some cik ->
        MDNAExtractor._create_filing_from_text file_path content
        = Some (MDNAExtractor.mkFiling
                  file_path cik (MDNAExtractor._extract_company_name content)
                  "10-K" (MDNAExtractor._extract_filing_date content)
                  (match MDNAExtractor.st_size file_path with
                   | Some size => size
                   | None => 0
                   end)))
  /\ (MDNAExtractor._extract_cik content = None ->
      MDNAExtractor._create_filing_from_text file_path content = None).
Proof.
  assert (Hft : MDNAExtractor._extract_form_type content = Some "10-K").
  { unfold MDNAExtractor._extract_form_type. rewrite Hform.
    destruct (Py.contains "FORM 10-Q" (Py.upper (Py.take 2000 content))) eqn:EQ.
    - exfalso.
      pose proof (@MetadataFacts.form_pattern_found "Q"%char
                    (Py.take 2000 content) eq_refl EQ) as Hs.
      cbn [MDNAExtractor.first_search MDNAExtractor.form_type_patterns hd]
        in Hform, Hs.
      destruct (Re.search Re.IGNORECASE _ (Py.take 2000 content));
        discriminate.
    - destruct (Py.contains "FORM 10-K" (Py.upper (Py.take 2000 content)));
        reflexivity. }
  split; [exact Hft|].
  unfold MDNAExtractor._create_filing_from_text,
    MDNAExtractor._parse_filename_metadata.
  rewrite Hname, Hft. cbn [MDNAExtractor.or_else].
  split.
  - intros cik Hcik. rewrite Hcik. reflexivity.
  - intros Hcik. rewrite Hcik. reflexivity.
Qed.

Lemma form_type_defaults_to_10K_witness :
  MDNAExtractor._extract_form_type plain_content = Some "10-K"
  /\ MDNAExtractor._create_filing_from_text plain_path plain_content
     = Some (MDNAExtractor.mkFiling plain_path "0000001234" "Unknown Company"
                                    "10-K" None 0).
Proof.
  destruct (@form_type_defaults_to_10K plain_path plain_content)
    as (H1 & H2 & _); [reflexivity|reflexivity|].
  split; [exact H1|].
  apply (H2 "0000001234"). reflexivity.
Defined.

Module CompanyFacts.
Import Py Re MDNAExtractor.

Lemma first_search_none (f : flags) (patterns : list regex) (text : string) :
  first_search f patterns text = None ->
  Forall (fun pattern => search f pattern text = None) patterns.
Proof.
  induction patterns as [|p ps IH]; simpl; intro H; [constructor|].
  destruct (search f p text) eqn:E; [discriminate|].
  constructor; [exact E|auto].
Qed.

Lemma company_name_loop_none (patterns : list regex) (header : string) :
  Forall (fun pattern => search IGNORECASE pattern header = None) patterns ->
  company_name_loop patterns header = "Unknown Company".
Proof.
  induction 1 as [|p ps Hp _ IH]; simpl; [reflexivity|].
  rewrite Hp. exact IH.
Qed.

(** [_extract_form_type] never returns [None]. *)
Lemma form_type_total (content : string) :
  exists form_type, _extract_form_type content = Some form_type.
Proof.
  unfold _extract_form_type.
  destruct (first_search _ _ _); [eexists; reflexivity|].
  destruct (contains "FORM 10-Q" _); [eexists; reflexivity|].
  destruct (contains "FORM 10-K" _); eexists; reflexivity.
Qed.
End CompanyFacts.

(** C10: a missing company name is never fatal. When none of the
    company-name patterns matches, [_extract_company_name] returns
    "Unknown Company"; and whether a [Filing] is created depends on the
    identifier alone (the form type always has a value): with a CIK from the
    file name or the text a [Filing] is created and carries the extracted or
    default company name, without one none is. *)
Theorem company_name_never_fatal
  (file_path : MDNAExtractor.Path) (content : string) :
  (MDNAExtractor.first_search Re.IGNORECASE MDNAExtractor.company_name_patterns
     (Py.take 5000 content) = None ->
   MDNAExtractor._extract_company_name content = "Unknown Company")
  /\ match MDNAExtractor.or_else
             (fst (fst (MDNAExtractor._parse_filename_metadata file_path)))
             (MDNAExtractor._extract_cik content)
     with
     | Some cik =>
         exists filing,
           MDNAExtractor._create_filing_from_text file_path content
           = Some filing
           /\ MDNAExtractor.cik filing = cik
           /\ MDNAExtractor.company_name filing
              = MDNAExtractor._extract_company_name content
     | None =>
         MDNAExtractor._create_filing_from_text file_path content = None
     end.
Proof.
  split.
  - intro H. unfold MDNAExtractor._extract_company_name.
    apply CompanyFacts.company_name_loop_none.
    apply CompanyFacts.first_search_none. exact H.
  - unfold MDNAExtractor._create_filing_from_text.
    destruct (MDNAExtractor._parse_filename_metadata file_path)
      as [[fcik fdate] fform].
    cbn [fst].
    destruct (MDNAExtractor.or_else fcik (MDNAExtractor._extract_cik content))
      as [cik|]; [|reflexivity].
    destruct (CompanyFacts.form_type_total content) as (ft & Hft).
    rewrite Hft.
    destruct fform as [ff|]; cbn [MDNAExtractor.or_else];
      eexists; (split; [reflexivity|split; reflexivity]).
Qed.

Lemma company_name_never_fatal_witness :
  MDNAExtractor._extract_company_name plain_content = "Unknown Company"
  /\ exists filing,
      MDNAExtractor._create_filing_from_text plain_path plain_content
      = Some filing
      /\ MDNAExtractor.cik filing = "0000001234"
      /\ MDNAExtractor.company_name filing
         = MDNAExtractor._extract_company_name plain_content.
Proof.
  destruct (company_name_never_fatal plain_path plain_content) as [H1 H2].
  split; [apply H1; reflexivity|].
  exact H2.
Defined.

(** ** extractor.py : the assembly pass *)

Module AssemblyFacts.
Import Py Re ReFacts MDNAExtractor.

(** The shape of the assembled output: line by line the text lines in
    their [text_line_output] form, and fenced regions copied verbatim,
    possibly after one empty line. *)
Inductive assembled : list string -> list string -> Prop :=
| asm_done : assembled [] []
| asm_text line rest out :
    assembled rest out ->
    assembled (line :: rest) (text_line_output line :: out)
| asm_table region rest out pre :
    region <> [] -> pre = [] \/ pre = [""] ->
    assembled rest out ->
    assembled (region ++ rest)
              (pre ++ "--- BEGIN TABLE ---" :: region
                   ++ "--- END TABLE ---" :: "" :: out).

Lemma region_loop_prefix (rest : list string) :
  forall acc ce hn tl hn',
    region_loop rest acc ce hn = Some (tl, hn') ->
    exists mid post, tl = acc ++ mid /\ rest = mid ++ post.
Proof.
  induction rest as [|line rest IH]; intros acc ce hn tl hn' H.
  - simpl in H. injection H as <- _. exists [], [].
    rewrite app_nil_r. auto.
  - cbn [region_loop] in H.
    destruct (negb (truthy (strip line))).
    + destruct (ce + 1 >? 2).
      * injection H as <- _. exists [], (line :: rest).
        rewrite app_nil_r. auto.
      * apply IH in H. destruct H as (mid & post & -> & ->).
        exists (line :: mid), post. rewrite <- app_assoc. auto.
    + destruct (_is_table_line line || _is_table_continuation line).
      * apply IH in H. destruct H as (mid & post & -> & ->).
        exists (line :: mid), post. rewrite <- app_assoc. auto.
      * destruct ((Z.of_nat (List.length acc) >? 2) && _); [|discriminate].
        injection H as <- _. exists [], (line :: rest).
        rewrite app_nil_r. auto.
Qed.

Lemma identify_region_spec (lines : list string) (i : Z) (r : TableRegion) :
  0 <= i ->
  _identify_table_region lines i = Some r ->
  exists post,
    skipn (Z.to_nat i) lines = MDNAExtractor.lines r ++ post
    /\ (2 <= List.length (MDNAExtractor.lines r))%nat
    /\ end_line r = i + Z.of_nat (List.length (MDNAExtractor.lines r)) - 1.
Proof.
  intros Hi H. unfold _identify_table_region in H.
  destruct (i >=? Z.of_nat (List.length lines)); [discriminate|].
  destruct (negb (_line_starts_table lines i)); [discriminate|].
  destruct (region_loop _ _ _ _) as [[tl hn]|] eqn:E; [|discriminate].
  destruct ((Z.of_nat (List.length tl) >=? 2) && hn) eqn:Ec; [|discriminate].
  apply andb_prop in Ec. destruct Ec as [Ec _].
  injection H as <-. cbn [MDNAExtractor.lines end_line new_TableRegion].
  apply region_loop_prefix in E. destruct E as (mid & post & -> & Hr).
  exists post. simpl app in *. repeat split; [exact Hr|lia].
Qed.

Lemma skipn_get (lines : list string) (i : Z) :
  0 <= i < Z.of_nat (List.length lines) ->
  skipn (Z.to_nat i) lines = get lines i :: skipn (Z.to_nat (i + 1)) lines.
Proof.
  intros Hi. unfold get.
  replace (Z.to_nat (i + 1)) with (S (Z.to_nat i)) by lia.
  assert (Hn : (Z.to_nat i < List.length lines)%nat) by lia.
  revert Hn. generalize (Z.to_nat i). clear.
  induction lines as [|x l IH]; intros n Hn; [simpl in Hn; lia|].
  destruct n as [|n]; [reflexivity|].
  simpl. apply IH. simpl in Hn. lia.
Qed.

Lemma skipn_skipn_add {A} (l : list A) (a b : nat) (x y : list A) :
  skipn a l = x ++ y -> List.length x = b -> skipn (a + b) l = y.
Proof.
  intros H Hb. rewrite Nat.add_comm, <- skipn_skipn, H.
  subst b. clear. induction x; simpl; auto.
Qed.

Lemma process_loop_assembled (lines : list string) (fuel : nat) :
  forall i acc,
    0 <= i -> Z.of_nat (List.length lines) - i <= Z.of_nat fuel ->
    exists out,
      process_loop fuel lines i acc = acc ++ out
      /\ assembled (skipn (Z.to_nat i) lines) out.
Proof.
  induction fuel as [|fuel IH]; intros i acc Hi Hf.
  - exists []. rewrite app_nil_r. split; [reflexivity|].
    rewrite skipn_all2 by lia. constructor.
  - cbn [process_loop].
    destruct (i <? Z.of_nat (List.length lines)) eqn:Ei.
    2:{ apply Z.ltb_ge in Ei. exists []. rewrite app_nil_r.
        split; [reflexivity|]. rewrite skipn_all2 by lia. constructor. }
    apply Z.ltb_lt in Ei.
    destruct (_identify_table_region lines i) as [r|] eqn:Er.
    + destruct (identify_region_spec lines Hi Er) as (post & Hs & Hlen & Hend).
      set (acc' := match acc with
                   | [] => acc
                   | _ :: _ => if truthy (strip (last acc ""))
                               then acc ++ [""] else acc
                   end).
      assert (Hpre : exists pre, acc' = acc ++ pre /\ (pre = [] \/ pre = [""])).
      { unfold acc'. destruct acc as [|a0 acc0].
        - exists []. auto.
        - destruct (truthy _).
          + exists [""]. auto.
          + exists []. rewrite app_nil_r. auto. }
      destruct Hpre as (pre & Hacc' & Hpre).
      destruct (IH (end_line r + 1)
                   (acc' ++ ["--- BEGIN TABLE ---"] ++ MDNAExtractor.lines r
                         ++ ["--- END TABLE ---"; ""]))
        as (out & Hout & Hasm); [lia|lia|].
      exists (pre ++ "--- BEGIN TABLE ---" :: MDNAExtractor.lines r
                  ++ "--- END TABLE ---" :: "" :: out).
      split.
      * fold acc'. rewrite Hout, Hacc'.
        repeat rewrite <- app_assoc. reflexivity.
      * rewrite Hs. apply asm_table; [|exact Hpre|].
        -- destruct (MDNAExtractor.lines r); [simpl in Hlen; lia|discriminate].
        -- replace post with (skipn (Z.to_nat (end_line r + 1)) lines);
             [exact Hasm|].
           replace (Z.to_nat (end_line r + 1))
             with (Z.to_nat i + List.length (MDNAExtractor.lines r))%nat by lia.
           eapply skipn_skipn_add; [exact Hs|reflexivity].
    + destruct (IH (i + 1) (acc ++ [text_line_output (get lines i)]))
        as (out & Hout & Hasm); [lia|lia|].
      exists (text_line_output (get lines i) :: out). split.
      * rewrite Hout, <- app_assoc. reflexivity.
      * rewrite skipn_get by lia. apply asm_text. exact Hasm.
Qed.

(** The assembly pass emits every input line, in order: a line outside a
    table region in its [text_line_output] form, a region verbatim
    between the fence markers. *)
Lemma process_lines_assembled (lines : list string) :
  assembled lines (process_lines lines).
Proof.
  unfold process_lines.
  destruct (@process_loop_assembled lines (List.length lines) 0 [])
    as (out & Hout & Hasm); [lia|lia|].
  rewrite Hout. exact Hasm.
Qed.
End AssemblyFacts.

Module NormalizeFacts.
Import Py Re ReFacts MDNAExtractor.

(** [\s*] followed by [k]: if [k] succeeds after a prefix of whitespace,
    whatever the character before, the whole succeeds. *)
Lemma star_space_found (R : Type) (k : mstate -> option R) (p : chars) :
  forallb isspace p = true ->
  forall fuel cnt prev pos rest caps,
    (List.length p < fuel)%nat ->
    (forall prev', is_some (k (mkState prev' (pos + List.length p)%nat
                                       rest caps)) = true) ->
    is_some (rep_loop (m NOFLAGS (R:=R) s) 0 None true k fuel cnt
                      (mkState prev pos (p ++ rest) caps)) = true.
Proof.
  induction p as [|c p IH]; intros Hp fuel cnt prev pos rest caps Hf Hk.
  - destruct fuel as [|fuel]; [simpl in Hf; lia|].
    specialize (Hk prev). simpl in Hk. rewrite Nat.add_0_r in Hk.
    cbn [rep_loop app Nat.leb].
    match goal with |- is_some (match ?e with _ => _ end) = true =>
      destruct e end; [reflexivity|exact Hk].
  - destruct fuel as [|fuel]; [simpl in Hf; lia|].
    simpl in Hp. apply andb_prop in Hp. destruct Hp as [Hc Hp].
    cbn [rep_loop app]. unfold s at 1.
    cbn [m ms_rest cls_match ignorecase NOFLAGS]. rewrite Hc.
    unfold advance. cbn [ms_pos ms_caps].
    replace (Nat.ltb pos (S pos)) with true
      by (symmetry; apply Nat.ltb_lt; lia).
    rewrite orb_true_r. fold s.
    assert (Hrec : is_some (rep_loop (m NOFLAGS (R:=R) s) 0 None true k fuel
                              (S cnt) (mkState (Some c) (S pos) (p ++ rest) caps))
                   = true).
    { apply IH; [exact Hp|simpl in Hf; lia|]. intro prev'.
      replace (S pos + List.length p)%nat
        with (pos + List.length (c :: p))%nat by (simpl; lia).
      apply Hk. }
    destruct (rep_loop _ _ _ _ _ _ _ _); [reflexivity|discriminate].
Qed.

(** [\$\s*[\d,]+] finds a match in every line that holds a dollar sign
    followed, after whitespace or directly, by a digit or a comma. *)
Lemma dollar_amount_found (a ws b : chars) (c : ascii) :
  forallb isspace ws = true ->
  digit_or "," c = true ->
  searchb NOFLAGS (seq [Chr "$"; star s; plus dc])
          (l2s (a ++ "$"%char :: ws ++ c :: b)) = true.
Proof.
  intros Hws Hc. unfold searchb, search. rewrite s2l_l2s.
  apply scan_after_prefix. intro prev'.
  cbn [seq m ms_rest chr_match ignorecase NOFLAGS star].
  rewrite Ascii.eqb_refl. unfold advance. cbn [ms_rest ms_pos ms_caps].
  apply star_space_found; [exact Hws|rewrite length_app; simpl; lia|].
  intro p1.
  assert (Hc' : cls_match NOFLAGS (digit_or ",") c = true) by exact Hc.
  Opaque cls_match.
  simpl. rewrite Hc'.
  match goal with
  | |- is_some (match (match ?e with _ => _ end) with _ => _ end) = true =>
      destruct e; reflexivity
  end.
Qed.
Transparent cls_match.

(** A line with a dollar amount is never regular text. *)
Lemma dollar_amount_not_regular (a ws b : chars) (c : ascii) :
  forallb isspace ws = true ->
  digit_or "," c = true ->
  _is_regular_text_line (l2s (a ++ "$"%char :: ws ++ c :: b)) = false.
Proof.
  intros Hws Hc. unfold _is_regular_text_line.
  destruct (negb (truthy _)); [reflexivity|].
  assert (Ht : _is_table_line (l2s (a ++ "$"%char :: ws ++ c :: b)) = true).
  { unfold _is_table_line.
    destruct (_ && _); [reflexivity|].
    unfold _contains_financial_data.
    fold MDNAExtractor.dc.
    rewrite (@dollar_amount_found a ws b c Hws Hc). reflexivity. }
  rewrite Ht. reflexivity.
Qed.

(** The longest run of whitespace at the start of [l], cut at [n]. *)
Fixpoint leading_ws (n : nat) (l : chars) : chars :=
  match n, l with
  | S n', c :: r => if isspace c then c :: leading_ws n' r else []
  | _, _ => []
  end.

Lemma leading_ws_length (n : nat) (l : chars) :
  (List.length (leading_ws n l) <= List.length l)%nat.
Proof.
  revert l. induction n as [|n IH]; intros [|c r]; simpl; try lia.
  destruct (isspace c); simpl; [specialize (IH r)|]; lia.
Qed.

(** [\s{0,n}], greedy, followed by something that always succeeds,
    consumes exactly the leading whitespace up to [n] characters. *)
Lemma rep_space_exact (R : Type) (g : mstate -> R) (n : nat) :
  forall cnt fuel prev pos rest caps,
    (List.length (leading_ws n rest) < fuel)%nat ->
    exists prev' rest',
      rest = leading_ws n rest ++ rest'
      /\ rep_loop (m NOFLAGS (R:=R) s) 0 (Some (cnt + n)%nat) true
                  (fun st' => Some (g st')) fuel cnt
                  (mkState prev pos rest caps)
         = Some (g (mkState prev' (pos + List.length (leading_ws n rest))%nat
                            rest' caps)).
Proof.
  induction n as [|n IH]; intros cnt fuel prev pos rest caps Hf;
    (destruct fuel as [|fuel]; [lia|]).
  - exists prev, rest. split; [destruct rest; reflexivity|].
    cbn [rep_loop]. rewrite Nat.add_0_r, Nat.ltb_irrefl.
    destruct rest; simpl; rewrite Nat.add_0_r; reflexivity.
  - cbn [rep_loop].
    replace (Nat.ltb cnt (cnt + S n)) with true
      by (symmetry; apply Nat.ltb_lt; lia).
    destruct rest as [|c r].
    + exists prev, []. split; [reflexivity|]. simpl.
      rewrite Nat.add_0_r. reflexivity.
    + cbn [leading_ws]. unfold s at 1.
      cbn [m ms_rest cls_match ignorecase NOFLAGS].
      destruct (isspace c) eqn:Ec.
      * unfold advance. cbn [ms_pos ms_caps].
        replace (Nat.ltb pos (S pos)) with true
          by (symmetry; apply Nat.ltb_lt; lia).
        rewrite orb_true_r.
        replace (cnt + S n)%nat with (S cnt + n)%nat by lia.
        destruct (IH (S cnt) fuel (Some c) (S pos) r caps)
          as (prev' & rest' & Hr & Hv);
          [cbn [leading_ws] in Hf; rewrite Ec in Hf; simpl in Hf; lia|].
        fold s. rewrite Hv. exists prev', rest'. split.
        -- simpl. rewrite <- Hr. reflexivity.
        -- cbn [List.length].
           replace (pos + S (List.length (leading_ws n r)))%nat
             with (S pos + List.length (leading_ws n r))%nat by lia.
           reflexivity.
      * exists prev, (c :: r). split; [reflexivity|]. simpl.
        rewrite Nat.add_0_r. reflexivity.
Qed.

(** [_normalize_text_line] keeps the leading whitespace up to four
    characters and joins the words of the line with single spaces. *)
Lemma normalize_formula (line : string) :
  _normalize_text_line line
  = let content := join " " (split_ws (strip line)) in
    if truthy content
    then String.append (l2s (leading_ws 4 (s2l line))) content
    else "".
Proof.
  unfold _normalize_text_line, match_.
  cbn [seq m at_bol ms_prev times].
  destruct (@rep_space_exact _ (fun st' => set_cap 1 0 st') 4 0
              (S (List.length (s2l line) + 0)) None 0%nat (s2l line) [])
    as (prev' & rest' & Hr & Hv);
    [pose proof (leading_ws_length 4 (s2l line)); lia|].
  cbn [ms_rest ms_pos Nat.add]. cbn [Nat.add] in Hv. rewrite Hv.
  unfold group, set_cap. cbn [m_end_state ms_caps lookup_cap Nat.eqb m_subject
                               ms_pos Nat.add].
  unfold substr. rewrite Nat.sub_0_r. cbn [skipn].
  assert (Hw : firstn (List.length (leading_ws 4 (s2l line))) (s2l line)
               = leading_ws 4 (s2l line)).
  { set (w := leading_ws 4 (s2l line)) in *. rewrite Hr.
    rewrite firstn_app, Nat.sub_diag, firstn_all. simpl. apply app_nil_r. }
  rewrite Hw. reflexivity.
Qed.

Lemma forallb_rev_true {A} (p : A -> bool) (l : list A) :
  forallb p l = true -> forallb p (rev l) = true.
Proof.
  rewrite !forallb_forall. intros H x Hx. apply H. apply in_rev. exact Hx.
Qed.

(** The words [s.split()] returns are non-empty and free of whitespace. *)
Lemma split_ws_words (l cur : chars) :
  forallb (fun c => negb (isspace c)) cur = true ->
  Forall (fun w => w <> [] /\ forallb (fun c => negb (isspace c)) w = true)
         (split_ws_l l cur).
Proof.
  revert cur. induction l as [|c l IH]; intros cur Hcur; simpl.
  - destruct cur as [|x cur']; [constructor|].
    constructor; [|constructor]. split.
    + intro H. apply (f_equal (@List.length _)) in H.
      rewrite length_rev in H. discriminate.
    + apply forallb_rev_true. exact Hcur.
  - destruct (isspace c) eqn:Ec.
    + destruct cur as [|x cur'].
      * apply IH. reflexivity.
      * constructor; [|apply IH; reflexivity]. split.
        -- intro H. apply (f_equal (@List.length _)) in H.
           rewrite length_rev in H. discriminate.
        -- apply forallb_rev_true. exact Hcur.
    + apply IH. simpl. rewrite Ec. exact Hcur.
Qed.

Lemma lstrip_head (l : chars) :
  match lstrip_l l with
  | [] => True
  | c :: _ => isspace c = false
  end.
Proof.
  induction l as [|x l IH]; simpl; [exact I|].
  destruct (isspace x) eqn:E; [exact IH|exact E].
Qed.

Lemma strip_nonspace (l : chars) :
  strip_l l <> [] -> exists c, In c (strip_l l) /\ isspace c = false.
Proof.
  unfold strip_l, rstrip_l. intro H.
  pose proof (lstrip_head (rev (lstrip_l l))) as Hh.
  destruct (lstrip_l (rev (lstrip_l l))) as [|c r]; [contradiction H; reflexivity|].
  exists c. split; [|exact Hh]. apply -> in_rev. left. reflexivity.
Qed.

Lemma split_ws_nonempty (l cur : chars) :
  (exists c, In c l /\ isspace c = false) \/ cur <> [] ->
  split_ws_l l cur <> [].
Proof.
  revert cur. induction l as [|x l IH]; intros cur H; simpl.
  - destruct H as [(c & [] & _)|H]. destruct cur; [contradiction|discriminate].
  - destruct (isspace x) eqn:E.
    + destruct cur as [|y cur']; [|discriminate].
      apply IH. left. destruct H as [(c & [Hc|Hc] & Hs)|H].
      * subst c. congruence.
      * exists c. auto.
      * contradiction.
    + apply IH. right. discriminate.
Qed.

Lemma join_truthy (sep : string) (parts : list string) :
  parts <> [] -> Forall (fun w => truthy w = true) parts ->
  truthy (join sep parts) = true.
Proof.
  intros Hne Hall. destruct parts as [|p ps]; [contradiction|].
  inversion Hall as [|? ? Hp _]; subst.
  destruct ps; simpl; [exact Hp|].
  destruct p; [discriminate|reflexivity].
Qed.

(** The content of a non-blank line is not empty. *)
Lemma content_truthy (line : string) :
  truthy (strip line) = true ->
  truthy (join " " (split_ws (strip line))) = true.
Proof.
  intro H. unfold split_ws. apply join_truthy.
  - intro Hm. apply map_eq_nil in Hm. revert Hm.
    apply split_ws_nonempty. left. unfold strip. rewrite s2l_l2s.
    apply strip_nonspace. intro Hs. unfold strip in H. rewrite Hs in H.
    discriminate.
  - apply Forall_map.
    eapply Forall_impl; [|apply split_ws_words; reflexivity].
    intros w [Hw _]. destruct w; [contradiction|reflexivity].
Qed.

(** A regular text line is emitted with its leading whitespace cut at
    four characters and its words joined by single spaces. *)
Lemma regular_line_output (line : string) :
  _is_regular_text_line line = true ->
  text_line_output line
  = String.append (l2s (leading_ws 4 (s2l line)))
                  (join " " (split_ws (strip line))).
Proof.
  intro H. unfold text_line_output. rewrite H, normalize_formula.
  cbv zeta. rewrite content_truthy; [reflexivity|].
  unfold _is_regular_text_line in H.
  destruct (truthy (strip line)); [reflexivity|discriminate].
Qed.
End NormalizeFacts.

(** ** enhanced_text_normalizer.py : runs of empty lines *)

Module BlankRunFacts.
Import Py EnhancedTextNormalizer.

Definition blank (line : string) : bool := negb (truthy (strip line)).

(** At most [room] blank lines in front, and never more than three in a
    row after that. *)
Fixpoint bounded_runs (room : nat) (l : list string) : Prop :=
  match l with
  | [] => True
  | x :: r =>
      if blank x
      then match room with
           | O => False
           | S room' => bounded_runs room' r
           end
      else bounded_runs 3 r
  end.

Lemma bounded_runs_more (l : list string) :
  forall a b, (a <= b)%nat -> bounded_runs a l -> bounded_runs b l.
Proof.
  induction l as [|x r IH]; simpl; intros a b Hab H; [exact I|].
  destruct (blank x); [|exact H].
  destruct a as [|a]; [contradiction|].
  destruct b as [|b]; [lia|]. apply (IH a b); [lia|exact H].
Qed.

Lemma clean_loop_bounded (lines : list string) :
  forall c, 0 <= c ->
    bounded_runs (Z.to_nat (3 - c)) (clean_loop lines c).
Proof.
  induction lines as [|line rest IH]; intros c Hc; cbn [clean_loop];
    [exact I|].
  fold (blank line). destruct (blank line) eqn:Eb.
  - destruct (c + 1 <=? 3) eqn:E.
    + apply Z.leb_le in E. cbn [bounded_runs]. rewrite Eb.
      replace (Z.to_nat (3 - c)) with (S (Z.to_nat (3 - (c + 1)))) by lia.
      apply IH. lia.
    + apply Z.leb_gt in E.
      apply bounded_runs_more with (Z.to_nat (3 - (c + 1))); [lia|].
      apply IH. lia.
  - cbn [bounded_runs]. rewrite Eb. apply (IH 0). lia.
Qed.

Lemma bounded_runs_window (l : list string) :
  forall room, (room <= 3)%nat -> bounded_runs room l ->
    forall pre a b c d post,
      l = pre ++ a :: b :: c :: d :: post ->
      blank a && blank b && blank c && blank d = false.
Proof.
  induction l as [|x r IH]; intros room Hr H pre a b c d post El.
  - destruct pre; discriminate.
  - destruct pre as [|y pre].
    + simpl in El. injection El as -> ->.
      simpl in H. destruct (blank a) eqn:Ea; [|reflexivity].
      destruct room as [|r1]; [contradiction|].
      destruct (blank b) eqn:Ebb; [|reflexivity].
      destruct r1 as [|r2]; [contradiction|].
      destruct (blank c) eqn:Ecc; [|reflexivity].
      destruct r2 as [|r3]; [contradiction|].
      destruct (blank d) eqn:Edd; [|reflexivity].
      destruct r3 as [|r4]; [contradiction|]. lia.
    + simpl in El. injection El as -> ->.
      simpl in H. destruct (blank y).
      * destruct room as [|r1]; [contradiction|].
        apply (IH r1) with (pre := pre) (post := post);
          [lia|exact H|reflexivity].
      * apply (IH 3%nat) with (pre := pre) (post := post);
          [lia|exact H|reflexivity].
Qed.

Lemma clean_loop_keeps (lines : list string) :
  forall c,
    filter (fun l => negb (blank l)) (clean_loop lines c)
    = filter (fun l => negb (blank l)) lines.
Proof.
  induction lines as [|line rest IH]; intro c; simpl; [reflexivity|].
  fold (blank line). destruct (blank line) eqn:Eb; simpl.
  - destruct (c + 1 <=? 3); simpl; rewrite ?Eb; simpl; apply IH.
  - rewrite Eb. simpl. rewrite IH. reflexivity.
Qed.

Lemma clean_loop_length (lines : list string) :
  forall c, (List.length (clean_loop lines c) <= List.length lines)%nat.
Proof.
  induction lines as [|line rest IH]; intro c; simpl; [lia|].
  destruct (negb (truthy (strip line))).
  - destruct (c + 1 <=? 3); simpl.
    + specialize (IH (c + 1)). lia.
    + specialize (IH (c + 1)). lia.
  - simpl. specialize (IH 0). lia.
Qed.

(** A list within the bounds is left as it is. *)
Lemma clean_loop_fixed (l : list string) :
  forall c, 0 <= c ->
    bounded_runs (Z.to_nat (3 - c)) l -> clean_loop l c = l.
Proof.
  induction l as [|x r IH]; intros c Hc H; cbn [clean_loop]; [reflexivity|].
  cbn [bounded_runs] in H. fold (blank x). destruct (blank x).
  - destruct (Z.to_nat (3 - c)) as [|room] eqn:Er; [contradiction|].
    replace (c + 1 <=? 3) with true by (symmetry; apply Z.leb_le; lia).
    f_equal. apply IH; [lia|].
    replace (Z.to_nat (3 - (c + 1))) with room by lia. exact H.
  - f_equal. apply (IH 0); [lia|exact H].
Qed.
End BlankRunFacts.

(** X5: [_clean_excessive_empty_lines] only removes blank lines, and as
    few as needed: the lines that are not blank come out unchanged and in
    order, no four consecutive lines of the result are all blank, nothing
    is added, and a second pass changes nothing. *)
Theorem clean_excessive_empty_lines_spec (lines : list string) :
  filter (fun l => negb (BlankRunFacts.blank l))
         (EnhancedTextNormalizer._clean_excessive_empty_lines lines)
  = filter (fun l => negb (BlankRunFacts.blank l)) lines
  /\ (forall pre a b c d post,
        EnhancedTextNormalizer._clean_excessive_empty_lines lines
        = pre ++ a :: b :: c :: d :: post ->
        BlankRunFacts.blank a && BlankRunFacts.blank b
        && BlankRunFacts.blank c && BlankRunFacts.blank d = false)
  /\ (List.length (EnhancedTextNormalizer._clean_excessive_empty_lines lines)
      <= List.length lines)%nat
  /\ EnhancedTextNormalizer._clean_excessive_empty_lines
       (EnhancedTextNormalizer._clean_excessive_empty_lines lines)
     = EnhancedTextNormalizer._clean_excessive_empty_lines lines.
Proof.
  unfold EnhancedTextNormalizer._clean_excessive_empty_lines.
  pose proof (@BlankRunFacts.clean_loop_bounded lines 0 ltac:(lia)) as Hb.
  split; [apply BlankRunFacts.clean_loop_keeps|].
  split.
  { intros pre a b c d post E.
    eapply BlankRunFacts.bounded_runs_window; [|exact Hb|exact E]. simpl. lia. }
  split; [apply BlankRunFacts.clean_loop_length|].
  apply BlankRunFacts.clean_loop_fixed; [lia|exact Hb].
Qed.

(** ** [re.sub] with a pattern that matches a stretch of the subject *)

Module SubFacts.
Import Py Re.

Lemma s2l_app (a b : string) : s2l (a ++ b) = (s2l a ++ s2l b)%list.
Proof.
  induction a as [|c a IH]; simpl; [reflexivity|]. unfold s2l in *. simpl.
  rewrite IH. reflexivity.
Qed.

Lemma l2s_app (a b : chars) : l2s (a ++ b) = (l2s a ++ l2s b)%string.
Proof.
  induction a as [|c a IH]; simpl; [reflexivity|]. unfold l2s in *. simpl.
  rewrite IH. reflexivity.
Qed.

Lemma l2s_s2l (s : string) : l2s (s2l s) = s.
Proof. apply string_of_list_ascii_of_string. Qed.

Lemma s2l_l2s' (l : chars) : s2l (l2s l) = l.
Proof. apply list_ascii_of_string_of_list_ascii. Qed.

Lemma length_s2l (s : string) : List.length (s2l s) = String.length s.
Proof.
  induction s as [|c s IH]; simpl; [reflexivity|]. unfold s2l in *. simpl.
  rewrite IH. reflexivity.
Qed.

(** The state after the characters [w], with [rest'] left to read. *)
Definition after (st : mstate) (w rest' : chars) : mstate :=
  mkState (match rev w with [] => ms_prev st | x :: _ => Some x end)
          (ms_pos st + List.length w) rest' (ms_caps st).

Lemma after_nil (st : mstate) : after st [] (ms_rest st) = st.
Proof.
  destruct st as [p n r c]. unfold after. simpl. rewrite Nat.add_0_r.
  reflexivity.
Qed.

Lemma after_advance (st : mstate) (x : ascii) (xs w rest' : chars) :
  after (advance st x xs) w rest' = after st (x :: w) rest'.
Proof.
  unfold after, advance. cbn [ms_prev ms_pos ms_caps List.length].
  f_equal; [|lia].
  cbn [rev]. destruct (rev w) as [|y r]; reflexivity.
Qed.

(** The longest prefix whose characters pass [q], and what follows it. *)
Fixpoint take_run (q : ascii -> bool) (l : chars) : chars :=
  match l with
  | x :: r => if q x then x :: take_run q r else []
  | [] => []
  end.

Fixpoint drop_run (q : ascii -> bool) (l : chars) : chars :=
  match l with
  | x :: r => if q x then drop_run q r else l
  | [] => []
  end.

Lemma run_split q l : l = take_run q l ++ drop_run q l.
Proof.
  induction l as [|x r IH]; simpl; [reflexivity|].
  destruct (q x); simpl; [f_equal; exact IH|reflexivity].
Qed.

Lemma take_run_all q l : forallb q (take_run q l) = true.
Proof.
  induction l as [|x r IH]; simpl; [reflexivity|].
  destruct (q x) eqn:E; simpl; [rewrite E; exact IH|reflexivity].
Qed.

Lemma drop_run_head q l : match drop_run q l with
                          | x :: _ => q x = false
                          | [] => True
                          end.
Proof.
  induction l as [|x r IH]; simpl; [exact I|].
  destruct (q x) eqn:E; [exact IH|exact E].
Qed.

Lemma take_run_length q l :
  (List.length (take_run q l) <= List.length l)%nat.
Proof.
  induction l as [|x r IH]; simpl; [lia|]. destruct (q x); simpl; lia.
Qed.

Lemma firstn_run q l : firstn (List.length (take_run q l)) l = take_run q l.
Proof.
  induction l as [|x r IH]; simpl; [reflexivity|].
  destruct (q x); simpl; [f_equal; exact IH|reflexivity].
Qed.

Lemma skipn_run q l : skipn (List.length (take_run q l)) l = drop_run q l.
Proof.
  induction l as [|x r IH]; simpl; [reflexivity|].
  destruct (q x); simpl; [exact IH|reflexivity].
Qed.

(** *** The matcher on a single-character test and on its repetitions *)

Section SingleChar.
Variable f : flags.
Variable body : regex.
Variable q : ascii -> bool.
Hypothesis body_exact :
  forall (R : Type) (st : mstate) (k : mstate -> option R),
    m f body st k
    = match ms_rest st with
      | x :: xs => if q x then k (advance st x xs) else None
      | [] => None
      end.

(** A greedy repetition without upper bound takes the whole run, and
    fails when the run is shorter than the lower bound. *)
Lemma rep_greedy_exact (lo : nat) (w : chars) :
  forall rest' fuel cnt st,
    forallb q w = true ->
    match rest' with x :: _ => q x = false | [] => True end ->
    ms_rest st = w ++ rest' ->
    (List.length w < fuel)%nat ->
    rep_loop (m f (R:=mstate) body) lo None true (fun st => Some st)
             fuel cnt st
    = if Nat.leb lo (cnt + List.length w) then Some (after st w rest')
      else None.
Proof.
  induction w as [|x w IH]; intros rest' fuel cnt st Hw Hr Hst Hf.
  - destruct fuel as [|fuel]; [simpl in Hf; lia|].
    cbn [rep_loop]. rewrite body_exact. simpl in Hst. rewrite Hst.
    assert (Hnone : match rest' with
                    | x :: xs =>
                        if q x
                        then (fun st' : mstate =>
                                if Nat.ltb cnt lo
                                   || Nat.ltb (ms_pos st) (ms_pos st')
                                then rep_loop (m f (R:=mstate) body) lo None
                                       true (fun st0 => Some st0) fuel
                                       (S cnt) st'
                                else None) (advance st x xs)
                        else None
                    | [] => None
                    end = None).
    { destruct rest' as [|y ys]; [reflexivity|]. rewrite Hr. reflexivity. }
    rewrite Hnone. cbn [List.length]. rewrite Nat.add_0_r.
    rewrite <- Hst, after_nil. reflexivity.
  - destruct fuel as [|fuel]; [simpl in Hf; lia|].
    simpl in Hw. apply andb_prop in Hw. destruct Hw as [Hx Hw].
    cbn [rep_loop]. rewrite body_exact. rewrite Hst. cbn [app]. rewrite Hx.
    replace (Nat.ltb (ms_pos st) (ms_pos (advance st x (w ++ rest')))) with true
      by (symmetry; apply Nat.ltb_lt; simpl; lia).
    rewrite orb_true_r.
    rewrite (IH rest' fuel (S cnt) (advance st x (w ++ rest')));
      [|exact Hw|exact Hr|reflexivity|simpl in Hf; lia].
    rewrite after_advance. cbn [List.length].
    replace (S cnt + List.length w)%nat with (cnt + S (List.length w))%nat
      by lia.
    destruct (Nat.leb lo (cnt + S (List.length w))) eqn:E; [reflexivity|].
    replace (Nat.leb lo cnt) with false; [reflexivity|].
    symmetry. apply Nat.leb_gt. apply Nat.leb_gt in E. lia.
Qed.

Definition run_match (lo : nat) (rest : chars) : option nat :=
  let n := List.length (take_run q rest) in
  if Nat.leb lo n then Some n else None.

Lemma rep_run_exact (lo : nat) prev pos rest :
  m f (Rep body lo None true) (mkState prev pos rest []) (fun st => Some st)
  = match run_match lo rest with
    | Some n => Some (after (mkState prev pos rest [])
                            (firstn n rest) (skipn n rest))
    | None => None
    end.
Proof.
  cbn [m]. unfold run_match.
  rewrite (@rep_greedy_exact lo (take_run q rest) (drop_run q rest));
    [|apply take_run_all|apply drop_run_head|apply run_split|].
  2:{ cbn [ms_rest]. pose proof (take_run_length q rest). lia. }
  cbn [Nat.add].
  destruct (Nat.leb lo (List.length (take_run q rest))); [|reflexivity].
  rewrite firstn_run, skipn_run. reflexivity.
Qed.

Definition char_match (rest : chars) : option nat :=
  match rest with
  | x :: _ => if q x then Some 1%nat else None
  | [] => None
  end.

Lemma char_exact prev pos rest :
  m f body (mkState prev pos rest []) (fun st => Some st)
  = match char_match rest with
    | Some n => Some (after (mkState prev pos rest [])
                            (firstn n rest) (skipn n rest))
    | None => None
    end.
Proof.
  rewrite body_exact. cbn [ms_rest]. unfold char_match.
  destruct rest as [|x xs]; [reflexivity|].
  destruct (q x); [|reflexivity].
  unfold advance, after. cbn. rewrite Nat.add_1_r. reflexivity.
Qed.
End SingleChar.

Lemma cls_body (f : flags) (p : ascii -> bool) :
  forall (R : Type) (st : mstate) (k : mstate -> option R),
    m f (Cls p) st k
    = match ms_rest st with
      | x :: xs => if cls_match f p x then k (advance st x xs) else None
      | [] => None
      end.
Proof. reflexivity. Qed.

Lemma chr_body (f : flags) (c : ascii) :
  forall (R : Type) (st : mstate) (k : mstate -> option R),
    m f (Chr c) st k
    = match ms_rest st with
      | x :: xs => if chr_match f c x then k (advance st x xs) else None
      | [] => None
      end.
Proof. reflexivity. Qed.

(** *** Replacing all matches *)

Section Replace.
Variable f : flags.
Variable r : regex.
(** How many characters the pattern matches in front of [rest]. *)
Variable match_len : chars -> option nat.
Hypothesis match_len_bounds :
  forall rest n, match_len rest = Some n ->
                 (1 <= n <= List.length rest)%nat.
Hypothesis m_exact :
  forall prev pos rest,
    m f r (mkState prev pos rest []) (fun st => Some st)
    = match match_len rest with
      | Some n => Some (after (mkState prev pos rest [])
                              (firstn n rest) (skipn n rest))
      | None => None
      end.
Variable repl : chars.

(** The subject read from left to right: a match is replaced, any other
    character is copied. *)
Inductive replaced : chars -> chars -> Prop :=
| rp_nil : replaced [] []
| rp_skip x l out :
    match_len (x :: l) = None -> replaced l out ->
    replaced (x :: l) (x :: out)
| rp_hit l n out :
    match_len l = Some n -> replaced (skipn n l) out ->
    replaced l (repl ++ out).

Lemma replaced_total (l : chars) : exists out, replaced l out.
Proof.
  remember (List.length l) as len eqn:El.
  revert l El. induction len as [len IH] using lt_wf_ind. intros l El.
  destruct (match_len l) as [n|] eqn:E.
  - pose proof (match_len_bounds E) as Hn.
    destruct (IH (List.length (skipn n l))) with (l := skipn n l)
      as [out Ho]; [rewrite length_skipn; lia|reflexivity|].
    exists (repl ++ out). eapply rp_hit; eassumption.
  - destruct l as [|x l']; [exists []; constructor|].
    destruct (IH (List.length l')) with (l := l') as [out Ho];
      [simpl in El; lia|reflexivity|].
    exists (x :: out). apply rp_skip; assumption.
Qed.

Lemma replaced_fun (l o1 : chars) :
  replaced l o1 -> forall o2, replaced l o2 -> o1 = o2.
Proof.
  induction 1 as [|x l out Hm H1 IH|l n out Hm H1 IH]; intros o2 H2.
  - inversion H2 as [| |l' n' out' Hm' H'']; subst; [reflexivity|].
    apply match_len_bounds in Hm'. simpl in Hm'. lia.
  - inversion H2 as [|x' l' out' Hm' H''|l' n' out' Hm' H'']; subst.
    + f_equal. apply IH. exact H''.
    + congruence.
  - inversion H2 as [|x' l' out' Hm' H''|l' n' out' Hm' H'']; subst.
    + apply match_len_bounds in Hm. simpl in Hm. lia.
    + congruence.
    + rewrite Hm in Hm'. injection Hm' as <-. f_equal. apply IH. exact H''.
Qed.

Lemma scan_skip (subject : chars) prev pos x l :
  match_len (x :: l) = None ->
  scan f r subject prev pos (x :: l) = scan f r subject (Some x) (S pos) l.
Proof. intro H. cbn [scan]. rewrite m_exact, H. reflexivity. Qed.

Lemma spans_skip (subject : chars) fuel prev pos x l :
  match_len (x :: l) = None ->
  spans fuel f r subject prev pos (x :: l)
  = spans fuel f r subject (Some x) (S pos) l.
Proof.
  intro H. destruct fuel as [|fuel]; [reflexivity|].
  cbn [spans]. rewrite (scan_skip subject prev pos H). reflexivity.
Qed.

Lemma spans_hit (subject : chars) fuel prev pos l n :
  match_len l = Some n ->
  exists prev',
    spans (S fuel) f r subject prev pos l
    = (pos, pos + n)%nat
      :: spans fuel f r subject prev' (pos + n)%nat (skipn n l).
Proof.
  intro H. pose proof (match_len_bounds H) as Hn.
  cbn [spans].
  assert (Hs : scan f r subject prev pos l
               = Some (mkMatch subject pos
                         (after (mkState prev pos l [])
                                (firstn n l) (skipn n l)))).
  { destruct l as [|x l']; cbn [scan]; rewrite m_exact, H; reflexivity. }
  rewrite Hs. cbn [m_end_state m_start].
  unfold after at 1. cbn [ms_pos].
  rewrite length_firstn. replace (Nat.min n (List.length l)) with n by lia.
  replace (Nat.ltb pos (pos + n)) with true
    by (symmetry; apply Nat.ltb_lt; lia).
  eexists. unfold after. cbn [ms_prev ms_pos ms_rest].
  rewrite length_firstn. replace (Nat.min n (List.length l)) with n by lia.
  reflexivity.
Qed.

Lemma pieces_nonempty (subject : chars) (from : nat) (sp : list (nat * nat)) :
  exists p ps, pieces subject from sp = p :: ps.
Proof.
  destruct sp as [|[a b] sp]; simpl; eauto.
Qed.

Lemma join_cons2 (sep p : string) (ps : list string) :
  ps <> [] -> join sep (p :: ps) = (p ++ sep ++ join sep ps)%string.
Proof. destruct ps; [congruence|reflexivity]. Qed.

Lemma spans_replaced (rest out : chars) :
  replaced rest out ->
  forall fuel prev pre from,
    (List.length rest < fuel)%nat -> (from <= List.length pre)%nat ->
    s2l (join (l2s repl)
              (pieces (pre ++ rest) from
                      (spans fuel f r (pre ++ rest) prev
                             (List.length pre) rest)))
    = skipn from pre ++ out.
Proof.
  induction 1 as [|x l out Hm H1 IH|l n out Hm H1 IH];
    intros fuel prev pre from Hf Hfrom.
  - destruct fuel as [|fuel]; [lia|].
    cbn [spans scan]. rewrite m_exact.
    destruct (match_len []) as [n|] eqn:E.
    { apply match_len_bounds in E. simpl in E. lia. }
    cbn [pieces join]. unfold substr. rewrite s2l_l2s'.
    rewrite !app_nil_r. rewrite firstn_all2; [reflexivity|].
    rewrite length_skipn. lia.
  - rewrite (spans_skip (pre ++ x :: l) fuel prev (List.length pre) Hm).
    specialize (IH fuel (Some x) (pre ++ [x]) from).
    rewrite <- app_assoc in IH. cbn [app] in IH.
    rewrite length_app in IH. cbn [List.length] in IH.
    rewrite Nat.add_1_r in IH. rewrite IH; [|simpl in Hf; lia|lia].
    rewrite skipn_app.
    replace (from - List.length pre)%nat with O by lia.
    cbn [skipn]. rewrite <- app_assoc. reflexivity.
  - pose proof (match_len_bounds Hm) as Hn.
    destruct fuel as [|fuel]; [lia|].
    destruct (@spans_hit (pre ++ l) fuel prev (List.length pre) l n Hm)
      as (prev' & Hs).
    rewrite Hs. cbn [pieces].
    rewrite join_cons2.
    2:{ destruct (pieces_nonempty (pre ++ l) (List.length pre + n)
                    (spans fuel f r (pre ++ l) prev'
                           (List.length pre + n) (skipn n l)))
          as (p & ps & E).
        rewrite E. discriminate. }
    rewrite !s2l_app, s2l_l2s'.
    unfold substr at 1. rewrite s2l_l2s'.
    assert (Hsub : pre ++ l = (pre ++ firstn n l) ++ skipn n l).
    { rewrite <- app_assoc, firstn_skipn. reflexivity. }
    assert (Hlen : (List.length pre + n)%nat
                   = List.length (pre ++ firstn n l)).
    { rewrite length_app, length_firstn. lia. }
    rewrite Hlen. rewrite Hsub at 2 3.
    rewrite (IH fuel prev' (pre ++ firstn n l)
                (List.length (pre ++ firstn n l)));
      [|rewrite length_skipn; lia|lia].
    rewrite skipn_all. cbn [app].
    rewrite skipn_app, firstn_app.
    replace (from - List.length pre)%nat with O by lia.
    replace (List.length pre - from - List.length (skipn from pre))%nat
      with O by (rewrite length_skipn; lia).
    cbn [skipn firstn]. rewrite app_nil_r.
    rewrite firstn_all2 by (rewrite length_skipn; lia).
    reflexivity.
Qed.

(** What [re.sub(pattern, repl, s)] returns. *)
Lemma sub_replaced (s0 : string) :
  replaced (s2l s0) (s2l (sub f r (l2s repl) s0)).
Proof.
  destruct (replaced_total (s2l s0)) as [out Ho].
  replace (s2l (sub f r (l2s repl) s0)) with out; [exact Ho|].
  unfold sub, split, all_spans.
  pose proof (@spans_replaced (s2l s0) out Ho (S (String.length s0)) None
                              [] O) as H.
  cbn [app List.length skipn] in H. rewrite H; [reflexivity| |lia].
  rewrite length_s2l. lia.
Qed.
End Replace.

End SubFacts.

(** ** Stripping at both ends *)

Module TrimFacts.
Import Py Re SubFacts.

Definition trim (q : ascii -> bool) (l : chars) : chars :=
  rev (drop_run q (rev (drop_run q l))).

Lemma lstrip_is_drop (l : chars) : lstrip_l l = drop_run isspace l.
Proof. induction l as [|x r IH]; simpl; [reflexivity|]. rewrite IH. reflexivity. Qed.

Lemma strip_is_trim (l : chars) : strip_l l = trim isspace l.
Proof. unfold strip_l, rstrip_l, trim. rewrite !lstrip_is_drop. reflexivity. Qed.

Lemma drop_run_fixed q l :
  match l with x :: _ => q x = false | [] => True end -> drop_run q l = l.
Proof. destruct l as [|x r]; simpl; [reflexivity|]. intros ->. reflexivity. Qed.

Lemma drop_run_last q l d :
  drop_run q l <> [] -> last (drop_run q l) d = last l d.
Proof.
  induction l as [|x r IH]; simpl; [congruence|].
  destruct (q x); [|reflexivity]. intro H.
  rewrite (IH H). destruct r; [simpl in H; congruence|reflexivity].
Qed.

Lemma last_rev {A} (l : list A) (d : A) : last (rev l) d = hd d l.
Proof.
  destruct l as [|x r]; [reflexivity|]. simpl. apply last_last.
Qed.

Lemma hd_rev {A} (l : list A) (d : A) : hd d (rev l) = last l d.
Proof. rewrite <- (rev_involutive l) at 2. rewrite last_rev. reflexivity. Qed.

(** What is stripped passes the test, at both ends. *)
Lemma trim_infix q l :
  exists a b, l = a ++ trim q l ++ b
              /\ forallb q a = true /\ forallb q b = true.
Proof.
  exists (take_run q l), (rev (take_run q (rev (drop_run q l)))).
  split; [|split; [apply take_run_all|]].
  - unfold trim. rewrite <- rev_app_distr, <- run_split, rev_involutive.
    apply run_split.
  - rewrite forallb_forall. intros x Hx. apply in_rev in Hx.
    pose proof (take_run_all q (rev (drop_run q l))) as H.
    rewrite forallb_forall in H. auto.
Qed.

Lemma trim_first q l x t : trim q l = x :: t -> q x = false.
Proof.
  unfold trim. intro H.
  assert (Hne : drop_run q (rev (drop_run q l)) <> []).
  { intro Hc. rewrite Hc in H. discriminate. }
  assert (Hx : hd x (rev (drop_run q (rev (drop_run q l)))) = x)
    by (rewrite H; reflexivity).
  rewrite hd_rev, (@drop_run_last _ _ x Hne), last_rev in Hx.
  pose proof (drop_run_head q l) as Hh.
  destruct (drop_run q l) as [|y r]; [simpl in Hne; congruence|].
  simpl in Hx. subst y. exact Hh.
Qed.

Lemma trim_last q l x t : trim q l = t ++ [x] -> q x = false.
Proof.
  unfold trim. intro H. apply (f_equal (@rev _)) in H.
  rewrite rev_involutive, rev_app_distr in H. simpl in H.
  pose proof (drop_run_head q (rev (drop_run q l))) as Hh.
  rewrite H in Hh. exact Hh.
Qed.

Lemma trim_fixed q l :
  match l with x :: _ => q x = false | [] => True end ->
  match rev l with x :: _ => q x = false | [] => True end ->
  trim q l = l.
Proof.
  intros H1 H2. unfold trim.
  rewrite (drop_run_fixed q l H1), (drop_run_fixed q (rev l) H2).
  apply rev_involutive.
Qed.

Lemma trim_idem q l : trim q (trim q l) = trim q l.
Proof.
  apply trim_fixed.
  - destruct (trim q l) as [|x t] eqn:E; [exact I|].
    eapply trim_first. exact E.
  - destruct (rev (trim q l)) as [|x t] eqn:E; [exact I|].
    apply (f_equal (@rev _)) in E. rewrite rev_involutive in E. simpl in E.
    eapply trim_last. exact E.
Qed.

Lemma strip_idem (s0 : string) : strip (strip s0) = strip s0.
Proof.
  unfold strip. rewrite s2l_l2s', !strip_is_trim, trim_idem. reflexivity.
Qed.

Lemma trim_incl q l : incl (trim q l) l.
Proof.
  destruct (trim_infix q l) as (a & b & E & _). intros x Hx.
  rewrite E. apply in_or_app. right. apply in_or_app. left. exact Hx.
Qed.

Lemma trim_length q l : (List.length (trim q l) <= List.length l)%nat.
Proof.
  destruct (trim_infix q l) as (a & b & E & _).
  rewrite E at 2. rewrite !length_app. lia.
Qed.
End TrimFacts.


(** ** enhanced_text_normalizer.py : table lines survive the passes *)

Module PreserveFacts.
Import Py Re EnhancedTextNormalizer SubFacts TrimFacts.

Lemma preserve_step_extends acc line c :
  exists more, preserve_step acc line c = acc ++ more.
Proof.
  unfold preserve_step. destruct c; try (eexists; reflexivity).
  - destruct (truthy (join " " (split_ws line))); [eexists; reflexivity|].
    destruct acc as [|a acc']; [exists []; reflexivity|].
    destruct (truthy (strip (last (a :: acc') "")));
      [eexists; reflexivity|exists []; rewrite app_nil_r; reflexivity].
  - destruct (truthy (join " " (split_ws line))); [eexists; reflexivity|].
    destruct acc as [|a acc']; [exists []; reflexivity|].
    destruct (truthy (strip (last (a :: acc') "")));
      [eexists; reflexivity|exists []; rewrite app_nil_r; reflexivity].
Qed.

Lemma fold_preserve_extends (l : list (string * LineClassification)) :
  forall acc,
    exists more,
      fold_left (fun acc lc => preserve_step acc (fst lc) (snd lc)) l acc
      = acc ++ more.
Proof.
  induction l as [|[line c] l IH]; intro acc; simpl.
  - exists []. rewrite app_nil_r. reflexivity.
  - destruct (preserve_step_extends acc line c) as (m1 & E1).
    destruct (IH (preserve_step acc line c)) as (m2 & E2).
    exists (m1 ++ m2). rewrite E2, E1, app_assoc. reflexivity.
Qed.

Lemma nth_map_numbered {A B} (g : nat * A -> B) (l : list A) :
  forall s i x,
    nth_error l i = Some x ->
    nth_error (map g (combine (List.seq s (List.length l)) l)) i
    = Some (g ((s + i)%nat, x)).
Proof.
  induction l as [|y l IH]; intros s i x H; [destruct i; discriminate|].
  destruct i as [|i]; simpl in *.
  - injection H as ->. rewrite Nat.add_0_r. reflexivity.
  - rewrite (IH (S s) i x H).
    replace (S s + i)%nat with (s + S i)%nat by lia. reflexivity.
Qed.

Lemma nth_combine {A B} (l1 : list A) :
  forall (l2 : list B) i x y,
    nth_error l1 i = Some x -> nth_error l2 i = Some y ->
    nth_error (combine l1 l2) i = Some (x, y).
Proof.
  induction l1 as [|a l1 IH]; intros l2 i x y H1 H2;
    [destruct i; discriminate|].
  destruct l2 as [|b l2]; [destruct i; discriminate|].
  destruct i as [|i]; simpl in *; [congruence|]. apply IH; assumption.
Qed.

(** The classes whose lines the second pass appends with [line.rstrip()]. *)
Definition kept_as_is (c : LineClassification) : bool :=
  match c with
  | table_header | table_content | table_delimiter | monetary_data => true
  | _ => false
  end.

(** The list [processed_lines] at the end of the second pass. *)
Definition processed (text : string) : list string :=
  fold_left (fun acc lc => preserve_step acc (fst lc) (snd lc))
            (combine (split_char newline text)
                     (classify_all (split_char newline text))) [].

Lemma preserved_is_cleaned (text : string) :
  preserved_lines text = _clean_excessive_empty_lines (processed text).
Proof. reflexivity. Qed.

Lemma processed_holds (text : string) (i : nat) (line : string) :
  nth_error (split_char newline text) i = Some line ->
  kept_as_is (_classify_line_enhanced line (split_char newline text)
                                      (Z.of_nat i)) = true ->
  In (rstrip line) (processed text).
Proof.
  intros Hn Hc. unfold processed.
  set (lines := split_char newline text) in *.
  assert (Hcl : nth_error (classify_all lines) i
                = Some (_classify_line_enhanced line lines (Z.of_nat i))).
  { unfold classify_all.
    rewrite (@nth_map_numbered _ _ _ lines 0 i line Hn). reflexivity. }
  pose proof (@nth_combine _ _ _ _ _ _ _ Hn Hcl) as Hp.
  apply nth_error_split in Hp. destruct Hp as (pre & post & E & _).
  rewrite E, fold_left_app. cbn [fold_left fst snd].
  match goal with
  | |- In _ (fold_left ?g post (preserve_step ?acc line ?c)) =>
      destruct (fold_preserve_extends post (preserve_step acc line c))
        as (more & Em);
      rewrite Em;
      assert (Hs : preserve_step acc line c = acc ++ [rstrip line])
        by (destruct c; try discriminate; reflexivity)
  end.
  rewrite Hs. apply in_or_app. left. apply in_or_app. right. left.
  reflexivity.
Qed.

(** A line that is not blank stays so when its trailing whitespace goes. *)
Lemma rstrip_not_blank (line : string) :
  truthy (strip line) = true -> truthy (strip (rstrip line)) = true.
Proof.
  intro H. unfold strip in H. rewrite strip_is_trim in H.
  destruct (trim isspace (s2l line)) as [|c t] eqn:E; [discriminate|].
  pose proof (@trim_first _ _ _ _ E) as Hc.
  assert (Hin : In c (s2l line)).
  { apply (@trim_incl isspace). rewrite E. left. reflexivity. }
  apply (@ClassifierFacts.strip_truthy c); [|exact Hc].
  unfold rstrip, rstrip_l. rewrite s2l_l2s'.
  apply in_rev. rewrite rev_involutive.
  apply ClassifierFacts.lstrip_keeps; [|exact Hc].
  apply -> in_rev. exact Hin.
Qed.

Lemma classified_not_blank (line : string) (all : list string) (i : Z) :
  _classify_line_enhanced line all i <> empty ->
  truthy (strip line) = true.
Proof.
  unfold _classify_line_enhanced. destruct (truthy (strip line));
    [reflexivity|]. simpl. congruence.
Qed.

(** Every line of a class that is kept as it is comes out of
    [_aggressively_preserve_tables], its trailing whitespace apart. *)
Lemma kept_line_emitted (text : string) (i : nat) (line : string) :
  nth_error (split_char newline text) i = Some line ->
  kept_as_is (_classify_line_enhanced line (split_char newline text)
                                      (Z.of_nat i)) = true ->
  In (rstrip line) (preserved_lines text).
Proof.
  intros Hn Hc. rewrite preserved_is_cleaned.
  pose proof (processed_holds text i Hn Hc) as Hin.
  assert (Hnb : BlankRunFacts.blank (rstrip line) = false).
  { unfold BlankRunFacts.blank. rewrite rstrip_not_blank; [reflexivity|].
    apply (@classified_not_blank line (split_char newline text) (Z.of_nat i)).
    intro He. rewrite He in Hc. discriminate. }
  assert (Hf : In (rstrip line)
                  (filter (fun l => negb (BlankRunFacts.blank l))
                          (processed text))).
  { apply filter_In. split; [exact Hin|]. rewrite Hnb. reflexivity. }
  unfold _clean_excessive_empty_lines.
  rewrite <- (BlankRunFacts.clean_loop_keeps (processed text) 0) in Hf.
  apply filter_In in Hf. apply Hf.
Qed.
End PreserveFacts.

Definition prose_line : string := "The   company   grew.".

Definition loss_line : string := "We lost $(5 today.    ".




(** ** table_parser.py, enhanced_table_parser.py : minimum size *)

Module ExtractionFacts.
Import Py.

Lemma financial_loop_spec (rest : list string) :
  forall raw ce hn raw' hn',
    TableParser.financial_loop rest raw ce hn = (raw', hn') ->
    exists mid post,
      raw' = raw ++ mid /\ rest = mid ++ post
      /\ (hn' = true ->
          hn = true
          \/ existsb TableParser.has_digit
                     (firstn (S (List.length mid)) rest) = true).
Proof.
  induction rest as [|line rest IH]; intros raw ce hn raw' hn' H.
  - simpl in H. injection H as <- <-. exists [], [].
    rewrite app_nil_r. auto.
  - cbn [TableParser.financial_loop] in H.
    destruct (negb (truthy (strip line))).
    + destruct (ce + 1 >? 2).
      * injection H as <- <-. exists [], (line :: rest).
        rewrite app_nil_r. auto.
      * apply IH in H. destruct H as (mid & post & -> & -> & Hd).
        exists (line :: mid), post. rewrite <- app_assoc.
        repeat split. intro Hn. destruct (Hd Hn) as [Hh|Hh]; [auto|].
        right. cbn [List.length firstn existsb app] in *.
        rewrite Hh. apply orb_true_r.
    + destruct (TableParser.has_digit line) eqn:Ed.
      * assert (Hgoal : forall mid post,
                   line :: rest = mid ++ post ->
                   existsb TableParser.has_digit
                           (firstn (S (List.length mid)) (line :: rest)) = true).
        { intros mid post _. cbn [firstn existsb]. rewrite Ed. reflexivity. }
        destruct (TableParser._is_table_line line
                  || TableParser._is_financial_data_line line
                  || TableParser._is_table_continuation line);
          [|destruct (TableParser._is_table_note_or_total line)].
        -- apply IH in H. destruct H as (mid & post & -> & -> & _).
           exists (line :: mid), post. rewrite <- app_assoc.
           repeat split. intros _. right.
           apply (Hgoal (line :: mid) post). reflexivity.
        -- apply IH in H. destruct H as (mid & post & -> & -> & _).
           exists (line :: mid), post. rewrite <- app_assoc.
           repeat split. intros _. right.
           apply (Hgoal (line :: mid) post). reflexivity.
        -- injection H as <- <-. exists [], (line :: rest).
           rewrite app_nil_r. repeat split. intros _. right.
           apply (Hgoal [] (line :: rest)). reflexivity.
      * destruct (TableParser._is_table_line line
                  || TableParser._is_financial_data_line line
                  || TableParser._is_table_continuation line);
          [|destruct (TableParser._is_table_note_or_total line)].
        -- apply IH in H. destruct H as (mid & post & -> & -> & Hd).
           exists (line :: mid), post. rewrite <- app_assoc.
           repeat split. intro Hn. destruct (Hd Hn) as [Hh|Hh]; [auto|].
           right. cbn [List.length firstn existsb app] in *.
           rewrite Hh. apply orb_true_r.
        -- apply IH in H. destruct H as (mid & post & -> & -> & Hd).
           exists (line :: mid), post. rewrite <- app_assoc.
           repeat split. intro Hn. destruct (Hd Hn) as [Hh|Hh]; [auto|].
           right. cbn [List.length firstn existsb app] in *.
           rewrite Hh. apply orb_true_r.
        -- injection H as <- <-. exists [], (line :: rest).
           rewrite app_nil_r. auto.
Qed.

Lemma aligned_loop_spec (rest : list string) :
  forall raw ce hn raw' hn',
    0 <= ce ->
    TableParser.aligned_loop rest raw ce hn = (raw', hn') ->
    exists mid post,
      raw' = raw ++ mid /\ rest = mid ++ post
      /\ (hn' = true ->
          hn = true
          \/ existsb TableParser.has_digit
                     (firstn (S (List.length mid)) rest) = true).
Proof.
  induction rest as [|line rest IH]; intros raw ce hn raw' hn' Hce H.
  - simpl in H. injection H as <- <-. exists [], [].
    rewrite app_nil_r. auto.
  - cbn [TableParser.aligned_loop] in H.
    destruct (ce <? 2) eqn:Ece.
    2:{ injection H as <- <-. exists [], (line :: rest).
        rewrite app_nil_r. auto. }
    destruct (negb (truthy (strip line))).
    + destruct (ce + 1 =? 1) eqn:E1.
      * apply IH in H; [|lia]. destruct H as (mid & post & -> & -> & Hd).
        exists (line :: mid), post. rewrite <- app_assoc.
        repeat split. intro Hn. destruct (Hd Hn) as [Hh|Hh]; [auto|].
        right. cbn [List.length firstn existsb app] in *.
        rewrite Hh. apply orb_true_r.
      * assert (Hstop : TableParser.aligned_loop rest raw (ce + 1) hn
                        = (raw, hn)).
        { apply Z.eqb_neq in E1.
          destruct rest as [|y rest']; [reflexivity|].
          cbn [TableParser.aligned_loop].
          replace (ce + 1 <? 2) with false
            by (symmetry; apply Z.ltb_ge; lia).
          reflexivity. }
        rewrite Hstop in H. injection H as <- <-.
        exists [], (line :: rest). rewrite app_nil_r. auto.
    + destruct (TableParser.has_digit line) eqn:Ed.
      * destruct (TableParser._is_table_line line
                  || TableParser._is_financial_data_line line
                  || TableParser._is_table_continuation line).
        -- apply IH in H; [|lia]. destruct H as (mid & post & -> & -> & _).
           exists (line :: mid), post. rewrite <- app_assoc.
           repeat split. intros _. right.
           cbn [List.length firstn existsb app]. rewrite Ed. reflexivity.
        -- injection H as <- <-. exists [], (line :: rest).
           rewrite app_nil_r. repeat split. intros _. right.
           cbn [List.length firstn existsb]. rewrite Ed. reflexivity.
      * destruct (TableParser._is_table_line line
                  || TableParser._is_financial_data_line line
                  || TableParser._is_table_continuation line).
        -- apply IH in H; [|lia]. destruct H as (mid & post & -> & -> & Hd).
           exists (line :: mid), post. rewrite <- app_assoc.
           repeat split. intro Hn. destruct (Hd Hn) as [Hh|Hh]; [auto|].
           right. cbn [List.length firstn existsb app] in *.
           rewrite Hh. apply orb_true_r.
        -- injection H as <- <-. exists [], (line :: rest).
           rewrite app_nil_r. auto.
Qed.
End ExtractionFacts.

Module DigitFacts.
Import Py.

Lemma no_digit_firstn (l : list string) (n : nat) :
  forallb (fun line => negb (TableParser.has_digit line)) l = true ->
  existsb TableParser.has_digit (firstn n l) = false.
Proof.
  revert n. induction l as [|x l IH]; intros n H; [destruct n; reflexivity|].
  destruct n as [|n]; [reflexivity|].
  simpl in *. apply andb_prop in H. destruct H as [Hx Hl].
  apply negb_true_iff in Hx. rewrite Hx. simpl. apply IH. exact Hl.
Qed.
End DigitFacts.

(** C3, as stated, fails: with [TABLE_MIN_ROWS = 2] the pipe-anchored
    strategy accepts the two lines ["a|b|c"], ["d|e|f"], none of which
    bears a digit. The delimited-anchored strategy and the two extraction
    functions of [EnhancedTableParser] return tables without a digit as
    well. *)
Lemma pipe_table_without_digit :
  (exists t,
    TableParser._extract_pipe_table 2 ["a|b|c"; "d|e|f"] 0 = Some t
    /\ TableParser.raw_lines t = ["a|b|c"; "d|e|f"]
    /\ existsb TableParser.has_digit (TableParser.raw_lines t) = false)
  /\ (exists t,
        TableParser._extract_delimited_table
          2 ["Name   Value"; "-----"; "abc   def"] 1 = Some t
        /\ TableParser.raw_lines t = ["Name   Value"; "-----"; "abc   def"]
        /\ existsb TableParser.has_digit (TableParser.raw_lines t) = false)
  /\ (exists t,
        EnhancedTableParser._extract_pipe_table 2 ["a|b|c"; "d|e|f"] 0
        = EnhancedTableParser.Ok (Some t)
        /\ EnhancedTableParser.content t = [["a"; "b"; "c"]; ["d"; "e"; "f"]]
        /\ TableParser.has_digit (EnhancedTableParser.original_text t) = false)
  /\ (exists t,
        EnhancedTableParser._extract_financial_table
          2 ["Total assets"; "Cash    abc"] 0
        = EnhancedTableParser.Ok (Some t)
        /\ EnhancedTableParser.content t = [["Total assets"]; ["Cash"; "abc"]]
        /\ TableParser.has_digit (EnhancedTableParser.original_text t) = false).
Proof.
  split; [|split; [|split]]; eexists;
    (split; [vm_compute; reflexivity|split; vm_compute; reflexivity]).
Qed.

(** C3, amended: every table a strategy returns has at least
    [TABLE_MIN_ROWS] collected rows, otherwise the strategy returns [None]:
    for [TableParser] its line range spans at least that many lines, for
    [EnhancedTableParser] its [row_count] is at least that. The delimited-
    and pipe-anchored strategies of [TableParser] and the extraction
    functions of [EnhancedTableParser] decide on the number of collected
    rows alone (the delimited one also wants a line that is not blank above
    the delimiter): no digit is asked for. The financial-anchored and the
    aligned strategy of [TableParser] return no table when no line from the
    anchor on bears a digit. *)
Theorem accepted_tables_have_min_rows
  (TABLE_MIN_ROWS : Z) (lines : list string) (start : Z)
  (Hstart : 0 <= start < Z.of_nat (List.length lines)) :
  (forall t, TableParser._extract_financial_table TABLE_MIN_ROWS lines start
             = Some t ->
     TABLE_MIN_ROWS <= TableParser.end_line t - start + 1
     /\ TableParser.start_line t <= start)
  /\ (forallb (fun line => negb (TableParser.has_digit line))
              (skipn (Z.to_nat start) lines) = true ->
      TableParser._extract_financial_table TABLE_MIN_ROWS lines start = None)
  /\ (forall t, TableParser._extract_delimited_table TABLE_MIN_ROWS lines start
                = Some t ->
        TABLE_MIN_ROWS <= TableParser.end_line t - TableParser.start_line t + 1)
  /\ ((exists t, TableParser._extract_delimited_table TABLE_MIN_ROWS lines start
                 = Some t)
      <-> ((start >? 0)
           && negb (Py.truthy (Py.strip (Py.get lines (start - 1)))) = false
           /\ TABLE_MIN_ROWS
              <= Z.of_nat (List.length
                   (TableParser.delimited_loop
                      (skipn (Z.to_nat (start + 1)) lines)
                      ((if start >? 0 then [Py.get lines (start - 1)] else [])
                         ++ [Py.get lines start]) 0))))
  /\ (forall t, TableParser._extract_pipe_table TABLE_MIN_ROWS lines start
                = Some t ->
        TABLE_MIN_ROWS <= TableParser.end_line t - TableParser.start_line t + 1)
  /\ ((exists t, TableParser._extract_pipe_table TABLE_MIN_ROWS lines start
                 = Some t)
      <-> TABLE_MIN_ROWS
          <= Z.of_nat (List.length
               (TableParser.pipe_loop (skipn (Z.to_nat start) lines) [])))
  /\ (forall t, TableParser._extract_aligned_table TABLE_MIN_ROWS lines start
                = Some t ->
        TABLE_MIN_ROWS <= TableParser.end_line t - TableParser.start_line t + 1)
  /\ (forallb (fun line => negb (TableParser.has_digit line))
              (skipn (Z.to_nat start) lines) = true ->
      TableParser._extract_aligned_table TABLE_MIN_ROWS lines start = None)
  /\ (forall t, EnhancedTableParser._extract_financial_table
                  TABLE_MIN_ROWS lines start = EnhancedTableParser.Ok (Some t) ->
        TABLE_MIN_ROWS <= EnhancedTableParser.row_count t
        /\ EnhancedTableParser.row_count t
           = Z.of_nat (List.length (EnhancedTableParser.content t)))
  /\ (EnhancedTableParser._extract_financial_table TABLE_MIN_ROWS lines start
      = EnhancedTableParser.Ok None
      <-> Z.of_nat (List.length
            (EnhancedTableParser.table_content
               (EnhancedTableParser.financial_loop
                  (skipn (Z.to_nat (start + 1)) lines) start 0
                  (EnhancedTableParser.mkGrowth
                     (if Py.truthy (Py.strip (Py.get lines start))
                      then [[Py.strip (Py.get lines start)]] else [])
                     false false (start + 1)))))
          < TABLE_MIN_ROWS)
  /\ (forall t, EnhancedTableParser._extract_pipe_table
                  TABLE_MIN_ROWS lines start = EnhancedTableParser.Ok (Some t) ->
        TABLE_MIN_ROWS <= EnhancedTableParser.row_count t
        /\ EnhancedTableParser.row_count t
           = Z.of_nat (List.length (EnhancedTableParser.content t)))
  /\ (EnhancedTableParser._extract_pipe_table TABLE_MIN_ROWS lines start
      = EnhancedTableParser.Ok None
      <-> Z.of_nat (List.length
            (EnhancedTableParser.pipe_loop (skipn (Z.to_nat start) lines) []))
          < TABLE_MIN_ROWS).
Proof.
  split.
  {
    intros t H. unfold TableParser._extract_financial_table in H.
    destruct (if (start >? 0)
                 && negb (TableParser._is_table_line (Py.get lines (start - 1)))
              then _ else _) as [title table_start] eqn:Et.
    destruct (TableParser.financial_loop _ _ _ _) as [raw hn] eqn:El.
    destruct ((Z.of_nat (List.length raw) <? TABLE_MIN_ROWS) || negb hn) eqn:Ec;
      [discriminate|].
    apply orb_false_iff in Ec. destruct Ec as [Ec Hn].
    apply Z.ltb_ge in Ec.
    injection H as <-. cbn [TableParser.end_line TableParser.start_line].
    split; [lia|].
    destruct ((start >? 0)
              && negb (TableParser._is_table_line (Py.get lines (start - 1))));
      [destruct (Py.truthy _ && _)|]; injection Et as _ <-; lia.
  }
  split.
  {
    intro Hno. unfold TableParser._extract_financial_table.
    destruct (if (start >? 0)
                 && negb (TableParser._is_table_line (Py.get lines (start - 1)))
              then _ else _) as [title table_start].
    destruct (TableParser.financial_loop _ _ _ _) as [raw hn] eqn:El.
    apply ExtractionFacts.financial_loop_spec in El.
    destruct El as (mid & post & _ & _ & Hd).
    destruct hn.
    + destruct (Hd eq_refl) as [Hh|Hh]; [discriminate|].
      rewrite (DigitFacts.no_digit_firstn _ _ Hno) in Hh. discriminate.
    + rewrite orb_true_r. reflexivity.
  }
  split.
  {
    intros t H. unfold TableParser._extract_delimited_table in H.
    destruct ((start >? 0) && _); [discriminate|].
    destruct (Z.of_nat (List.length _) <? TABLE_MIN_ROWS) eqn:Ec; [discriminate|].
    apply Z.ltb_ge in Ec. injection H as <-.
    cbn [TableParser.end_line TableParser.start_line]. lia.
  }
  split.
  {
    unfold TableParser._extract_delimited_table.
    destruct ((start >? 0)
              && negb (Py.truthy (Py.strip (Py.get lines (start - 1))))).
    + split; [intros [t H]; discriminate|intros [H _]; discriminate].
    + destruct (Z.of_nat (List.length _) <? TABLE_MIN_ROWS) eqn:Ec.
      * apply Z.ltb_lt in Ec.
        split; [intros [t H]; discriminate|intros [_ H]; lia].
      * apply Z.ltb_ge in Ec. split; [intros _; split; [reflexivity|exact Ec]|].
        intros _. eexists. reflexivity.
  }
  split.
  {
    intros t H. unfold TableParser._extract_pipe_table in H.
    destruct (Z.of_nat (List.length _) <? TABLE_MIN_ROWS) eqn:Ec; [discriminate|].
    apply Z.ltb_ge in Ec. injection H as <-.
    cbn [TableParser.end_line TableParser.start_line]. lia.
  }
  split.
  {
    unfold TableParser._extract_pipe_table.
    destruct (Z.of_nat (List.length _) <? TABLE_MIN_ROWS) eqn:Ec.
    + apply Z.ltb_lt in Ec. split; [intros [t H]; discriminate|lia].
    + apply Z.ltb_ge in Ec. split; [intros _; exact Ec|].
      intros _. eexists. reflexivity.
  }
  split.
  {
    intros t H. unfold TableParser._extract_aligned_table in H.
    destruct (TableParser.aligned_loop _ _ _ _) as [raw hn] eqn:El.
    destruct ((Z.of_nat (List.length raw) <? TABLE_MIN_ROWS) || negb hn) eqn:Ec;
      [discriminate|].
    apply orb_false_iff in Ec. destruct Ec as [Ec Hn].
    apply Z.ltb_ge in Ec.
    injection H as <-. cbn [TableParser.end_line TableParser.start_line].
    lia.
  }
  split.
  {
    intro Hno. unfold TableParser._extract_aligned_table.
    destruct (TableParser.aligned_loop _ _ _ _) as [raw hn] eqn:El.
    apply ExtractionFacts.aligned_loop_spec in El; [|lia].
    destruct El as (mid & post & _ & _ & Hd).
    destruct hn.
    + destruct (Hd eq_refl) as [Hh|Hh]; [discriminate|].
      rewrite (AssemblyFacts.skipn_get lines Hstart) in Hno.
      cbn [forallb] in Hno. apply andb_prop in Hno. destruct Hno as [_ Hno].
      rewrite (DigitFacts.no_digit_firstn _ _ Hno) in Hh. discriminate.
    + rewrite orb_true_r. reflexivity.
  }
  split.
  {
    intros t H. unfold EnhancedTableParser._extract_financial_table in H.
    destruct ((start <? 0) || _); [discriminate|].
    destruct (Z.of_nat (List.length _) <? TABLE_MIN_ROWS) eqn:Ec; [discriminate|].
    apply Z.ltb_ge in Ec.
    destruct (EnhancedTableParser._extract_enhanced_table_title lines start);
      [|discriminate].
    cbn [EnhancedTableParser.bind] in H. injection H as <-.
    cbn [EnhancedTableParser.row_count EnhancedTableParser.content].
    split; [exact Ec|reflexivity].
  }
  split.
  {
    unfold EnhancedTableParser._extract_financial_table.
    replace ((start <? 0) || (start >=? Z.of_nat (List.length lines)))
      with false by (symmetry; apply orb_false_iff; split;
                     [apply Z.ltb_ge|rewrite Z.geb_leb; apply Z.leb_gt]; lia).
    destruct (Z.of_nat (List.length _) <? TABLE_MIN_ROWS) eqn:Ec.
    + apply Z.ltb_lt in Ec. split; [intros _; exact Ec|reflexivity].
    + apply Z.ltb_ge in Ec. split; [|lia].
      destruct (EnhancedTableParser._extract_enhanced_table_title lines start);
        cbn [EnhancedTableParser.bind]; discriminate.
  }
  split.
  {
    intros t H. unfold EnhancedTableParser._extract_pipe_table in H.
    destruct (Z.of_nat (List.length _) <? TABLE_MIN_ROWS) eqn:Ec; [discriminate|].
    apply Z.ltb_ge in Ec.
    destruct (EnhancedTableParser._extract_enhanced_table_title lines start);
      [|discriminate].
    cbn [EnhancedTableParser.bind] in H. injection H as <-.
    cbn [EnhancedTableParser.row_count EnhancedTableParser.content].
    split; [exact Ec|reflexivity].
  }
  {
    unfold EnhancedTableParser._extract_pipe_table.
    destruct (Z.of_nat (List.length _) <? TABLE_MIN_ROWS) eqn:Ec.
    + apply Z.ltb_lt in Ec. split; [intros _; exact Ec|reflexivity].
    + apply Z.ltb_ge in Ec. split; [|lia].
      destruct (EnhancedTableParser._extract_enhanced_table_title lines start);
        cbn [EnhancedTableParser.bind]; discriminate.
  }
Qed.

Definition two_row_pipe_table : TableParser.Table :=
  TableParser.mkTable [] 0 0 0 1 None (95 # 100) "delimited"
                      (Py.join (String Py.newline "") ["a|b|c"; "d|e|f"])
                      ["a|b|c"; "d|e|f"].

Lemma accepted_tables_have_min_rows_witness :
  2 <= TableParser.end_line two_row_pipe_table
       - TableParser.start_line two_row_pipe_table + 1.
Proof.
  destruct (@accepted_tables_have_min_rows 2 ["a|b|c"; "d|e|f"] 0)
    as (_ & _ & _ & _ & H & _); [simpl; lia|].
  apply H. reflexivity.
Defined.

(** ** enhanced_table_parser.py : growth of a financial table *)

Module GrowthFacts.
Import Py EnhancedTableParser.

(** A line the growth loop walks past: blank, financial data, or neither
    a section break nor more than 50 lines from the anchor. *)
Definition absorbed (start j : Z) (line : string) : Prop :=
  is_blank line = true
  \/ is_data_line line = true
  \/ (_is_section_break line = false /\ j - start <= 50).

(** A line the growth loop stops at. *)
Definition stopper (start j : Z) (line : string) : Prop :=
  is_blank line = false /\ is_data_line line = false
  /\ (_is_section_break line = true \/ j - start > 50).

Lemma financial_loop_inv (rest : list string) :
  forall start ce g,
    exists n : nat,
      current_line (financial_loop rest start ce g)
      = current_line g + Z.of_nat n
      /\ (n <= List.length rest)%nat
      /\ (forall k line, (k < n)%nat -> nth_error rest k = Some line ->
                         absorbed start (current_line g + Z.of_nat k) line)
      /\ (n = List.length rest
          \/ (3 <= ce /\ n = O)
          \/ (exists line, nth_error rest (n - 1) = Some line
                           /\ (0 < n)%nat /\ is_blank line = true)
          \/ (exists line, nth_error rest n = Some line
                           /\ stopper start (current_line g + Z.of_nat n) line)).
Proof.
  induction rest as [|line rest IH]; intros start ce g.
  - exists O. simpl. repeat split; [lia|lia| |auto].
    intros k l Hk. lia.
  - cbn [financial_loop].
    destruct (ce <? 3) eqn:Ece.
    2:{ exists O. apply Z.ltb_ge in Ece. repeat split; [lia|simpl; lia| |].
        - intros k l Hk. lia.
        - right. left. split; [lia|reflexivity]. }
    assert (Hstep : forall ce' g',
               current_line g' = current_line g + 1 ->
               absorbed start (current_line g) line ->
               (3 <= ce' -> is_blank line = true) ->
               exists n : nat,
                 current_line (financial_loop rest start ce' g')
                 = current_line g + Z.of_nat n
                 /\ (n <= List.length (line :: rest))%nat
                 /\ (forall k l, (k < n)%nat ->
                        nth_error (line :: rest) k = Some l ->
                        absorbed start (current_line g + Z.of_nat k) l)
                 /\ (n = List.length (line :: rest)
                     \/ (3 <= ce /\ n = O)
                     \/ (exists l, nth_error (line :: rest) (n - 1) = Some l
                                   /\ (0 < n)%nat /\ is_blank l = true)
                     \/ (exists l, nth_error (line :: rest) n = Some l
                                   /\ stopper start
                                        (current_line g + Z.of_nat n) l))).
    { intros ce' g' Hg' Habs Hce'.
      destruct (IH start ce' g') as (n & Hn & Hle & Hall & Hstop).
      exists (S n). repeat split.
      - rewrite Hn, Hg'. lia.
      - simpl. lia.
      - intros k l Hk Hl. destruct k as [|k].
        + simpl in Hl. injection Hl as <-.
          replace (current_line g + Z.of_nat 0) with (current_line g) by lia.
          exact Habs.
        + simpl in Hl.
          replace (current_line g + Z.of_nat (S k))
            with (current_line g' + Z.of_nat k) by lia.
          apply Hall; [lia|exact Hl].
      - destruct Hstop as [Hs|[[Hs1 Hs2]|[(l & Hl & Hpos & Hb)|(l & Hl & Hs)]]].
        + left. simpl. lia.
        + right. right. left. subst n. exists line. simpl.
          repeat split; [lia|auto].
        + right. right. left. exists l.
          replace (S n - 1)%nat with (S (n - 1)) by lia.
          simpl. repeat split; [exact Hl|lia|exact Hb].
        + right. right. right. exists l. split; [exact Hl|].
          replace (current_line g + Z.of_nat (S n))
            with (current_line g' + Z.of_nat n) by lia.
          exact Hs. }
    destruct (is_blank line) eqn:Eb.
    + apply Hstep; [reflexivity|left; exact Eb|auto].
    + destruct (is_data_line line) eqn:Ed.
      * apply Hstep; [reflexivity|right; left; exact Ed|lia].
      * destruct (_is_section_break line || (current_line g - start >? 50))
          eqn:Es.
        -- exists O. repeat split; [lia|simpl; lia| |].
           ++ intros k l Hk. lia.
           ++ right. right. right. exists line. simpl. split; [reflexivity|].
              unfold stopper. repeat split; [exact Eb|exact Ed|].
              apply orb_prop in Es. destruct Es as [Es|Es];
                [left; exact Es|right; lia].
        -- apply orb_false_iff in Es. destruct Es as [Es1 Es2].
           apply Hstep; [reflexivity| |lia].
           right. right. split; [exact Es1|lia].
Qed.
End GrowthFacts.

Definition sixty_one_lines : list string :=
  "Total assets" :: repeat "Cash    100" 60.

(** C7, as stated, fails: the anchor ["Total assets"] followed by 60 lines
    ["Cash    100"] yields one financial table that spans lines 0 to 60. *)
Lemma financial_table_beyond_50_lines :
  EnhancedTableParser._is_financial_statement_header
    (Py.get sixty_one_lines 0) = true
  /\ exists t,
      EnhancedTableParser._identify_financial_tables 2 sixty_one_lines []
      = EnhancedTableParser.Ok ([t], EnhancedTableParser.line_range 0 60)
      /\ EnhancedTableParser._extract_financial_table 2 sixty_one_lines 0
         = EnhancedTableParser.Ok (Some t)
      /\ EnhancedTableParser.end_line t - EnhancedTableParser.start_line t = 60.
Proof.
  split; [vm_compute; reflexivity|].
  eexists. split; [vm_compute; reflexivity|].
  split; vm_compute; reflexivity.
Qed.

(** C7, amended: the 50-line limit and the section-break phrases are only
    consulted at a line that is neither blank nor financial data. Every
    line of a returned financial table after its anchor is blank, or a
    financial-data line, or a line that holds no section-break phrase and
    lies at most 50 lines after the anchor; and the table ends at the end of
    the input, or on a blank line, or right before a non-blank non-data line
    that holds a section-break phrase or lies more than 50 lines after the
    anchor. Data lines are absorbed whatever their distance. *)
Theorem financial_table_growth
  (TABLE_MIN_ROWS : Z) (lines : list string) (start : Z)
  (t : EnhancedTableParser.Table)
  (H : EnhancedTableParser._extract_financial_table TABLE_MIN_ROWS lines start
       = EnhancedTableParser.Ok (Some t)) :
  EnhancedTableParser.start_line t = start
  /\ start <= EnhancedTableParser.end_line t < Z.of_nat (List.length lines)
  /\ (forall j, start < j <= EnhancedTableParser.end_line t ->
                GrowthFacts.absorbed start j (Py.get lines j))
  /\ (EnhancedTableParser.end_line t + 1 = Z.of_nat (List.length lines)
      \/ (start < EnhancedTableParser.end_line t
          /\ EnhancedTableParser.is_blank
               (Py.get lines (EnhancedTableParser.end_line t)) = true)
      \/ GrowthFacts.stopper start (EnhancedTableParser.end_line t + 1)
           (Py.get lines (EnhancedTableParser.end_line t + 1))).
Proof.
  unfold EnhancedTableParser._extract_financial_table in H.
  destruct ((start <? 0) || (start >=? Z.of_nat (List.length lines))) eqn:Er;
    [discriminate|].
  apply orb_false_iff in Er. destruct Er as [Er1 Er2].
  apply Z.ltb_ge in Er1. assert (Er3 : start < Z.of_nat (List.length lines)) by lia.
  clear Er2.
  match type of H with
  | context [EnhancedTableParser.financial_loop ?r ?s ?c ?g0] =>
      destruct (GrowthFacts.financial_loop_inv r s c g0)
        as (n & Hn & Hle & Hall & Hstop);
      remember (EnhancedTableParser.financial_loop r s c g0) as g eqn:Eg
  end.
  clear Eg.
  destruct (Z.of_nat (List.length (EnhancedTableParser.table_content g))
            <? TABLE_MIN_ROWS); [discriminate|].
  destruct (EnhancedTableParser._extract_enhanced_table_title lines start);
    [|discriminate].
  cbn [EnhancedTableParser.bind] in H. injection H as <-.
  cbn [EnhancedTableParser.start_line EnhancedTableParser.end_line
       EnhancedTableParser.current_line] in *.
  rewrite length_skipn in Hle.
  assert (Hnth : forall k l,
             nth_error (skipn (Z.to_nat (start + 1)) lines) k = Some l ->
             Py.get lines (start + 1 + Z.of_nat k) = l).
  { intros k l Hk. rewrite nth_error_skipn in Hk. unfold Py.get.
    replace (Z.to_nat (start + 1 + Z.of_nat k))
      with (Z.to_nat (start + 1) + k)%nat by lia.
    apply nth_error_nth. exact Hk. }
  rewrite Hn. split; [reflexivity|]. split; [lia|]. split.
  - intros j Hj.
    destruct (nth_error (skipn (Z.to_nat (start + 1)) lines)
                        (Z.to_nat (j - start - 1))) as [l|] eqn:El.
    + pose proof (Hnth _ _ El) as Hg.
      replace (start + 1 + Z.of_nat (Z.to_nat (j - start - 1))) with j in Hg
        by lia.
      rewrite Hg.
      replace j with (start + 1 + Z.of_nat (Z.to_nat (j - start - 1))) at 1
        by lia.
      apply Hall; [lia|exact El].
    + apply nth_error_None in El. rewrite length_skipn in El. lia.
  - destruct Hstop as [Hs|[[Hs _]|[(l & Hl & Hpos & Hb)|(l & Hl & Hs)]]].
    + left. rewrite length_skipn in Hs. lia.
    + lia.
    + right. left. split; [lia|].
      apply Hnth in Hl.
      replace (start + 1 + Z.of_nat (n - 1)) with (start + 1 + Z.of_nat n - 1)
        in Hl by lia.
      rewrite Hl. exact Hb.
    + right. right. apply Hnth in Hl.
      replace (start + 1 + Z.of_nat n - 1 + 1) with (start + 1 + Z.of_nat n)
        by lia.
      rewrite Hl. exact Hs.
Qed.

Definition growth_sample : list string :=
  ["Total assets"; "Cash    100"; "memo"; "see note 4"].

Definition growth_sample_table : EnhancedTableParser.Table :=
  EnhancedTableParser.mkTable
    [["Total assets"]; ["Cash"; "100"]] 0 0 0 2 None (95 # 100) "financial"
    (Py.join (String Py.newline "") ["Total assets"; "Cash    100"; "memo"])
    2 2 true false.

Lemma financial_table_growth_witness :
  EnhancedTableParser.start_line growth_sample_table = 0
  /\ 0 <= EnhancedTableParser.end_line growth_sample_table < 4
  /\ GrowthFacts.stopper 0 3 (Py.get growth_sample 3).
Proof.
  destruct (@financial_table_growth 2 growth_sample 0 growth_sample_table)
    as (H1 & H2 & _ & H4); [vm_compute; reflexivity|].
  split; [exact H1|]. split; [exact H2|].
  destruct H4 as [H4|[[_ H4]|H4]].
  - vm_compute in H4. discriminate.
  - vm_compute in H4. discriminate.
  - exact H4.
Defined.

(** ** extractor.py : the saved document and the clock *)

Definition sample_filing : MDNAExtractor.Filing :=
  MDNAExtractor.mkFiling (MDNAExtractor.mkPath "report.txt" None)
                         "0000001234" "Unknown Company" "10-K" None 0.

Definition sample_result : MDNAExtractor.ExtractionResult :=
  MDNAExtractor.mkExtractionResult sample_filing "Overview of the year." 0 21 4.

Definition first_run_clock : MDNAExtractor.datetime :=
  MDNAExtractor.mkDatetime 2024 5 17 10 30 0 0.
Definition second_run_clock : MDNAExtractor.datetime :=
  MDNAExtractor.mkDatetime 2024 5 17 10 30 1 0.

(** C4, as stated, fails: the same extraction result saved at two different
    times gives the same file name but two different documents. *)
Lemma saved_output_differs_between_runs :
  fst (MDNAExtractor._save_extraction_result sample_result sample_filing
                                             first_run_clock)
  = fst (MDNAExtractor._save_extraction_result sample_result sample_filing
                                               second_run_clock)
  /\ String.eqb
       (snd (MDNAExtractor._save_extraction_result sample_result sample_filing
                                                   first_run_clock))
       (snd (MDNAExtractor._save_extraction_result sample_result sample_filing
                                                   second_run_clock))
     = false
  /\ MDNAExtractor._save_extraction_result sample_result sample_filing
                                           first_run_clock
     <> MDNAExtractor._save_extraction_result sample_result sample_filing
                                              second_run_clock.
Proof.
  split; [reflexivity|]. split; [vm_compute; reflexivity|].
  intro H. vm_compute in H. discriminate H.
Qed.

(** C4, amended: the saved document is a function of the extraction result
    and of the clock reading taken when it is formatted. Two runs on the
    same result agree on the file name and on every line of the document
    except line 6 (index 5), which is "Extraction Date: " followed by the
    clock reading; with equal clock readings the documents are identical. *)
Theorem saved_output_up_to_timestamp
  (result : MDNAExtractor.ExtractionResult) (filing : MDNAExtractor.Filing)
  (now1 now2 : MDNAExtractor.datetime) :
  fst (MDNAExtractor._save_extraction_result result filing now1)
  = fst (MDNAExtractor._save_extraction_result result filing now2)
  /\ (forall k, k <> 5%nat ->
        nth k (MDNAExtractor.format_lines result now1) ""
        = nth k (MDNAExtractor.format_lines result now2) "")
  /\ nth 5 (MDNAExtractor.format_lines result now1) ""
     = String.append "Extraction Date: " (MDNAExtractor.isoformat now1)
  /\ (MDNAExtractor.isoformat now1 = MDNAExtractor.isoformat now2 ->
      MDNAExtractor._save_extraction_result result filing now1
      = MDNAExtractor._save_extraction_result result filing now2).
Proof.
  repeat split.
  - intros k Hk. unfold MDNAExtractor.format_lines.
    do 10 (destruct k as [|k]; [try reflexivity; congruence|]).
    destruct k; reflexivity.
  - intro H. unfold MDNAExtractor._save_extraction_result,
      MDNAExtractor._format_output, MDNAExtractor.format_lines.
    rewrite H. reflexivity.
Qed.

Lemma saved_output_up_to_timestamp_witness :
  nth 3 (MDNAExtractor.format_lines sample_result first_run_clock) ""
  = nth 3 (MDNAExtractor.format_lines sample_result second_run_clock) ""
  /\ MDNAExtractor._save_extraction_result sample_result sample_filing
                                           first_run_clock
     = MDNAExtractor._save_extraction_result sample_result sample_filing
                                             first_run_clock.
Proof.
  pose proof (saved_output_up_to_timestamp sample_result sample_filing
                first_run_clock second_run_clock) as [_ [H1 _]].
  pose proof (saved_output_up_to_timestamp sample_result sample_filing
                first_run_clock first_run_clock) as [_ [_ [_ H2]]].
  split.
  - apply H1. discriminate.
  - apply H2. reflexivity.
Defined.
